(** * AUSCrawl: the extraction-and-normalisation pipeline of [crawl.js]

    A shallow embedding of [crawl.js]: the browser-side record extraction
    (the callback given to [page.$$eval('th a', ...)]), the lookup-or-insert
    persistence loop of [crawl], and the per-term loop of [startCrawl].

    Conventions of the embedding.
    - A JavaScript string is a [string]; its characters stand for code units
      (the line terminators and white space that fit in eight bits are the
      ones recognised).
    - A JavaScript object used as a record is an association list from
      property names to values ([obj]); reading a missing property gives
      [VUndefined], as in the language.
    - An exception is a [Throw]; calling a method on [undefined] or [null]
      throws [TypeError].
    - The relational store is a record of tables, each the list of its rows
      in insertion order; an asynchronous function is a store transformer that
      keeps the store written so far when it rejects. *)

From Stdlib Require Import String Ascii List ZArith Bool Arith Lia DecimalString.
From Stdlib Require Import Sorted Permutation OrdersEx.
Import ListNotations.
Open Scope string_scope.
Open Scope list_scope.

(** ** Exceptions *)

Inductive exn : Type :=
| TypeError      (* property access or method call on undefined / null *)
| TimeoutError   (* page.waitForSelector gave up *)
| QueryError.    (* the store rejected a query *)

Inductive result (A : Type) : Type :=
| Ok (a : A)
| Throw (e : exn).
Arguments Ok {A} a.
Arguments Throw {A} e.

Definition rbind {A B : Type} (r : result A) (k : A -> result B) : result B :=
  match r with
  | Ok a => k a
  | Throw e => Throw e
  end.

Declare Scope result_scope.
Delimit Scope result_scope with result.
Notation "x <- r ;; k" := (rbind r (fun x => k))
  (at level 61, r at next level, right associativity) : result_scope.

(** ** JavaScript values and strings *)

Module Js.

Inductive value : Type :=
| VUndefined
| VNull
| VBool (b : bool)
| VNum (n : Z)
| VStr (s : string).

Definition value_eqb (a b : value) : bool :=
  match a, b with
  | VUndefined, VUndefined => true
  | VNull, VNull => true
  | VBool x, VBool y => Bool.eqb x y
  | VNum x, VNum y => Z.eqb x y
  | VStr x, VStr y => String.eqb x y
  | _, _ => false
  end.

(** Truthiness, as tested by [if (v)] and [v || w]. *)
Definition truthy (v : value) : bool :=
  match v with
  | VUndefined | VNull => false
  | VBool b => b
  | VNum n => negb (Z.eqb n 0)
  | VStr s => negb (String.eqb s "")
  end.

(** String conversion inside a template literal. *)
Definition toString (v : value) : string :=
  match v with
  | VUndefined => "undefined"
  | VNull => "null"
  | VBool true => "true"
  | VBool false => "false"
  | VNum n => NilZero.string_of_int (Z.to_int n)
  | VStr s => s
  end.

(** The receiver of a string method: anything but a string has no such
    method (or no properties at all) and the call throws. *)
Definition asString (v : value) : result string :=
  match v with
  | VStr s => Ok s
  | _ => Throw TypeError
  end.

(** [a[k]] on an array of strings. *)
Definition at_ (a : list string) (k : nat) : value :=
  match nth_error a k with
  | Some s => VStr s
  | None => VUndefined
  end.

(** [s.includes(needle)] *)
Fixpoint includes (needle s : string) : bool :=
  prefix needle s ||
  match s with
  | EmptyString => false
  | String _ s' => includes needle s'
  end.

Fixpoint drop (n : nat) (s : string) : string :=
  match n, s with
  | O, _ => s
  | S n', String _ s' => drop n' s'
  | S _, EmptyString => EmptyString
  end.

(** [s.split(sep)] for a non-empty separator: [skip] counts the characters
    of a separator occurrence still to be passed over, [cur] is the piece
    being collected. *)
Fixpoint split_from (sep : string) (skip : nat) (cur s : string) : list string :=
  match s with
  | EmptyString => [cur]
  | String c s' =>
      match skip with
      | S k => split_from sep k cur s'
      | O =>
          if prefix sep s
          then cur :: split_from sep (String.length sep - 1) "" s'
          else split_from sep 0 (cur ++ String c "") s'
      end
  end.

Definition split (sep s : string) : list string := split_from sep 0 "" s.

(** White space stripped by [trim] and skipped by [parseInt]. *)
Definition isWhiteSpace (c : ascii) : bool :=
  let n := nat_of_ascii c in
  ((9 <=? n)%nat && (n <=? 13)%nat) || (n =? 32)%nat || (n =? 160)%nat.

(** Line terminators, which [.] does not match. *)
Definition isLineTerminator (c : ascii) : bool :=
  let n := nat_of_ascii c in (n =? 10)%nat || (n =? 13)%nat.

Fixpoint trimStart (s : string) : string :=
  match s with
  | String c s' => if isWhiteSpace c then trimStart s' else s
  | EmptyString => EmptyString
  end.

Fixpoint trimEnd (s : string) : string :=
  match s with
  | EmptyString => EmptyString
  | String c s' =>
      let r := trimEnd s' in
      if isWhiteSpace c && String.eqb r "" then "" else String c r
  end.

Definition trim (s : string) : string := trimEnd (trimStart s).

(** [s.replace(pat, '')] with a string pattern: the first occurrence goes. *)
Fixpoint removeFirst (pat s : string) : string :=
  if prefix pat s then drop (String.length pat) s
  else match s with
       | EmptyString => EmptyString
       | String c s' => String c (removeFirst pat s')
       end.

(** *** The three regular expressions of the extractor

    [s.match(re)] with the [g] flag gives the array of all matches, or
    [null] when there is none; the code only reads element [0], the
    leftmost match, so that is what is computed: [None] stands for [null]. *)

(** The longest run of [.]: up to the next line terminator. *)
Fixpoint restOfLine (s : string) : string :=
  match s with
  | EmptyString => EmptyString
  | String c s' => if isLineTerminator c then "" else String c (restOfLine s')
  end.

(** [/(?<=label).*/g]: the lookbehind holds first right after the first
    occurrence of [label]; [.*] then takes the rest of that line. *)
Fixpoint matchAfter (label s : string) : option string :=
  if prefix label s then Some (restOfLine (drop (String.length label) s))
  else match s with
       | EmptyString => None
       | String _ s' => matchAfter label s'
       end.

(** [.+?] once it has taken a character: stop as soon as the lookahead
    [(?= word)] holds, otherwise take one more character of the line. *)
Fixpoint lazyMore (word s : string) : option string :=
  if prefix word s then Some ""
  else match s with
       | EmptyString => None
       | String c s' =>
           if isLineTerminator c then None
           else option_map (String c) (lazyMore word s')
       end.

(** An attempt of [/.+?(?=word)/] at the start of [s]. *)
Definition lazyAt (word s : string) : option string :=
  match s with
  | EmptyString => None
  | String c s' =>
      if isLineTerminator c then None
      else option_map (String c) (lazyMore word s')
  end.

(** [/.+?(?=word)/g]: the leftmost position where an attempt succeeds. *)
Fixpoint matchBefore (word s : string) : option string :=
  match lazyAt word s with
  | Some m => Some m
  | None =>
      match s with
      | EmptyString => None
      | String _ s' => matchBefore word s'
      end
  end.

(** *** [parseInt(s)] without a radix argument

    [None] is [NaN].  The result is kept exact; the rounding of integers
    beyond 2^53 is not represented. *)

Definition digitValue (c : ascii) : option Z :=
  let n := Z.of_nat (nat_of_ascii c) in
  if ((48 <=? n) && (n <=? 57))%Z then Some (n - 48)%Z
  else if ((97 <=? n) && (n <=? 122))%Z then Some (n - 87)%Z
  else if ((65 <=? n) && (n <=? 90))%Z then Some (n - 55)%Z
  else None.

(** Digits of the given radix read so far are in [acc]. *)
Fixpoint readDigits (radix : Z) (acc : option Z) (s : string) : option Z :=
  match s with
  | EmptyString => acc
  | String c s' =>
      match digitValue c with
      | Some d =>
          if (d <? radix)%Z
          then readDigits radix
                 (Some (match acc with Some a => a * radix + d | None => d end)%Z) s'
          else acc
      | None => acc
      end
  end.

Definition stripSign (s : string) : bool * string :=
  match s with
  | String "-" s' => (true, s')
  | String "+" s' => (false, s')
  | _ => (false, s)
  end.

Definition parseInt (s : string) : option Z :=
  let (neg, body) := stripSign (trimStart s) in
  let magnitude :=
    if prefix "0x" body || prefix "0X" body
    then readDigits 16 None (drop 2 body)
    else readDigits 10 None body in
  option_map (fun m => if neg then (- m)%Z else m) magnitude.

(** *** Objects as records *)

Definition obj : Type := list (string * value).

(** [o.k] or [o['k']] *)
Fixpoint get (k : string) (o : obj) : value :=
  match o with
  | [] => VUndefined
  | (k', v) :: o' => if String.eqb k k' then v else get k o'
  end.

(** [o['k'] = v] *)
Fixpoint set (k : string) (v : value) (o : obj) : obj :=
  match o with
  | [] => [(k, v)]
  | (k', v') :: o' =>
      if String.eqb k k' then (k', v) :: o' else (k', v') :: set k v o'
  end.

End Js.
Import Js.

(** ** The listing document, as the extractor sees it *)

(** The first [table] inside a detail block: the text of its [td] cells in
    document order, and the [href] of the first link inside a cell. *)
Record Table : Type := {
  tds : list string;
  linkHref : option string
}.

(** The element after the header row: its text and its first table. *)
Record Detail : Type := {
  descriptionText : string;
  classTable : option Table
}.

(** One [th a] element: a header line, and the detail block reached through
    [parentElement.parentElement.nextElementSibling] ([None] when that chain
    ends in [null]). *)
Record Anchor : Type := {
  innerText : string;
  nextElementSibling : option Detail
}.

(** What the process is started with: the [VERBOSE] environment variable,
    and the browser's [new Date(s).toString()], which the language leaves to
    the implementation. *)
Record Env : Type := {
  VERBOSE : bool;
  dateToString : string -> string
}.

(** ** RecordExtractor: the callback of [page.$$eval('th a', ...)] *)

Module Extract.

Local Open Scope result_scope.

(** [classTable.querySelectorAll('td')[k].innerText] *)
Definition td (t : Table) (k : nat) : result string :=
  match nth_error (tds t) k with
  | Some s => Ok s
  | None => Throw TypeError
  end.

(** [m[0]] on the value of [s.match(re)] *)
Definition elem0 (m : option string) : result string :=
  match m with
  | Some s => Ok s
  | None => Throw TypeError
  end.

(** [s || null] *)
Definition orNull (s : string) : value :=
  if truthy (VStr s) then VStr s else VNull.

(** [parseInt(s) || null] *)
Definition intOrNull (n : option Z) : value :=
  match n with
  | Some n => if truthy (VNum n) then VNum n else VNull
  | None => VNull
  end.

(** The object literal of the branch [classTable === null]. *)
Definition placeholderInfo (crnTitle : list string) (descriptionText : string)
  : result obj :=
  t2 <- asString (at_ crnTitle 2) ;;
  lv <- elem0 (matchAfter "Levels: " descriptionText) ;;
  st <- elem0 (matchBefore " Schedule" descriptionText) ;;
  cr <- elem0 (matchBefore " Credits" descriptionText) ;;
  Ok [ ("crn", at_ crnTitle 1);
       ("subject", at_ (split " " t2) 0);
       ("classTitle", at_ crnTitle 0);
       ("classShortName", at_ crnTitle 2);
       ("classNumber", at_ (split " " t2) 1);
       ("classSection", at_ crnTitle 3);
       ("classType", VNull);
       ("isLab", VNull);
       ("instructor", VNull);
       ("startTime", VNull);
       ("endTime", VNull);
       ("isSunday", VBool false);
       ("isMonday", VBool false);
       ("isTuesday", VBool false);
       ("isWednesday", VBool false);
       ("isThursday", VBool false);
       ("levels", orNull lv);
       ("attributes", VNull);
       ("scheduleType", orNull st);
       ("credits", intOrNull (parseInt cr));
       ("classroom", VNull);
       ("seatsAvailable", VNull) ].

(** The object literal of the branch with a table. *)
Definition tableInfo (env : Env) (crnTitle : list string)
  (descriptionText : string) (classTable : Table) : result obj :=
  t2 <- asString (at_ crnTitle 2) ;;
  td6 <- td classTable 6 ;;
  td7 <- td classTable 7 ;;
  td1 <- td classTable 1 ;;
  lv <- elem0 (matchAfter "Levels: " descriptionText) ;;
  st <- elem0 (matchBefore " Schedule" descriptionText) ;;
  cr <- elem0 (matchBefore " Credits" descriptionText) ;;
  td4 <- td classTable 4 ;;
  td3 <- td classTable 3 ;;
  Ok [ ("crn", at_ crnTitle 1);
       ("subject", at_ (split " " t2) 0);
       ("classTitle", at_ crnTitle 0);
       ("classShortName", at_ crnTitle 2);
       ("classNumber", at_ (split " " t2) 1);
       ("classSection", at_ crnTitle 3);
       ("classType", VStr td6);
       ("isLab", VBool ((List.length crnTitle =? 5)%nat || String.eqb td6 "Lab"));
       ("instructor", at_ (split "(P)" td7) 0);
       ("startTime",
         VStr (dateToString env ("0, " ++ toString (at_ (split " - " td1) 0))));
       ("endTime",
         VStr (dateToString env ("0, " ++ toString (at_ (split " - " td1) 1))));
       ("isSunday", VBool false);
       ("isMonday", VBool false);
       ("isTuesday", VBool false);
       ("isWednesday", VBool false);
       ("isThursday", VBool false);
       ("levels", orNull lv);
       ("attributes", VNull);
       ("scheduleType", orNull st);
       ("credits", intOrNull (parseInt cr));
       ("classroom", VStr td4);
       ("seatsAvailable", VBool (String.eqb td3 "Y")) ].

(** The object [instructorInfo] built in the branch with a table. *)
Definition instructorInfoOf (classTable : Table) (info : obj) : result obj :=
  td7 <- td classTable 7 ;;
  name <- asString (at_ (split "(P)" td7) 0) ;;
  email <-
    (if value_eqb (get "instructor" info) (VStr "TBA") then Ok "none"
     else match linkHref classTable with
          | Some href =>
              addr <- asString (at_ (split "mailto:" href) 1) ;;
              Ok (trim addr)
          | None => Ok "none"
          end) ;;
  Ok [ ("name", VStr (trim name)); ("email", VStr email) ].

(** The cascade over the meeting-days text. *)
Definition setDay (days : string) (info : obj) : obj :=
  if includes "U" days then set "isSunday" (VBool true) info
  else if includes "M" days then set "isMonday" (VBool true) info
  else if includes "T" days then set "isTuesday" (VBool true) info
  else if includes "W" days then set "isWednesday" (VBool true) info
  else if includes "R" days then set "isThursday" (VBool true) info
  else info.

(** The six assignments shared by the two exceptions. *)
Definition remapped (crnTitle : list string) (info : obj) : result obj :=
  let info := set "crn" (at_ crnTitle 2) info in
  t3 <- asString (at_ crnTitle 3) ;;
  let info := set "subject" (at_ (split " " t3) 0) info in
  let info := set "classNumber" (at_ (split " " t3) 1) info in
  let info :=
    set "classTitle"
      (VStr (toString (at_ crnTitle 0) ++ " " ++ toString (at_ crnTitle 1))) info in
  let info := set "classShortName" (at_ crnTitle 3) info in
  Ok (set "classSection" (at_ crnTitle 4) info).

(** [if (crnTitle.length === 5 && crnTitle[1].includes('Lab')) {...}
     else if (crnTitle[1].includes('Targeted eLipo')) {...}] *)
Definition remap (crnTitle : list string) (info : obj) : result obj :=
  labLine <-
    (if (List.length crnTitle =? 5)%nat
     then t1 <- asString (at_ crnTitle 1) ;; Ok (includes "Lab" t1)
     else Ok false) ;;
  if labLine then remapped crnTitle info
  else
    t1 <- asString (at_ crnTitle 1) ;;
    if includes "Targeted eLipo" t1 then remapped crnTitle info else Ok info.

(** [if (descriptionText.match(re)) info['attributes'] = ...match(re)[0]] *)
Definition setAttributes (descriptionText : string) (info : obj) : obj :=
  match matchAfter "Attributes: " descriptionText with
  | Some m => set "attributes" (VStr m) info
  | None => info
  end.

(** One turn of the loop over the [th a] elements: the course record, and
    the instructor record when one is pushed. *)
Definition extractOne (env : Env) (a : Anchor) : result (obj * option obj) :=
  let crnTitle := split " - " (innerText a) in
  descriptionElement <-
    (match nextElementSibling a with
     | Some d => Ok d
     | None => Throw TypeError
     end) ;;
  let text := descriptionText descriptionElement in
  r <-
    (match classTable descriptionElement with
     | None =>
         info <- placeholderInfo crnTitle text ;;
         Ok (info, None)
     | Some classTable =>
         info <- tableInfo env crnTitle text classTable ;;
         instructorInfo <- instructorInfoOf classTable info ;;
         days <- td classTable 2 ;;
         Ok (setDay days info, Some instructorInfo)
     end) ;;
  info <- remap crnTitle (fst r) ;;
  Ok (setAttributes text info, snd r).

(** [returnedResult]: the two arrays the callback fills by [push]. *)
Record Results : Type := {
  crnInfo : list obj;
  instructorInfo : list obj
}.

Fixpoint extractFrom (env : Env) (elements : list Anchor) (returnedResult : Results)
  : result Results :=
  match elements with
  | [] => Ok returnedResult
  | a :: rest =>
      r <- extractOne env a ;;
      extractFrom env rest
        {| crnInfo := crnInfo returnedResult ++ [fst r];
           instructorInfo :=
             match snd r with
             | Some i => instructorInfo returnedResult ++ [i]
             | None => instructorInfo returnedResult
             end |}
  end.

Definition totalResults (env : Env) (elements : list Anchor) : result Results :=
  extractFrom env elements {| crnInfo := []; instructorInfo := [] |}.

End Extract.

(** ** The relational store *)

(** The six models defined by [startCrawl]. *)
Inductive Model : Type :=
| CRNS | instructors | subjects | levels | attributes | semesters.

(** A table is the list of its rows, oldest first.  Of the columns the
    mapping layer adds, the [id] is kept; the two timestamps are not. *)
Record Store : Type := {
  crnRows : list obj;
  instructorRows : list obj;
  subjectRows : list obj;
  levelRows : list obj;
  attributeRows : list obj;
  semesterRows : list obj
}.

(** [sequelize.sync({force: true})]: every table dropped and created anew. *)
Definition emptyStore : Store :=
  {| crnRows := []; instructorRows := []; subjectRows := [];
     levelRows := []; attributeRows := []; semesterRows := [] |}.

Definition rows (m : Model) (s : Store) : list obj :=
  match m with
  | CRNS => crnRows s
  | instructors => instructorRows s
  | subjects => subjectRows s
  | levels => levelRows s
  | attributes => attributeRows s
  | semesters => semesterRows s
  end.

Definition setRows (m : Model) (r : list obj) (s : Store) : Store :=
  match m with
  | CRNS =>
      {| crnRows := r; instructorRows := instructorRows s;
         subjectRows := subjectRows s; levelRows := levelRows s;
         attributeRows := attributeRows s; semesterRows := semesterRows s |}
  | instructors =>
      {| crnRows := crnRows s; instructorRows := r;
         subjectRows := subjectRows s; levelRows := levelRows s;
         attributeRows := attributeRows s; semesterRows := semesterRows s |}
  | subjects =>
      {| crnRows := crnRows s; instructorRows := instructorRows s;
         subjectRows := r; levelRows := levelRows s;
         attributeRows := attributeRows s; semesterRows := semesterRows s |}
  | levels =>
      {| crnRows := crnRows s; instructorRows := instructorRows s;
         subjectRows := subjectRows s; levelRows := r;
         attributeRows := attributeRows s; semesterRows := semesterRows s |}
  | attributes =>
      {| crnRows := crnRows s; instructorRows := instructorRows s;
         subjectRows := subjectRows s; levelRows := levelRows s;
         attributeRows := r; semesterRows := semesterRows s |}
  | semesters =>
      {| crnRows := crnRows s; instructorRows := instructorRows s;
         subjectRows := subjectRows s; levelRows := levelRows s;
         attributeRows := attributeRows s; semesterRows := r |}
  end.

(** An [async] function over the store: the store it leaves behind, and
    the value it resolves to or the error it rejects with. *)
Definition M (A : Type) : Type := Store -> Store * result A.

Definition ret {A : Type} (a : A) : M A := fun s => (s, Ok a).

Definition throw {A : Type} (e : exn) : M A := fun s => (s, Throw e).

Definition bind {A B : Type} (c : M A) (k : A -> M B) : M B :=
  fun s =>
    match c s with
    | (s', Ok a) => k a s'
    | (s', Throw e) => (s', Throw e)
    end.

Definition lift {A : Type} (r : result A) : M A := fun s => (s, r).

Declare Scope async_scope.
Delimit Scope async_scope with async.
Notation "x <- c ;; k" := (bind c (fun x => k))
  (at level 61, c at next level, right associativity) : async_scope.

Module Db.

(** The rows selected by [where: {col: v}]. *)
Definition matches (col : string) (v : value) (row : obj) : bool :=
  value_eqb (get col row) v.

(** [Model.create(values)]: the row gets the next [id] and goes last. *)
Definition create (m : Model) (values : obj) : M obj :=
  fun s =>
    let row := ("id", VNum (Z.of_nat (List.length (rows m s)) + 1)) :: values in
    (setRows m (rows m s ++ [row]) s, Ok row).

(** [Model.bulkCreate(records)] *)
Fixpoint bulkCreate (m : Model) (records : list obj) : M unit :=
  match records with
  | [] => ret tt
  | r :: rest => bind (create m r) (fun _ => bulkCreate m rest)
  end.

(** The values of a new row of [findOrCreate]: the defaults, completed by
    the [where] column when the defaults leave it out. *)
Definition newValues (col : string) (v : value) (defaults : obj) : obj :=
  match get col defaults with
  | VUndefined => set col v defaults
  | _ => defaults
  end.

(** [Model.findOrCreate({where: {col: v}, defaults})], resolving to the
    instance and to whether it was built by this call (what the code reads
    back as [res[0]._options.isNewRecord]).  A [where] value that is
    [undefined] is rejected by the query builder. *)
Definition findOrCreate (m : Model) (col : string) (v : value) (defaults : obj)
  : M (obj * bool) :=
  fun s =>
    match v with
    | VUndefined => (s, Throw QueryError)
    | _ =>
        match find (matches col v) (rows m s) with
        | Some row => (s, Ok (row, false))
        | None =>
            match create m (newValues col v defaults) s with
            | (s', Ok row) => (s', Ok (row, true))
            | (s', Throw e) => (s', Throw e)
            end
        end
    end.

End Db.

(** ** [crawl]: one term *)

(** What the upstream pages give for one term: the two arrays read from the
    subject selector ([subjectFullName], [subjectShortName]), and the [th a]
    elements of the listing.  [None] is a wait for a selector that times
    out before the data can be read. *)
Record TermPage : Type := {
  subjectSelect : option (list string * list string);
  listing : option (list Anchor)
}.

(** The four counters declared at the top of [crawl]. *)
Record Counters : Type := {
  newSubjectCount : nat;
  newInstructorCount : nat;
  newLevelCount : nat;
  newAttributeCount : nat
}.

(** The figures of the closing message
    [Inserted ... CRNS, ... new subjects, ... new instructors,
     ... new attributes and ... new levels.] *)
Record Report : Type := {
  reportedCRNS : nat;
  reportedSubjects : nat;
  reportedInstructors : nat;
  reportedAttributes : nat;
  reportedLevels : nat
}.

Module Crawl.

Local Open Scope async_scope.

(** The loop over [subjectFullName], at index [i]; [count] is
    [newSubjectCount].  With [VERBOSE] set, the message for a new subject
    reads [subjects[i].shortName] on the model, where [subjects[i]] is
    undefined. *)
Fixpoint subjectLoop (env : Env) (termID : string) (subjectShortName : list string)
  (i : nat) (subjectFullName : list string) (count : nat) : M nat :=
  match subjectFullName with
  | [] => ret count
  | longName :: rest =>
      res <- Db.findOrCreate subjects "shortName" (at_ subjectShortName i)
               [ ("shortName", at_ subjectShortName i);
                 ("longName", VStr longName);
                 ("firstSeen", VStr termID) ] ;;
      count' <-
        (if snd res
         then _ <- (if VERBOSE env then throw TypeError else ret tt) ;;
              ret (S count)
         else ret count) ;;
      subjectLoop env termID subjectShortName (S i) rest count'
  end.

(** The inner loops over [attributesArr] and [levelsArr]: one
    lookup-or-insert per piece, [count] going up by one for each new row. *)
Fixpoint tokenLoop (m : Model) (col : string) (termID : string)
  (arr : list string) (count : nat) : M nat :=
  match arr with
  | [] => ret count
  | tok :: rest =>
      res <- Db.findOrCreate m col (VStr tok)
               [ (col, VStr tok); ("firstSeen", VStr termID) ] ;;
      tokenLoop m col termID rest (if snd res then S count else count)
  end.

(** The body of the loop over [totalResults.crnInfo], for the record [info]
    at index [i]. *)
Definition courseStep (termID : string) (instructorInfo : list obj) (i : nat)
  (info : obj) (c : Counters) : M Counters :=
  nInstr <-
    (match nth_error instructorInfo i with
     | Some ii =>
         res <- Db.findOrCreate instructors "name" (get "name" ii)
                  (set "firstSeen" (VStr termID) ii) ;;
         ret (if snd res then S (newInstructorCount c) else newInstructorCount c)
     | None => ret (newInstructorCount c)
     end) ;;
  nAttr <-
    (if truthy (get "attributes" info)
     then a <- lift (asString (get "attributes" info)) ;;
          tokenLoop attributes "attribute" termID (split ", " a) (newAttributeCount c)
     else ret (newAttributeCount c)) ;;
  (* the loop over the levels counts into newAttributeCount as well *)
  nAttr' <-
    (if truthy (get "levels" info)
     then l <- lift (asString (get "levels" info)) ;;
          tokenLoop levels "level" termID (split ", " l) nAttr
     else ret nAttr) ;;
  _ <- Db.create CRNS (set "termID" (VStr termID) info) ;;
  ret {| newSubjectCount := newSubjectCount c;
         newInstructorCount := nInstr;
         newLevelCount := newLevelCount c;
         newAttributeCount := nAttr' |}.

Fixpoint courseLoop (termID : string) (instructorInfo : list obj) (i : nat)
  (infos : list obj) (c : Counters) : M Counters :=
  match infos with
  | [] => ret c
  | info :: rest =>
      c' <- courseStep termID instructorInfo i info c ;;
      courseLoop termID instructorInfo (S i) rest c'
  end.

Definition crawl (env : Env) (page : TermPage) (termID : string) : M Report :=
  sel <- (match subjectSelect page with
          | Some sel => ret sel
          | None => throw TimeoutError
          end) ;;
  nSubj <- subjectLoop env termID (snd sel) 0 (fst sel) 0 ;;
  elements <- (match listing page with
               | Some l => ret l
               | None => throw TimeoutError
               end) ;;
  totalResults <- lift (Extract.totalResults env elements) ;;
  c <- courseLoop termID (Extract.instructorInfo totalResults) 0
         (Extract.crnInfo totalResults)
         {| newSubjectCount := nSubj; newInstructorCount := 0;
            newLevelCount := 0; newAttributeCount := 0 |} ;;
  ret {| reportedCRNS := List.length (Extract.crnInfo totalResults);
         reportedSubjects := newSubjectCount c;
         reportedInstructors := newInstructorCount c;
         reportedAttributes := newAttributeCount c;
         reportedLevels := newLevelCount c |}.

End Crawl.

(** ** [startCrawl]: the run over all terms *)

(** The term selector as scraped at start-up: the [value] and the
    [innerText] of every [option[value]] element, or [None] when the wait
    for the selector times out; and the pages each term leads to. *)
Record World : Type := {
  termOptions : option (list (string * string));
  termPage : string -> TermPage
}.

Record Term : Type := {
  termID : string;
  termName : string
}.

(** Lines written to the console by the loop and by the final handler. *)
Inductive Line : Type :=
| SemestersInserted (n : nat)
| StartingCrawl (t : Term)
| Inserted (r : Report)
| DoneCrawling
| ErrorQuitting (e : exn).

(** How the process ends. *)
Record Outcome : Type := {
  finalStore : Store;
  console : list Line;
  exitCode : Z
}.

Module Start.

(** [returnedResult.sort((a,b) => (a.termID > b.termID) ? 1 :
    ((b.termID > a.termID) ? -1 : 0))], as a stable insertion sort. *)
Fixpoint insertTerm (t : Term) (sorted : list Term) : list Term :=
  match sorted with
  | [] => [t]
  | u :: rest =>
      if String.ltb (termID t) (termID u) then t :: sorted
      else u :: insertTerm t rest
  end.

Definition sortTerms (l : list Term) : list Term :=
  fold_left (fun acc t => insertTerm t acc) l [].

(** The callback of [page.$$eval('option[value]', ...)]. *)
Definition terms (options : list (string * string)) : list Term :=
  sortTerms
    (map (fun o => {| termID := fst o;
                      termName := removeFirst " (View only)" (snd o) |})
       (filter (fun o => negb (String.eqb (snd o) "None")) options)).

Definition termRecord (t : Term) : obj :=
  [ ("termID", VStr (termID t)); ("termName", VStr (termName t)) ].

(** The loop over [terms]: a rejection of [crawl] is rethrown at once. *)
Fixpoint termLoop (env : Env) (w : World) (ts : list Term) (s : Store)
  (out : list Line) : Store * list Line * result unit :=
  match ts with
  | [] => (s, out, Ok tt)
  | t :: rest =>
      match Crawl.crawl env (termPage w (termID t)) (termID t) s with
      | (s', Ok r) =>
          termLoop env w rest s' (out ++ [StartingCrawl t; Inserted r])
      | (s', Throw e) => (s', out ++ [StartingCrawl t], Throw e)
      end
  end.

(** [startCrawl()] together with the handler installed on its promise. *)
Definition startCrawl (env : Env) (w : World) : Outcome :=
  match termOptions w with
  | None =>
      {| finalStore := emptyStore;
         console := [ErrorQuitting TimeoutError];
         exitCode := 1 |}
  | Some options =>
      let ts := terms options in
      let s := fst (Db.bulkCreate semesters (map termRecord ts) emptyStore) in
      match termLoop env w ts s [SemestersInserted (List.length ts)] with
      | (s', out, Ok _) =>
          {| finalStore := s'; console := out ++ [DoneCrawling]; exitCode := 0 |}
      | (s', out, Throw e) =>
          {| finalStore := s'; console := out ++ [ErrorQuitting e]; exitCode := 1 |}
      end
  end.

End Start.

(** ** Sample pages *)

Module Sample.

Definition nl : string := String "010" "".

(** [VERBOSE] unset; the date text is kept as it is passed in. *)
Definition env : Env := {| VERBOSE := false; dateToString := fun s => s |}.

Definition freeText : string :=
  "Associated Term: Fall 2019" ++ nl ++ "Levels: Undergraduate, Graduate" ++ nl
  ++ "Lecture Schedule Type" ++ nl ++ "3.000 Credits" ++ nl.

Definition lectureTable : Table :=
  {| tds := ["Class"; "9:00 am - 9:50 am"; "MW"; "Y"; "ESB 1001";
             "Aug 25, 2019 - Dec 12, 2019"; "Lecture"; "Jane Doe (P)"];
     linkHref := Some "mailto:jdoe@aus.edu" |}.

(** A section with a meeting table. *)
Definition robotics : Anchor :=
  {| innerText := "Intro to Robotics - 12345 - COE 201 - 1";
     nextElementSibling :=
       Some {| descriptionText := freeText; classTable := Some lectureTable |} |}.

(** A placeholder listing: no table in the detail block. *)
Definition thesis : Anchor :=
  {| innerText := "Master Thesis - 20001 - COE 699 - 1";
     nextElementSibling :=
       Some {| descriptionText := freeText; classTable := None |} |}.

(** A placeholder whose free text has no [Levels: ] line. *)
Definition thesisNoLevels : Anchor :=
  {| innerText := "Master Thesis - 20001 - COE 699 - 1";
     nextElementSibling :=
       Some {| descriptionText :=
                 "Associated Term: Fall 2019" ++ nl ++ "Lecture Schedule Type"
                 ++ nl ++ "3.000 Credits" ++ nl;
               classTable := None |} |}.

(** The lab line with the extra piece in its title. *)
Definition calculusLab : Anchor :=
  {| innerText := "Calculus I - Lab - 10077 - MTH 103 - 2";
     nextElementSibling :=
       Some {| descriptionText := freeText; classTable := Some lectureTable |} |}.

(** A four-piece header whose second piece carries the marker text. *)
Definition elipo4 : Anchor :=
  {| innerText := "Special Topics - Targeted eLipo - 30412 - BIO 494";
     nextElementSibling :=
       Some {| descriptionText := freeText; classTable := Some lectureTable |} |}.

Definition withText (text : string) : Anchor :=
  {| innerText := "Intro to Robotics - 12345 - COE 201 - 1";
     nextElementSibling :=
       Some {| descriptionText := text; classTable := Some lectureTable |} |}.

(** Sections with a table whose free text lacks one of the three labels. *)
Definition noLevels : Anchor :=
  withText ("Associated Term: Fall 2019" ++ nl ++ "Lecture Schedule Type" ++ nl
            ++ "3.000 Credits" ++ nl).

Definition noSchedule : Anchor :=
  withText ("Associated Term: Fall 2019" ++ nl ++ "Levels: Undergraduate" ++ nl
            ++ "3.000 Credits" ++ nl).

Definition noCredits : Anchor :=
  withText ("Associated Term: Fall 2019" ++ nl ++ "Levels: Undergraduate" ++ nl
            ++ "Lecture Schedule Type" ++ nl).

(** A section whose credits text is not a number. *)
Definition variableCredits : Anchor :=
  withText ("Associated Term: Fall 2019" ++ nl ++ "Levels: Undergraduate" ++ nl
            ++ "Lecture Schedule Type" ++ nl ++ "TBA Credits" ++ nl).

Definition page (elements : list Anchor) : TermPage :=
  {| subjectSelect := Some (["Computer Engineering"], ["COE"]);
     listing := Some elements |}.

(** Two terms: the subject selector of the first never shows up, the
    second is fine. *)
Definition fall2005 : Term := {| termID := "200520"; termName := "Fall 2005" |}.

Definition spring2006 : Term := {| termID := "200610"; termName := "Spring 2006" |}.

(** A source where every term shows the same placeholder listing. *)
Definition quietWorld : World :=
  {| termOptions := Some [("200520", "Fall 2005"); ("200610", "Spring 2006")];
     termPage := fun _ => page [thesis] |}.

Definition world : World :=
  {| termOptions :=
       Some [ ("", "None"); ("200610", "Spring 2006 (View only)");
              ("200520", "Fall 2005") ];
     termPage := fun id =>
       if String.eqb id "200520"
       then {| subjectSelect := None; listing := None |}
       else page [robotics] |}.

End Sample.

(** * The extractor of the earlier revision

    The callback of [page.$$eval('th a', ...)] as the single-term revision
    of the crawler has it: no branch for a missing table, no test for a
    missing link, the instructor record built after the exceptions and
    pushed for every header. *)

Module Rev0.

Import Extract.

Local Open Scope result_scope.

(** [classTable.querySelector('td a').href.split('mailto:')[1].trim()],
    unless the instructor is "TBA". *)
Definition instructorInfoOf (classTable : Table) (info : obj) : result obj :=
  td7 <- td classTable 7 ;;
  name <- asString (at_ (split "(P)" td7) 0) ;;
  email <-
    (if value_eqb (get "instructor" info) (VStr "TBA") then Ok "none"
     else
       href <- (match linkHref classTable with
                | Some href => Ok href
                | None => Throw TypeError
                end) ;;
       addr <- asString (at_ (split "mailto:" href) 1) ;;
       Ok (trim addr)) ;;
  Ok [ ("name", VStr (trim name)); ("email", VStr email) ].

(** One turn of the loop: the object literal (the same as in the later
    branch with a table), the two exceptions, the attributes, the
    instructor record, the day flags. *)
Definition extractOne (env : Env) (a : Anchor) : result (obj * obj) :=
  let crnTitle := split " - " (innerText a) in
  descriptionElement <-
    (match nextElementSibling a with
     | Some d => Ok d
     | None => Throw TypeError
     end) ;;
  let text := descriptionText descriptionElement in
  _ <- asString (at_ crnTitle 2) ;;
  classTable <-
    (match classTable descriptionElement with
     | Some t => Ok t
     | None => Throw TypeError
     end) ;;
  info <- tableInfo env crnTitle text classTable ;;
  info <- remap crnTitle info ;;
  let info := setAttributes text info in
  instructorInfo <- instructorInfoOf classTable info ;;
  days <- td classTable 2 ;;
  Ok (setDay days info, instructorInfo).

Fixpoint extractFrom (env : Env) (elements : list Anchor) (returnedResult : Results)
  : result Results :=
  match elements with
  | [] => Ok returnedResult
  | a :: rest =>
      r <- extractOne env a ;;
      extractFrom env rest
        {| crnInfo := crnInfo returnedResult ++ [fst r];
           instructorInfo := instructorInfo returnedResult ++ [snd r] |}
  end.

Definition totalResults (env : Env) (elements : list Anchor) : result Results :=
  extractFrom env elements {| crnInfo := []; instructorInfo := [] |}.

End Rev0.

(** * Notions used to state the properties *)

Module ExtractSpec.

Import Extract.

(** The five day-of-week flags of a course record. *)
Definition dayKeys : list string :=
  ["isSunday"; "isMonday"; "isTuesday"; "isWednesday"; "isThursday"].

(** The six fields the two exceptions assign. *)
Definition headingKeys : list string :=
  ["crn"; "subject"; "classNumber"; "classTitle"; "classShortName"; "classSection"].

(** The rule in the words of the specification: the letters are tried in
    the order U, M, T, W, R and the first one found names the day. *)
Definition dayLetters : list (string * string) :=
  [ ("isSunday", "U"); ("isMonday", "M"); ("isTuesday", "T");
    ("isWednesday", "W"); ("isThursday", "R") ].

(** The first of the five letters that the text contains, if any. *)
Definition firstDay (days : string) : option string :=
  find (fun letter => includes letter days) (map snd dayLetters).

(** [letter] is that first letter. *)
Definition isFirstDay (days letter : string) : bool :=
  match firstDay days with
  | Some l => String.eqb l letter
  | None => false
  end.

(** The number of day flags that are [true] in a record. *)
Definition flagsSet (info : obj) : nat :=
  List.length (filter (fun k => value_eqb (get k info) (VBool true)) dayKeys).

(** The detail block of the header has a table. *)
Definition hasTable (a : Anchor) : bool :=
  match nextElementSibling a with
  | Some d => match classTable d with Some _ => true | None => false end
  | None => false
  end.

(** The fields that are read from the table. *)
Definition scheduleKeys : list string :=
  ["classType"; "isLab"; "instructor"; "startTime"; "endTime"; "classroom";
   "seatsAvailable"].

End ExtractSpec.

Module DbSpec.

Import Db.

(** [s'] has every row of [s], in place, and possibly more after them. *)
Definition extends (s s' : Store) : Prop :=
  forall m, exists added, rows m s' = rows m s ++ added.

(** A row with the given key is in the table. *)
Definition present (m : Model) (col : string) (v : value) (s : Store) : Prop :=
  find (matches col v) (rows m s) <> None.

End DbSpec.

Module CrawlSpec.

Import Db DbSpec Crawl.

Local Open Scope async_scope.

(** Every key a loop will look up is in its table (and is a legal [where]
    value): then every [findOrCreate] of the loop is a hit. *)
Fixpoint subjectsCovered (subjectShortName : list string) (i : nat)
  (subjectFullName : list string) (s : Store) : Prop :=
  match subjectFullName with
  | [] => True
  | _ :: rest =>
      (at_ subjectShortName i <> VUndefined
       /\ present subjects "shortName" (at_ subjectShortName i) s)
      /\ subjectsCovered subjectShortName (S i) rest s
  end.

(** The same for the pieces of an attribute or level list, ... *)
Definition tokensCovered (m : Model) (col : string) (arr : list string)
  (s : Store) : Prop :=
  Forall (fun tok => present m col (VStr tok) s) arr.

(** ... for a field that is only split when it is truthy, ... *)
Definition fieldCovered (m : Model) (col : string) (field : value) (s : Store) : Prop :=
  if truthy field
  then exists a, field = VStr a /\ tokensCovered m col (split ", " a) s
  else True.

(** ... for one turn of the loop over the course records, ... *)
Definition courseCovered (instructorInfo : list obj) (i : nat) (info : obj)
  (s : Store) : Prop :=
  match nth_error instructorInfo i with
  | Some ii =>
      get "name" ii <> VUndefined /\ present instructors "name" (get "name" ii) s
  | None => True
  end
  /\ fieldCovered attributes "attribute" (get "attributes" info) s
  /\ fieldCovered levels "level" (get "levels" info) s.

(** ... and for the whole loop from index [i] on. *)
Fixpoint coursesCovered (instructorInfo : list obj) (i : nat) (infos : list obj)
  (s : Store) : Prop :=
  match infos with
  | [] => True
  | info :: rest =>
      courseCovered instructorInfo i info s
      /\ coursesCovered instructorInfo (S i) rest s
  end.

(** The guarded inner loop over one field of the record. *)
Definition fieldLoop (m : Model) (col : string) (term : string) (field : value)
  (n : nat) : M nat :=
  if truthy field
  then a <- lift (asString field) ;; tokenLoop m col term (split ", " a) n
  else ret n.

(** The step on the instructor of the record at index [i]. *)
Definition instructorStep (term : string) (instructorInfo : list obj) (i : nat)
  (n : nat) : M nat :=
  match nth_error instructorInfo i with
  | Some ii =>
      res <- Db.findOrCreate instructors "name" (get "name" ii)
               (set "firstSeen" (VStr term) ii) ;;
      ret (if snd res then S n else n)
  | None => ret n
  end.

(** The tables of reference entities. *)
Definition isReference (m : Model) : bool :=
  match m with
  | instructors | subjects | levels | attributes => true
  | CRNS | semesters => false
  end.

(** The row count of a table. *)
Definition size (m : Model) (s : Store) : nat := List.length (rows m s).

(** The Subject rows that carry a given short code. *)
Definition withCode (code : string) (s : Store) : list obj :=
  filter (matches "shortName" (VStr code)) (rows subjects s).

End CrawlSpec.

Module StartSpec.

Import Db DbSpec Crawl Start.

(** Whatever way they end, the functions of the pipeline only add rows. *)
Definition grows {A : Type} (c : M A) : Prop :=
  forall s s' r, c s = (s', r) -> extends s s'.

(** The policy in the words of the specification: a failure inside a term
    does not stop the loop, so once the terms are discovered every one of
    them is started. *)
Definition failureScopedToTerm (env : Env) (w : World) : Prop :=
  forall options, termOptions w = Some options ->
    forall t, In t (terms options) ->
      In (StartingCrawl t) (console (startCrawl env w)).

End StartSpec.

Module ExtractMoreSpec.

(** The instructor records among the results of the turns of the loop, in
    order. *)
Definition instructorsOf (xs : list (obj * option obj)) : list obj :=
  flat_map (fun x => match snd x with Some i => [i] | None => [] end) xs.

End ExtractMoreSpec.

Module CrawlMoreSpec.

Import Db DbSpec Crawl.

(** A property of the store that a function keeps, whatever way it ends. *)
Definition keeps {A : Type} (P : Store -> Prop) (c : M A) : Prop :=
  forall s s' r, c s = (s', r) -> P s -> P s'.

(** No two rows of the table have the same value in the column. *)
Definition uniqueKey (m : Model) (col : string) (s : Store) : Prop :=
  NoDup (map (get col) (rows m s)).

(** The four reference tables hold each natural key at most once. *)
Definition referenceKeysUnique (s : Store) : Prop :=
  uniqueKey subjects "shortName" s
  /\ uniqueKey instructors "name" s
  /\ uniqueKey levels "level" s
  /\ uniqueKey attributes "attribute" s.

(** The row [Model.create] builds from the values and the row count. *)
Definition rowOf (n : nat) (values : obj) : obj :=
  ("id", VNum (Z.of_nat n + 1)) :: values.

(** The rows are the given records, in order, each under some [id]. *)
Definition rowsOf (records rows : list obj) : Prop :=
  Forall2 (fun values row => exists n, row = rowOf n values) records rows.

End CrawlMoreSpec.

Module StartMoreSpec.

Import Start.

(** [a] does not come after [b] in the order of the term identifiers. *)
Definition notAfter (a b : Term) : Prop :=
  String.ltb (termID b) (termID a) = false.

(** The term an option stands for. *)
Definition termOf (o : string * string) : Term :=
  {| termID := fst o; termName := removeFirst " (View only)" (snd o) |}.

(** The option is not the placeholder entry. *)
Definition isTerm (o : string * string) : bool :=
  negb (String.eqb (snd o) "None").

(** The lines the loop prints for terms that went through. *)
Definition reportLines (done : list (Term * Report)) : list Line :=
  flat_map (fun p => [StartingCrawl (fst p); Inserted (snd p)]) done.

End StartMoreSpec.

Module SchemaSpec.

Import Start.

(** The columns of the six tables, as [sequelize.define] declares them in
    [startCrawl] (the two timestamp columns the mapping layer adds are left
    out, as in the rows). *)
Definition columns (m : Model) : list string :=
  match m with
  | CRNS =>
      [ "id"; "crn"; "subject"; "classTitle"; "classShortName"; "classNumber";
        "classSection"; "classType"; "isLab"; "instructor"; "startTime";
        "endTime"; "isSunday"; "isMonday"; "isTuesday"; "isWednesday";
        "isThursday"; "levels"; "attributes"; "credits"; "classroom";
        "scheduleType"; "seatsAvailable"; "termID" ]
  | instructors => [ "id"; "name"; "email"; "firstSeen" ]
  | subjects => [ "id"; "shortName"; "longName"; "firstSeen" ]
  | levels => [ "id"; "level"; "firstSeen" ]
  | attributes => [ "id"; "attribute"; "firstSeen" ]
  | semesters => [ "id"; "termID"; "termName" ]
  end.

(** Every property of the row is a column of the table. *)
Definition conforms (m : Model) (row : obj) : Prop :=
  incl (map fst row) (columns m).

(** Every row of every table conforms to its table. *)
Definition wellFormed (s : Store) : Prop :=
  forall m, Forall (conforms m) (rows m s).

End SchemaSpec.

Module Rev0Spec.

(** The properties of a course record, in the order of the object
    literal. *)
Definition infoKeys : list string :=
  [ "crn"; "subject"; "classTitle"; "classShortName"; "classNumber";
    "classSection"; "classType"; "isLab"; "instructor"; "startTime"; "endTime";
    "isSunday"; "isMonday"; "isTuesday"; "isWednesday"; "isThursday"; "levels";
    "attributes"; "scheduleType"; "credits"; "classroom"; "seatsAvailable" ].

End Rev0Spec.

Module StampSpec.

(** What a row written while a term is crawled carries of that term: a
    course row its [termID], a reference row its [firstSeen]; a row of the
    Semester table is never such a row. *)
Definition stamped (term : string) (m : Model) (row : obj) : Prop :=
  match m with
  | CRNS => get "termID" row = VStr term
  | semesters => False
  | instructors | subjects | levels | attributes =>
      get "firstSeen" row = VStr term
  end.

(** Whatever way the function ends, each table is what it was, followed
    by rows that satisfy [Q]. *)
Definition addsOnly {A : Type} (Q : Model -> obj -> Prop) (c : M A) : Prop :=
  forall s s' r, c s = (s', r) ->
    forall m, exists added, rows m s' = rows m s ++ added /\ Forall (Q m) added.

End StampSpec.

(** * Properties *)

(** ** Strings *)

Module JsFacts.

Example split_header :
  split " - " "Intro to Robotics - 12345 - COE 201 - 1"
  = ["Intro to Robotics"; "12345"; "COE 201"; "1"].
Proof. reflexivity. Qed.

Example split_trailing : split " - " "a - " = ["a"; ""].
Proof. reflexivity. Qed.

Example match_levels :
  matchAfter "Levels: " ("Associated Term: Fall 2019" ++ String "010" "Levels: Undergraduate, Graduate" ++ String "010" "x")
  = Some "Undergraduate, Graduate".
Proof. reflexivity. Qed.

Example match_credits :
  matchBefore " Credits" ("Lecture Schedule Type" ++ String "010" "       3.000 Credits" ++ String "010" "x")
  = Some "       3.000".
Proof. reflexivity. Qed.

Example parseInt_credits : parseInt "       3.000" = Some 3%Z.
Proof. reflexivity. Qed.

Example parseInt_nan : parseInt "TBA" = None.
Proof. reflexivity. Qed.

Example trim_name : trim "Jane Doe " = "Jane Doe".
Proof. reflexivity. Qed.

End JsFacts.


(** ** Objects *)

Section ObjectFacts.

Lemma get_set_same (k : string) (v : value) (o : obj) :
  get k (set k v o) = v.
Proof.
  induction o as [| [k' v'] o IH]; simpl.
  - now rewrite String.eqb_refl.
  - destruct (String.eqb k k') eqn:E; simpl; rewrite E; auto.
Qed.

Lemma get_set_other (k k' : string) (v : value) (o : obj) :
  k <> k' -> get k (set k' v o) = get k o.
Proof.
  intros Hne. induction o as [| [k0 v0] o IH]; simpl.
  - destruct (String.eqb_spec k k'); [contradiction | reflexivity].
  - destruct (String.eqb_spec k' k0) as [-> | Hk]; simpl.
    + destruct (String.eqb_spec k k0); [contradiction | reflexivity].
    + destruct (String.eqb_spec k k0); auto.
Qed.

Lemma value_eqb_eq (a b : value) : value_eqb a b = true <-> a = b.
Proof.
  destruct a, b; simpl; split; intros H; try discriminate; try reflexivity.
  - f_equal. now apply Bool.eqb_prop.
  - injection H as ->. apply Bool.eqb_reflx.
  - f_equal. now apply Z.eqb_eq.
  - injection H as ->. apply Z.eqb_refl.
  - f_equal. now apply String.eqb_eq.
  - injection H as ->. apply String.eqb_refl.
Qed.

Lemma value_eqb_refl (a : value) : value_eqb a a = true.
Proof. now apply value_eqb_eq. Qed.

End ObjectFacts.

(** ** Extraction *)

Module ExtractFacts.

Import Extract ExtractSpec.

(** Case analysis on a successful sequence of fallible steps. *)
Ltac ok_steps H :=
  repeat match type of H with
    | rbind ?r _ = Ok _ =>
        let E := fresh "E" in
        destruct r eqn:E; simpl rbind in H; [| discriminate H]
    end.

(** The exceptions touch the six heading fields and nothing else. *)
Lemma remapped_frame (T : list string) (info info' : obj) (k : string) :
  remapped T info = Ok info' -> ~ In k headingKeys -> get k info' = get k info.
Proof.
  unfold remapped. intros H Hk. ok_steps H. injection H as <-.
  simpl in Hk.
  repeat (rewrite get_set_other; [| intros ->; apply Hk; tauto]).
  reflexivity.
Qed.

Lemma remap_frame (T : list string) (info info' : obj) (k : string) :
  remap T info = Ok info' -> ~ In k headingKeys -> get k info' = get k info.
Proof.
  unfold remap. intros H Hk. ok_steps H.
  destruct a.
  - eapply remapped_frame; eauto.
  - ok_steps H. destruct (includes "Targeted eLipo" a).
    + eapply remapped_frame; eauto.
    + now injection H as <-.
Qed.

Lemma setAttributes_frame (text : string) (info : obj) (k : string) :
  k <> "attributes" -> get k (setAttributes text info) = get k info.
Proof.
  intros Hk. unfold setAttributes.
  destruct (matchAfter "Attributes: " text); [now apply get_set_other | reflexivity].
Qed.

(** What a successful turn of the loop went through, by branch. *)
Lemma extractOne_placeholder (env : Env) (a : Anchor) (d : Detail) (r : obj * option obj) :
  nextElementSibling a = Some d -> classTable d = None ->
  extractOne env a = Ok r ->
  exists base info,
    placeholderInfo (split " - " (innerText a)) (descriptionText d) = Ok base
    /\ remap (split " - " (innerText a)) base = Ok info
    /\ r = (setAttributes (descriptionText d) info, None).
Proof.
  unfold extractOne. intros -> Hd H. simpl rbind in H. rewrite Hd in H.
  ok_steps H. ok_steps E. injection E as <-. simpl in *.
  injection H as <-. eauto.
Qed.

Lemma extractOne_table (env : Env) (a : Anchor) (d : Detail) (t : Table)
  (r : obj * option obj) :
  nextElementSibling a = Some d -> classTable d = Some t ->
  extractOne env a = Ok r ->
  exists base instr days info,
    tableInfo env (split " - " (innerText a)) (descriptionText d) t = Ok base
    /\ instructorInfoOf t base = Ok instr
    /\ td t 2 = Ok days
    /\ remap (split " - " (innerText a)) (setDay days base) = Ok info
    /\ r = (setAttributes (descriptionText d) info, Some instr).
Proof.
  unfold extractOne. intros -> Hd H. simpl rbind in H. rewrite Hd in H.
  ok_steps H. ok_steps E. injection E as <-. simpl in *.
  injection H as <-. eauto 10.
Qed.

(** The literals of both branches start with every day flag [false]. *)
Lemma placeholderInfo_days (T : list string) (text : string) (base : obj) (k : string) :
  placeholderInfo T text = Ok base -> In k dayKeys -> get k base = VBool false.
Proof.
  unfold placeholderInfo. intros H Hk. ok_steps H. injection H as <-.
  simpl in Hk. decompose [or] Hk; subst; try reflexivity; contradiction.
Qed.

Lemma tableInfo_days (env : Env) (T : list string) (text : string) (t : Table)
  (base : obj) (k : string) :
  tableInfo env T text t = Ok base -> In k dayKeys -> get k base = VBool false.
Proof.
  unfold tableInfo. intros H Hk. ok_steps H. injection H as <-.
  simpl in Hk. decompose [or] Hk; subst; try reflexivity; contradiction.
Qed.

Lemma setDay_first_match (days : string) (base : obj) :
  (forall k, In k dayKeys -> get k base = VBool false) ->
  forall key letter, In (key, letter) dayLetters ->
    get key (setDay days base) = VBool (isFirstDay days letter).
Proof.
  intros Hbase key letter Hin.
  assert (Hk : In key dayKeys).
  { change dayKeys with (map fst dayLetters). now apply (in_map fst) in Hin. }
  specialize (Hbase key Hk).
  unfold setDay, isFirstDay, firstDay. simpl map. simpl find.
  simpl in Hin.
  destruct (includes "U" days); [| destruct (includes "M" days);
    [| destruct (includes "T" days); [| destruct (includes "W" days);
      [| destruct (includes "R" days)]]]];
  decompose [or] Hin; clear Hin;
  repeat match goal with
    | H : (_, _) = (_, _) |- _ => injection H as <- <-
    | H : False |- _ => contradiction
    end;
  first [ apply get_set_same
        | rewrite get_set_other by discriminate; exact Hbase
        | exact Hbase ].
Qed.

Lemma first_match_exclusive (days : string) (info : obj) :
  (forall key letter, In (key, letter) dayLetters ->
     get key info = VBool (isFirstDay days letter)) ->
  flagsSet info <= 1.
Proof.
  intros H. unfold flagsSet, dayKeys. simpl filter.
  rewrite (H "isSunday" "U"), (H "isMonday" "M"), (H "isTuesday" "T"),
    (H "isWednesday" "W"), (H "isThursday" "R") by (simpl; tauto).
  unfold isFirstDay. destruct (firstDay days) as [l |]; [| simpl; lia].
  destruct (String.eqb_spec l "U") as [-> | ?]; [simpl; lia |].
  destruct (String.eqb_spec l "M") as [-> | ?]; [simpl; lia |].
  destruct (String.eqb_spec l "T") as [-> | ?]; [simpl; lia |].
  destruct (String.eqb_spec l "W") as [-> | ?]; [simpl; lia |].
  destruct (String.eqb_spec l "R") as [-> | ?]; simpl; lia.
Qed.

Lemma dayKeys_not_heading (k : string) : In k dayKeys -> ~ In k headingKeys.
Proof.
  simpl. intros H1 H2.
  decompose [or] H1; subst; decompose [or] H2; try discriminate; contradiction.
Qed.

Lemma dayKeys_not_attributes (k : string) : In k dayKeys -> k <> "attributes".
Proof.
  simpl. intros H1 ->. decompose [or] H1; try discriminate; contradiction.
Qed.

(** C2. For every meeting-days text in column 2, the extracted course record
    has each day flag set exactly when its letter is the first of U, M, T,
    W, R (in that order) that the text contains; so at most one flag is
    true, and a text containing U sets the Sunday flag and no other,
    whatever other letters it holds. *)
Theorem day_flags_first_match (env : Env) (a : Anchor) (d : Detail) (t : Table)
  (days : string) (info : obj) (instr : option obj) :
  nextElementSibling a = Some d ->
  classTable d = Some t ->
  nth_error (tds t) 2 = Some days ->
  extractOne env a = Ok (info, instr) ->
  (forall key letter, In (key, letter) dayLetters ->
     get key info = VBool (isFirstDay days letter))
  /\ flagsSet info <= 1
  /\ (includes "U" days = true ->
      get "isSunday" info = VBool true
      /\ forall key, In key dayKeys -> key <> "isSunday" ->
           get key info = VBool false).
Proof.
  intros Ha Hd Hdays H.
  destruct (extractOne_table _ _ _ _ _ Ha Hd H)
    as (base & ii & days' & info1 & Hbase & _ & Htd & Hremap & Hr).
  unfold td in Htd. rewrite Hdays in Htd. injection Htd as <-.
  injection Hr as -> _.
  assert (Hall : forall key letter, In (key, letter) dayLetters ->
            get key (setAttributes (descriptionText d) info1)
            = VBool (isFirstDay days letter)).
  { intros key letter Hin.
    assert (Hk : In key dayKeys).
    { change dayKeys with (map fst dayLetters). now apply (in_map fst) in Hin. }
    rewrite setAttributes_frame by now apply dayKeys_not_attributes.
    rewrite (remap_frame _ _ _ _ Hremap) by now apply dayKeys_not_heading.
    apply setDay_first_match; [| exact Hin].
    intros k Hk'. eapply tableInfo_days; eauto. }
  split; [exact Hall |]. split; [eapply first_match_exclusive; eauto |].
  intros HU.
  assert (HF : firstDay days = Some "U").
  { unfold firstDay. simpl. now rewrite HU. }
  split.
  - rewrite (Hall "isSunday" "U") by (simpl; tauto).
    unfold isFirstDay. now rewrite HF.
  - intros key Hk Hne. simpl in Hk.
    decompose [or] Hk; subst; try contradiction; try congruence.
    + rewrite (Hall "isMonday" "M") by (simpl; tauto).
      unfold isFirstDay. now rewrite HF.
    + rewrite (Hall "isTuesday" "T") by (simpl; tauto).
      unfold isFirstDay. now rewrite HF.
    + rewrite (Hall "isWednesday" "W") by (simpl; tauto).
      unfold isFirstDay. now rewrite HF.
    + rewrite (Hall "isThursday" "R") by (simpl; tauto).
      unfold isFirstDay. now rewrite HF.
Qed.

(** The rule at work on the section "Intro to Robotics", which meets "MW". *)
Lemma day_flags_first_match_witness :
  exists info instr,
    extractOne Sample.env Sample.robotics = Ok (info, instr)
    /\ get "isMonday" info = VBool true
    /\ get "isWednesday" info = VBool false
    /\ flagsSet info <= 1.
Proof.
  eexists. eexists. split; [vm_compute; reflexivity |].
  destruct (day_flags_first_match Sample.env Sample.robotics _ Sample.lectureTable
              "MW" _ _ eq_refl eq_refl eq_refl eq_refl) as (Hall & Hone & _).
  split; [exact (Hall "isMonday" "M" ltac:(simpl; tauto)) |].
  split; [exact (Hall "isWednesday" "W" ltac:(simpl; tauto)) | exact Hone].
Defined.

(** Every record that is produced went through [remap] and then through
    the attributes step. *)
Lemma extractOne_remap (env : Env) (a : Anchor) (info : obj) (instr : option obj) :
  extractOne env a = Ok (info, instr) ->
  exists d base info1,
    nextElementSibling a = Some d
    /\ remap (split " - " (innerText a)) base = Ok info1
    /\ info = setAttributes (descriptionText d) info1.
Proof.
  intros H. destruct (nextElementSibling a) as [d |] eqn:Ha.
  - destruct (classTable d) as [t |] eqn:Hd.
    + destruct (extractOne_table _ _ _ _ _ Ha Hd H)
        as (base & ii & days & info1 & _ & _ & _ & Hremap & Hr).
      injection Hr as -> _. eauto 10.
    + destruct (extractOne_placeholder _ _ _ _ Ha Hd H)
        as (base & info1 & _ & Hremap & Hr).
      injection Hr as -> _. eauto 10.
  - unfold extractOne in H. rewrite Ha in H. discriminate H.
Qed.

(** The six assignments, read back. *)
Lemma remapped_fields (T : list string) (base info : obj) :
  remapped T base = Ok info ->
  exists t3,
    at_ T 3 = VStr t3
    /\ get "crn" info = at_ T 2
    /\ get "subject" info = at_ (split " " t3) 0
    /\ get "classNumber" info = at_ (split " " t3) 1
    /\ get "classTitle" info
       = VStr (toString (at_ T 0) ++ " " ++ toString (at_ T 1))
    /\ get "classShortName" info = at_ T 3
    /\ get "classSection" info = at_ T 4.
Proof.
  unfold remapped. intros H. ok_steps H. injection H as <-.
  destruct (at_ T 3) as [| | | |t3] eqn:E3; try discriminate E.
  injection E as <-. exists t3. split; [reflexivity |].
  repeat split;
    repeat first [ apply get_set_same
                 | rewrite get_set_other by discriminate ].
Qed.

(** With five pieces, either trigger leads to the same six assignments. *)
Lemma remap_five (t0 t1 t2 t3 t4 : string) (base : obj) :
  includes "Lab" t1 = true \/ includes "Targeted eLipo" t1 = true ->
  remap [t0; t1; t2; t3; t4] base = remapped [t0; t1; t2; t3; t4] base.
Proof.
  intros Htrig. unfold remap. simpl rbind.
  destruct (includes "Lab" t1); [reflexivity |].
  destruct Htrig as [H | H]; [discriminate H |]. now rewrite H.
Qed.

(** C4. For every header line of five pieces whose second piece contains
    "Lab" or contains "Targeted eLipo", the record produced has crn = T[2],
    subject and course number the two first words of T[3], title
    T[0] + " " + T[1], short name T[3] and section T[4]; both triggers run
    the very same assignments. *)
Theorem remap_five_tokens (env : Env) (a : Anchor) (t0 t1 t2 t3 t4 : string)
  (info : obj) (instr : option obj) :
  split " - " (innerText a) = [t0; t1; t2; t3; t4] ->
  includes "Lab" t1 = true \/ includes "Targeted eLipo" t1 = true ->
  extractOne env a = Ok (info, instr) ->
  (get "crn" info = VStr t2
   /\ get "subject" info = at_ (split " " t3) 0
   /\ get "classNumber" info = at_ (split " " t3) 1
   /\ get "classTitle" info = VStr (t0 ++ " " ++ t1)
   /\ get "classShortName" info = VStr t3
   /\ get "classSection" info = VStr t4)
  /\ (forall base : obj,
        remap [t0; t1; t2; t3; t4] base = remapped [t0; t1; t2; t3; t4] base).
Proof.
  intros HT Htrig H. split; [| intros base; now apply remap_five].
  destruct (extractOne_remap _ _ _ _ H) as (d & base & info1 & _ & Hremap & ->).
  rewrite HT, remap_five in Hremap by exact Htrig.
  destruct (remapped_fields _ _ _ Hremap)
    as (t3' & E3 & Hcrn & Hsub & Hnum & Htitle & Hshort & Hsec).
  injection E3 as <-.
  rewrite !setAttributes_frame by discriminate.
  repeat split; assumption.
Qed.

(** The remap at work on the lab line "Calculus I - Lab - 10077 - MTH 103 - 2". *)
Lemma remap_five_tokens_witness :
  exists info instr,
    extractOne Sample.env Sample.calculusLab = Ok (info, instr)
    /\ get "crn" info = VStr "10077"
    /\ get "subject" info = VStr "MTH"
    /\ get "classNumber" info = VStr "103"
    /\ get "classTitle" info = VStr "Calculus I Lab"
    /\ get "classShortName" info = VStr "MTH 103"
    /\ get "classSection" info = VStr "2".
Proof.
  eexists. eexists. split; [vm_compute; reflexivity |].
  apply (remap_five_tokens Sample.env Sample.calculusLab
           "Calculus I" "Lab" "10077" "MTH 103" "2" _ _
           eq_refl (or_introl eq_refl) eq_refl).
Defined.

(** A header of four pieces keeps the canonical assignment as long as its
    second piece does not contain the marker text. *)
Lemma four_tokens_without_marker (env : Env) (a : Anchor) (t0 t1 t2 t3 : string)
  (info : obj) (instr : option obj) :
  split " - " (innerText a) = [t0; t1; t2; t3] ->
  includes "Targeted eLipo" t1 = false ->
  extractOne env a = Ok (info, instr) ->
  get "crn" info = VStr t1
  /\ get "subject" info = at_ (split " " t2) 0
  /\ get "classTitle" info = VStr t0
  /\ get "classSection" info = VStr t3.
Proof.
  intros HT Hno H.
  assert (Hid : forall base info1,
            remap [t0; t1; t2; t3] base = Ok info1 -> info1 = base).
  { intros base info1. unfold remap. simpl rbind. rewrite Hno. congruence. }
  destruct (nextElementSibling a) as [d |] eqn:Ha;
    [| unfold extractOne in H; rewrite Ha in H; discriminate H].
  destruct (classTable d) as [t |] eqn:Hd.
  - destruct (extractOne_table _ _ _ _ _ Ha Hd H)
      as (base & ii & days & info1 & Hbase & _ & _ & Hremap & Hr).
    injection Hr as -> _. rewrite HT in *. apply Hid in Hremap. subst info1.
    rewrite !setAttributes_frame by discriminate.
    unfold tableInfo in Hbase. ok_steps Hbase. injection Hbase as <-.
    injection E as <-.
    unfold setDay.
    repeat match goal with
      | |- context [if ?b then _ else _] => destruct b
      end; repeat split; reflexivity.
  - destruct (extractOne_placeholder _ _ _ _ Ha Hd H)
      as (base & info1 & Hbase & Hremap & Hr).
    injection Hr as -> _. rewrite HT in *. apply Hid in Hremap. subst info1.
    rewrite !setAttributes_frame by discriminate.
    unfold placeholderInfo in Hbase. ok_steps Hbase. injection Hbase as <-.
    injection E as <-. repeat split; reflexivity.
Qed.

(** C5. The header "Special Topics - Targeted eLipo - 30412 - BIO 494" has
    four pieces, yet the second exception applies to it: the record takes
    its crn from T[2] instead of T[1], its subject from T[3] instead of
    T[2], the joined title instead of T[0], and T[4], which is undefined,
    as its section. *)
Theorem four_tokens_marker_remapped :
  split " - " (innerText Sample.elipo4)
  = ["Special Topics"; "Targeted eLipo"; "30412"; "BIO 494"]
  /\ exists info instr,
       extractOne Sample.env Sample.elipo4 = Ok (info, instr)
       /\ get "crn" info = VStr "30412"
       /\ get "subject" info = VStr "BIO"
       /\ get "classTitle" info = VStr "Special Topics Targeted eLipo"
       /\ get "classSection" info = VUndefined.
Proof.
  split; [reflexivity |].
  eexists. eexists. split; [vm_compute; reflexivity |].
  repeat split; reflexivity.
Qed.

(** *** The two arrays *)

Lemma extractOne_instructor (env : Env) (a : Anchor) (info : obj) (instr : option obj) :
  extractOne env a = Ok (info, instr) ->
  (if hasTable a then exists i, instr = Some i else instr = None).
Proof.
  intros H. unfold hasTable.
  destruct (nextElementSibling a) as [d |] eqn:Ha;
    [| unfold extractOne in H; rewrite Ha in H; discriminate H].
  destruct (classTable d) as [t |] eqn:Hd.
  - destruct (extractOne_table _ _ _ _ _ Ha Hd H)
      as (base & ii & days & info1 & _ & _ & _ & _ & Hr).
    injection Hr as _ ->. eauto.
  - destruct (extractOne_placeholder _ _ _ _ Ha Hd H) as (base & info1 & _ & _ & Hr).
    now injection Hr as _ ->.
Qed.

(** [crnInfo] gets one record per header; [instructorInfo] gets one only
    for the headers that have a table, so the two arrays are of equal length
    only when no header is a placeholder. *)
Lemma extractFrom_lengths (env : Env) (elements : list Anchor) (acc r : Results) :
  extractFrom env elements acc = Ok r ->
  List.length (crnInfo r) = List.length (crnInfo acc) + List.length elements
  /\ List.length (instructorInfo r)
     = List.length (instructorInfo acc) + List.length (filter hasTable elements).
Proof.
  revert acc. induction elements as [| a rest IH]; intros acc H; simpl in H.
  - injection H as <-. simpl. lia.
  - ok_steps H. destruct a0 as [info instr].
    pose proof (extractOne_instructor _ _ _ _ E) as Hi.
    apply IH in H. simpl in H. destruct H as [H1 H2].
    rewrite H1, H2, length_app. simpl.
    destruct (hasTable a).
    + destruct Hi as [i ->]. rewrite length_app. simpl. lia.
    + subst instr. lia.
Qed.

Lemma totalResults_lengths (env : Env) (elements : list Anchor) (r : Results) :
  totalResults env elements = Ok r ->
  List.length (crnInfo r) = List.length elements
  /\ List.length (instructorInfo r) = List.length (filter hasTable elements).
Proof.
  intros H. apply extractFrom_lengths in H. simpl in H. exact H.
Qed.

(** C1. On a listing of two headers, a placeholder followed by a section
    with a table, the course array has two records but the instructor array
    has one: the instructor of the second header sits at position 0, next to
    the placeholder's record, and position 1 is empty. *)
Theorem instructor_array_not_parallel :
  exists r,
    totalResults Sample.env [Sample.thesis; Sample.robotics] = Ok r
    /\ List.length (crnInfo r) = 2
    /\ List.length (instructorInfo r) = 1
    /\ option_map (get "crn") (nth_error (crnInfo r) 0) = Some (VStr "20001")
    /\ option_map (get "instructor") (nth_error (crnInfo r) 0) = Some VNull
    /\ option_map (get "name") (nth_error (instructorInfo r) 0)
       = Some (VStr "Jane Doe")
    /\ nth_error (instructorInfo r) 1 = None.
Proof.
  eexists. split; [vm_compute; reflexivity |].
  repeat split; reflexivity.
Qed.

(** *** Placeholder listings and missing labels *)

(** A record produced for a header without a table has every
    schedule-dependent field [null], every day flag [false], and no
    instructor record. *)
Lemma placeholder_record (env : Env) (a : Anchor) (d : Detail) (info : obj)
  (instr : option obj) :
  nextElementSibling a = Some d -> classTable d = None ->
  extractOne env a = Ok (info, instr) ->
  instr = None
  /\ (forall k, In k scheduleKeys -> get k info = VNull)
  /\ (forall k, In k dayKeys -> get k info = VBool false).
Proof.
  intros Ha Hd H.
  destruct (extractOne_placeholder _ _ _ _ Ha Hd H) as (base & info1 & Hbase & Hremap & Hr).
  injection Hr as -> ->. split; [reflexivity |]. split; intros k Hk.
  - assert (Hna : k <> "attributes")
      by (intros ->; simpl in Hk; decompose [or] Hk; try discriminate; contradiction).
    assert (Hnh : ~ In k headingKeys).
    { simpl in *. intros Hh.
      decompose [or] Hk; subst; decompose [or] Hh; try discriminate; contradiction. }
    rewrite setAttributes_frame, (remap_frame _ _ _ _ Hremap) by assumption.
    unfold placeholderInfo in Hbase. ok_steps Hbase. injection Hbase as <-.
    simpl in Hk. decompose [or] Hk; subst; try reflexivity; contradiction.
  - rewrite setAttributes_frame by now apply dayKeys_not_attributes.
    rewrite (remap_frame _ _ _ _ Hremap) by now apply dayKeys_not_heading.
    eapply placeholderInfo_days; eauto.
Qed.

(** No record is produced from a detail block whose text lacks one of the
    three patterns: [match] gives [null] and reading its element 0 throws. *)
Lemma missing_label_throws (env : Env) (a : Anchor) (d : Detail) :
  nextElementSibling a = Some d ->
  matchAfter "Levels: " (descriptionText d) = None
  \/ matchBefore " Schedule" (descriptionText d) = None
  \/ matchBefore " Credits" (descriptionText d) = None ->
  forall r, extractOne env a <> Ok r.
Proof.
  intros Ha Hmiss r H.
  assert (Hno : elem0 (matchAfter "Levels: " (descriptionText d)) = Throw TypeError
                \/ elem0 (matchBefore " Schedule" (descriptionText d)) = Throw TypeError
                \/ elem0 (matchBefore " Credits" (descriptionText d)) = Throw TypeError).
  { destruct Hmiss as [-> | [-> | ->]]; simpl; tauto. }
  destruct (classTable d) as [t |] eqn:Hd.
  - destruct (extractOne_table _ _ _ _ _ Ha Hd H)
      as (base & ii & days & info1 & Hbase & _).
    unfold tableInfo in Hbase. ok_steps Hbase.
    destruct Hno as [Hn | [Hn | Hn]]; congruence.
  - destruct (extractOne_placeholder _ _ _ _ Ha Hd H) as (base & info1 & Hbase & _).
    unfold placeholderInfo in Hbase. ok_steps Hbase.
    destruct Hno as [Hn | [Hn | Hn]]; congruence.
Qed.


(** C6. The placeholder "Master Thesis - 20001 - COE 699 - 1", whose detail
    block has no table and whose text has no "Levels: " line, gives no
    course record: the extraction throws. *)
Theorem placeholder_without_levels_throws :
  option_map classTable (nextElementSibling Sample.thesisNoLevels) = Some None
  /\ extractOne Sample.env Sample.thesisNoLevels = Throw TypeError
  /\ totalResults Sample.env [Sample.thesisNoLevels] = Throw TypeError.
Proof. repeat split; vm_compute; reflexivity. Qed.

(** C7. With a table present, a free text without "Levels: ", or without
    " Schedule", or without " Credits" makes the extraction of the record
    throw instead of giving [null] for the field; only a credits text that
    is present but not a number gives [null]. *)
Theorem missing_pattern_throws :
  extractOne Sample.env Sample.noLevels = Throw TypeError
  /\ extractOne Sample.env Sample.noSchedule = Throw TypeError
  /\ extractOne Sample.env Sample.noCredits = Throw TypeError
  /\ option_map (fun r => get "credits" (fst r))
       (match extractOne Sample.env Sample.variableCredits with
        | Ok r => Some r
        | Throw _ => None
        end) = Some VNull.
Proof. repeat split; vm_compute; reflexivity. Qed.

End ExtractFacts.

(** ** The store *)

Module DbFacts.

Import Db DbSpec.

Lemma rows_setRows_same (m : Model) (r : list obj) (s : Store) :
  rows m (setRows m r s) = r.
Proof. destruct m; reflexivity. Qed.

Lemma rows_setRows_other (m m' : Model) (r : list obj) (s : Store) :
  m <> m' -> rows m' (setRows m r s) = rows m' s.
Proof. destruct m, m'; intros H; try reflexivity; contradiction. Qed.

(** A successful [bind] went through both of its parts. *)
Lemma bind_ok {A B : Type} (c : M A) (k : A -> M B) (s s' : Store) (b : B) :
  bind c k s = (s', Ok b) ->
  exists s1 a, c s = (s1, Ok a) /\ k a s1 = (s', Ok b).
Proof.
  unfold bind. destruct (c s) as [s1 [a | e]]; intros H; [eauto | discriminate H].
Qed.

Lemma bind_run {A B : Type} (c : M A) (k : A -> M B) (s s1 : Store) (a : A) :
  c s = (s1, Ok a) -> bind c k s = k a s1.
Proof. unfold bind. now intros ->. Qed.

Lemma extends_refl (s : Store) : extends s s.
Proof. intros m. exists []. now rewrite app_nil_r. Qed.

Lemma extends_trans (s1 s2 s3 : Store) :
  extends s1 s2 -> extends s2 s3 -> extends s1 s3.
Proof.
  intros H12 H23 m. destruct (H12 m) as [a E1]. destruct (H23 m) as [b E2].
  exists (a ++ b). now rewrite E2, E1, app_assoc.
Qed.

Lemma extends_append (m : Model) (row : obj) (s : Store) :
  extends s (setRows m (rows m s ++ [row]) s).
Proof.
  intros m'. destruct m, m'; simpl;
    first [ now exists [row] | exists []; now rewrite app_nil_r ].
Qed.

Lemma find_app_found {A : Type} (f : A -> bool) (l l' : list A) (x : A) :
  find f l = Some x -> find f (l ++ l') = Some x.
Proof.
  induction l as [| y l IH]; simpl; [discriminate |].
  destruct (f y); auto.
Qed.

Lemma present_extends (m : Model) (col : string) (v : value) (s s' : Store) :
  extends s s' -> present m col v s -> present m col v s'.
Proof.
  unfold present. intros H Hp. destruct (H m) as [added ->].
  destruct (find (matches col v) (rows m s)) as [x |] eqn:E; [| contradiction].
  now rewrite (find_app_found _ _ _ _ E).
Qed.

Lemma newValues_get (col : string) (v : value) (defaults : obj) :
  get col defaults = v -> get col (newValues col v defaults) = v.
Proof.
  intros H. unfold newValues. rewrite H.
  destruct v; try exact H. apply get_set_same.
Qed.

(** The two ways [findOrCreate] resolves. *)
Lemma findOrCreate_ok (m : Model) (col : string) (v : value) (defaults : obj)
  (s s' : Store) (row : obj) (isNew : bool) :
  findOrCreate m col v defaults s = (s', Ok (row, isNew)) ->
  v <> VUndefined
  /\ ((isNew = false /\ s' = s /\ find (matches col v) (rows m s) = Some row)
      \/ (isNew = true
          /\ find (matches col v) (rows m s) = None
          /\ row = ("id", VNum (Z.of_nat (List.length (rows m s)) + 1))
                   :: newValues col v defaults
          /\ s' = setRows m (rows m s ++ [row]) s)).
Proof.
  unfold findOrCreate, create. intros H.
  destruct (find (matches col v) (rows m s)) as [r |] eqn:E.
  - destruct v; try discriminate H; injection H as <- <- <-;
      (split; [discriminate | left; auto]).
  - destruct v; try discriminate H; injection H as <- <- <-;
      (split; [discriminate | right; auto]).
Qed.

Lemma findOrCreate_hit (m : Model) (col : string) (v : value) (defaults : obj)
  (s : Store) :
  v <> VUndefined -> present m col v s ->
  exists row, findOrCreate m col v defaults s = (s, Ok (row, false)).
Proof.
  unfold present, findOrCreate. intros Hv Hp.
  destruct (find (matches col v) (rows m s)) as [r |]; [| contradiction].
  exists r. destruct v; try reflexivity. contradiction.
Qed.

Lemma findOrCreate_extends (m : Model) (col : string) (v : value) (defaults : obj)
  (s s' : Store) (r : obj * bool) :
  findOrCreate m col v defaults s = (s', Ok r) -> extends s s'.
Proof.
  destruct r as [row b]. intros H. apply findOrCreate_ok in H.
  destruct H as [_ [(_ & -> & _) | (_ & _ & _ & ->)]].
  - apply extends_refl.
  - apply extends_append.
Qed.

(** After [findOrCreate] with defaults that carry the key, the key is there. *)
Lemma findOrCreate_present (m : Model) (col : string) (v : value) (defaults : obj)
  (s s' : Store) (r : obj * bool) :
  col <> "id" -> get col defaults = v ->
  findOrCreate m col v defaults s = (s', Ok r) ->
  v <> VUndefined /\ present m col v s'.
Proof.
  destruct r as [row b]. intros Hcol Hd H. apply findOrCreate_ok in H.
  destruct H as [Hv [(_ & -> & Hf) | (_ & Hf & Hrow & ->)]]; split; auto.
  - unfold present. now rewrite Hf.
  - unfold present. rewrite rows_setRows_same.
    assert (Hm : matches col v row = true).
    { subst row. unfold matches. simpl.
      destruct (String.eqb_spec col "id"); [contradiction |].
      rewrite newValues_get by exact Hd. apply value_eqb_refl. }
    clear Hrow. induction (rows m s) as [| x l IH]; simpl.
    + now rewrite Hm.
    + simpl in Hf. destruct (matches col v x); [discriminate | auto].
Qed.

End DbFacts.

(** ** The loops of [crawl] *)

Module CrawlFacts.

Import Db DbSpec DbFacts Crawl CrawlSpec.

Local Open Scope async_scope.

(** *** Keys already known

    A store that only grew still has every key it had. *)

Section Monotone.

Variables s s' : Store.
Hypothesis Hext : extends s s'.

Lemma subjectsCovered_extends short i fulls :
  subjectsCovered short i fulls s -> subjectsCovered short i fulls s'.
Proof.
  revert i. induction fulls as [| f rest IH]; simpl; intros i; [trivial |].
  intros [[Hv Hp] Hrest]. eauto using present_extends.
Qed.

Lemma tokensCovered_extends m col arr :
  tokensCovered m col arr s -> tokensCovered m col arr s'.
Proof.
  unfold tokensCovered. intros H. eapply Forall_impl; [| exact H].
  intros tok. now apply present_extends.
Qed.

Lemma fieldCovered_extends m col field :
  fieldCovered m col field s -> fieldCovered m col field s'.
Proof.
  unfold fieldCovered. destruct (truthy field); [| trivial].
  intros (a & E & H). eauto using tokensCovered_extends.
Qed.

Lemma courseCovered_extends ii i info :
  courseCovered ii i info s -> courseCovered ii i info s'.
Proof.
  unfold courseCovered. intros (Hi & Ha & Hl).
  repeat split; eauto using fieldCovered_extends.
  destruct (nth_error ii i); [| trivial].
  destruct Hi. eauto using present_extends.
Qed.

Lemma coursesCovered_extends ii i infos :
  coursesCovered ii i infos s -> coursesCovered ii i infos s'.
Proof.
  revert i. induction infos as [| info rest IH]; simpl; intros i; [trivial |].
  intros [H Hrest]. eauto using courseCovered_extends.
Qed.

End Monotone.

(** *** First pass: a loop that completes leaves its keys in the store *)

Lemma subjectLoop_post env term short fulls : forall i n s s' n',
  subjectLoop env term short i fulls n s = (s', Ok n') ->
  extends s s' /\ subjectsCovered short i fulls s'.
Proof.
  induction fulls as [| f rest IH]; simpl; intros i n s s' n' H.
  - injection H as <- _. split; [apply extends_refl | exact I].
  - apply bind_ok in H. destruct H as (s1 & res & Hfc & H).
    apply bind_ok in H. destruct H as (s2 & n1 & Hcount & H).
    assert (s2 = s1) as ->.
    { destruct (snd res); [destruct (VERBOSE env) |]; simpl in Hcount;
        try discriminate Hcount; now injection Hcount as <- _. }
    apply IH in H. destruct H as [Hext Hcov].
    pose proof (findOrCreate_extends _ _ _ _ _ _ _ Hfc) as Hext1.
    apply findOrCreate_present in Hfc; [| discriminate | reflexivity].
    destruct Hfc as [Hv Hp].
    split; [eapply extends_trans; eauto |].
    split; [| exact Hcov]. split; [exact Hv |].
    eapply present_extends; eauto.
Qed.

Lemma tokenLoop_post m col term arr : col <> "id" -> forall n s s' n',
  tokenLoop m col term arr n s = (s', Ok n') ->
  extends s s' /\ tokensCovered m col arr s'.
Proof.
  intros Hcol. unfold tokensCovered.
  induction arr as [| tok rest IH]; simpl; intros n s s' n' H.
  - injection H as <- _. split; [apply extends_refl | constructor].
  - apply bind_ok in H. destruct H as (s1 & res & Hfc & H).
    apply IH in H. destruct H as [Hext Hcov].
    pose proof (findOrCreate_extends _ _ _ _ _ _ _ Hfc) as Hext1.
    apply findOrCreate_present in Hfc;
      [| exact Hcol | simpl; now rewrite String.eqb_refl].
    destruct Hfc as [_ Hp].
    split; [eapply extends_trans; eauto |].
    constructor; [eapply present_extends; eauto | exact Hcov].
Qed.

Lemma fieldLoop_post m col term field : col <> "id" -> forall n s s' n',
  fieldLoop m col term field n s = (s', Ok n') ->
  extends s s' /\ fieldCovered m col field s'.
Proof.
  intros Hcol n s s' n'. unfold fieldLoop, fieldCovered.
  destruct (truthy field).
  - intros H. apply bind_ok in H. destruct H as (s1 & a & Ha & H).
    unfold lift in Ha. injection Ha as <- Ha.
    destruct field; try discriminate Ha. injection Ha as <-.
    apply tokenLoop_post in H; [| exact Hcol]. destruct H. eauto.
  - intros H. injection H as <- _. split; [apply extends_refl | exact I].
Qed.

Lemma fieldLoop_hit m col term field n s :
  fieldCovered m col field s -> fieldLoop m col term field n s = (s, Ok n).
Proof.
  unfold fieldLoop, fieldCovered. destruct (truthy field); [| reflexivity].
  intros (a & -> & Hcov). simpl. unfold bind, lift. simpl.
  revert n. unfold tokensCovered in Hcov.
  induction Hcov as [| tok rest Hp _ IH]; intros n; simpl; [reflexivity |].
  destruct (findOrCreate_hit m col (VStr tok)
              [(col, VStr tok); ("firstSeen", VStr term)] s) as [row Hhit];
    [discriminate | exact Hp |].
  rewrite (bind_run _ _ _ _ _ Hhit). simpl. apply IH.
Qed.

Lemma subjectLoop_hit env term short fulls : forall i n s,
  subjectsCovered short i fulls s ->
  subjectLoop env term short i fulls n s = (s, Ok n).
Proof.
  induction fulls as [| f rest IH]; simpl; intros i n s H; [reflexivity |].
  destruct H as [[Hv Hp] Hrest].
  destruct (findOrCreate_hit subjects "shortName" (at_ short i)
              [("shortName", at_ short i); ("longName", VStr f);
               ("firstSeen", VStr term)] s Hv Hp) as [row Hhit].
  rewrite (bind_run _ _ _ _ _ Hhit). simpl.
  unfold bind at 1. unfold ret at 1. now apply IH.
Qed.

Lemma courseStep_unfold term ii i info c :
  courseStep term ii i info c =
  (nInstr <- instructorStep term ii i (newInstructorCount c) ;;
   nAttr <- fieldLoop attributes "attribute" term (get "attributes" info)
              (newAttributeCount c) ;;
   nAttr' <- fieldLoop levels "level" term (get "levels" info) nAttr ;;
   _ <- Db.create CRNS (set "termID" (VStr term) info) ;;
   ret {| newSubjectCount := newSubjectCount c;
          newInstructorCount := nInstr;
          newLevelCount := newLevelCount c;
          newAttributeCount := nAttr' |}).
Proof. reflexivity. Qed.

Lemma instructorStep_post term ii i n s s' n' :
  instructorStep term ii i n s = (s', Ok n') ->
  extends s s'
  /\ match nth_error ii i with
     | Some x => get "name" x <> VUndefined
                 /\ present instructors "name" (get "name" x) s'
     | None => True
     end.
Proof.
  unfold instructorStep. destruct (nth_error ii i) as [x |].
  - intros H. apply bind_ok in H. destruct H as (s1 & res & Hfc & H).
    injection H as <- _.
    split; [eapply findOrCreate_extends; eauto |].
    eapply findOrCreate_present; [| | exact Hfc]; [discriminate |].
    now apply get_set_other.
  - intros H. injection H as <- _. split; [apply extends_refl | exact I].
Qed.

Lemma instructorStep_hit term ii i n s :
  match nth_error ii i with
  | Some x => get "name" x <> VUndefined
              /\ present instructors "name" (get "name" x) s
  | None => True
  end ->
  instructorStep term ii i n s = (s, Ok n).
Proof.
  unfold instructorStep. destruct (nth_error ii i) as [x |]; [| reflexivity].
  intros [Hv Hp].
  destruct (findOrCreate_hit instructors "name" (get "name" x)
              (set "firstSeen" (VStr term) x) s Hv Hp) as [row Hhit].
  now rewrite (bind_run _ _ _ _ _ Hhit).
Qed.

Lemma create_extends m values s s' row :
  create m values s = (s', Ok row) -> extends s s'.
Proof. unfold create. intros H. injection H as <- _. apply extends_append. Qed.

Lemma courseStep_post term ii i info c s s' c' :
  courseStep term ii i info c s = (s', Ok c') ->
  extends s s' /\ courseCovered ii i info s'.
Proof.
  rewrite courseStep_unfold. intros H.
  apply bind_ok in H. destruct H as (s1 & n1 & H1 & H).
  apply bind_ok in H. destruct H as (s2 & n2 & H2 & H).
  apply bind_ok in H. destruct H as (s3 & n3 & H3 & H).
  apply bind_ok in H. destruct H as (s4 & row & H4 & H).
  injection H as <- _.
  apply instructorStep_post in H1. destruct H1 as [E1 P1].
  apply fieldLoop_post in H2; [| discriminate]. destruct H2 as [E2 P2].
  apply fieldLoop_post in H3; [| discriminate]. destruct H3 as [E3 P3].
  apply create_extends in H4.
  assert (E14 : extends s1 s4) by eauto using extends_trans.
  assert (E24 : extends s2 s4) by eauto using extends_trans.
  split; [eauto using extends_trans |].
  unfold courseCovered. repeat split.
  - destruct (nth_error ii i); [| exact I]. destruct P1.
    eauto using present_extends.
  - eauto using fieldCovered_extends.
  - eauto using fieldCovered_extends.
Qed.

(** A second pass over a record writes its course row and nothing else,
    and leaves the counters as they are. *)
Lemma courseStep_hit term ii i info c s :
  courseCovered ii i info s ->
  courseStep term ii i info c s
  = (fst (create CRNS (set "termID" (VStr term) info) s), Ok c).
Proof.
  intros (Hi & Ha & Hl). rewrite courseStep_unfold.
  rewrite (bind_run _ _ _ _ _ (instructorStep_hit term ii i _ s Hi)).
  rewrite (bind_run _ _ _ _ _ (fieldLoop_hit _ _ term _ _ s Ha)).
  rewrite (bind_run _ _ _ _ _ (fieldLoop_hit _ _ term _ _ s Hl)).
  unfold bind, create, ret. simpl. now destruct c.
Qed.

Lemma courseLoop_post term ii infos : forall i c s s' c',
  courseLoop term ii i infos c s = (s', Ok c') ->
  extends s s' /\ coursesCovered ii i infos s'.
Proof.
  induction infos as [| info rest IH]; simpl; intros i c s s' c' H.
  - injection H as <- _. split; [apply extends_refl | exact I].
  - apply bind_ok in H. destruct H as (s1 & c1 & H1 & H).
    apply courseStep_post in H1. destruct H1 as [E1 P1].
    apply IH in H. destruct H as [E2 P2].
    split; [eauto using extends_trans |].
    split; [eauto using courseCovered_extends | exact P2].
Qed.

Lemma courseLoop_hit term ii infos : forall i c s,
  coursesCovered ii i infos s ->
  exists s', courseLoop term ii i infos c s = (s', Ok c)
             /\ extends s s'
             /\ forall m, m <> CRNS -> rows m s' = rows m s.
Proof.
  induction infos as [| info rest IH]; simpl; intros i c s H.
  - exists s. split; [reflexivity |]. split; [apply extends_refl | reflexivity].
  - destruct H as [H1 H2].
    rewrite (bind_run _ _ _ _ _ (courseStep_hit term ii i info c s H1)).
    set (s1 := fst (create CRNS (set "termID" (VStr term) info) s)).
    assert (E1 : extends s s1) by apply extends_append.
    destruct (IH (S i) c s1) as (s' & Hrun & E2 & Hsame).
    { eapply coursesCovered_extends; eauto. }
    exists s'. split; [exact Hrun |]. split; [eauto using extends_trans |].
    intros m Hm. rewrite (Hsame m Hm). subst s1.
    destruct m; try reflexivity. contradiction.
Qed.

(** What a completed [crawl] went through. *)
Lemma crawl_ok env page term s s' r :
  crawl env page term s = (s', Ok r) ->
  exists full short elements results s1 n c,
    subjectSelect page = Some (full, short)
    /\ listing page = Some elements
    /\ Extract.totalResults env elements = Ok results
    /\ subjectLoop env term short 0 full 0 s = (s1, Ok n)
    /\ courseLoop term (Extract.instructorInfo results) 0
         (Extract.crnInfo results)
         {| newSubjectCount := n; newInstructorCount := 0;
            newLevelCount := 0; newAttributeCount := 0 |} s1 = (s', Ok c)
    /\ r = {| reportedCRNS := List.length (Extract.crnInfo results);
              reportedSubjects := newSubjectCount c;
              reportedInstructors := newInstructorCount c;
              reportedAttributes := newAttributeCount c;
              reportedLevels := newLevelCount c |}.
Proof.
  unfold crawl. intros H.
  apply bind_ok in H. destruct H as (s0 & [full short] & Hsel & H).
  destruct (subjectSelect page) as [sel |] eqn:Esel; [| discriminate Hsel].
  injection Hsel as <- ->.
  apply bind_ok in H. destruct H as (s1 & n & Hsub & H).
  apply bind_ok in H. destruct H as (s2 & elements & Hlist & H).
  destruct (listing page) as [l |] eqn:El; [| discriminate Hlist].
  injection Hlist as <- ->.
  apply bind_ok in H. destruct H as (s3 & results & Hres & H).
  unfold lift in Hres. injection Hres as <- Hres.
  apply bind_ok in H. destruct H as (s4 & c & Hloop & H).
  injection H as <- <-.
  exists full, short, elements, results, s1, n, c. simpl in Hsub. tauto.
Qed.

(** C3. A second run of [crawl] over the very same pages and term, started
    from the store the first run left, completes, reports no new subject,
    instructor, attribute or level, and leaves the Subject, Instructor,
    Level and Attribute tables row for row as they were, so with the same
    row counts: every lookup-or-insert of the second pass finds its row. *)
Theorem reference_upsert_idempotent (env : Env) (page : TermPage) (term : string)
  (s s1 : Store) (r1 : Report) :
  crawl env page term s = (s1, Ok r1) ->
  exists s2 r2,
    crawl env page term s1 = (s2, Ok r2)
    /\ (forall m, isReference m = true -> rows m s2 = rows m s1)
    /\ (forall m, isReference m = true ->
          List.length (rows m s2) = List.length (rows m s1))
    /\ reportedSubjects r2 = 0
    /\ reportedInstructors r2 = 0
    /\ reportedAttributes r2 = 0
    /\ reportedLevels r2 = 0.
Proof.
  intros H. apply crawl_ok in H.
  destruct H as (full & short & elements & results & sa & n & c
                 & Hsel & Hlist & Hres & Hsub & Hloop & _).
  apply subjectLoop_post in Hsub. destruct Hsub as [_ Hsubj].
  apply courseLoop_post in Hloop. destruct Hloop as [Hext Hcourses].
  assert (Hsubj1 : subjectsCovered short 0 full s1)
    by (eapply subjectsCovered_extends; eauto).
  destruct (courseLoop_hit term (Extract.instructorInfo results)
              (Extract.crnInfo results) 0
              {| newSubjectCount := 0; newInstructorCount := 0;
                 newLevelCount := 0; newAttributeCount := 0 |} s1 Hcourses)
    as (s2 & Hrun & _ & Hsame).
  exists s2. eexists. split.
  - unfold crawl. rewrite Hsel, Hlist.
    unfold bind at 1. unfold ret at 1. simpl fst. simpl snd.
    rewrite (bind_run _ _ _ _ _ (subjectLoop_hit env term short full 0 0 s1 Hsubj1)).
    unfold bind at 1. unfold ret at 1.
    unfold bind at 1. unfold lift. rewrite Hres.
    rewrite (bind_run _ _ _ _ _ Hrun). reflexivity.
  - simpl. repeat split; try reflexivity.
    + intros m Hm. apply Hsame. intros ->. discriminate Hm.
    + intros m Hm. f_equal. apply Hsame. intros ->. discriminate Hm.
Qed.

(** Two runs over a placeholder and a section with a table. *)
Lemma reference_upsert_idempotent_witness :
  exists s1 r1,
    crawl Sample.env (Sample.page [Sample.thesis; Sample.robotics]) "201910"
      emptyStore = (s1, Ok r1)
    /\ exists s2 r2,
         crawl Sample.env (Sample.page [Sample.thesis; Sample.robotics]) "201910"
           s1 = (s2, Ok r2)
         /\ (forall m, isReference m = true -> rows m s2 = rows m s1)
         /\ (forall m, isReference m = true ->
               List.length (rows m s2) = List.length (rows m s1))
         /\ reportedSubjects r2 = 0
         /\ reportedInstructors r2 = 0
         /\ reportedAttributes r2 = 0
         /\ reportedLevels r2 = 0.
Proof.
  eexists. eexists. split; [vm_compute; reflexivity |].
  eapply (reference_upsert_idempotent Sample.env
            (Sample.page [Sample.thesis; Sample.robotics]) "201910" emptyStore).
  vm_compute. reflexivity.
Defined.

(** *** Accounting: what each loop adds to which table *)

Lemma findOrCreate_delta m col v d s s' row b :
  findOrCreate m col v d s = (s', Ok (row, b)) ->
  (forall m', m' <> m -> rows m' s' = rows m' s)
  /\ size m s' = size m s + (if b then 1 else 0).
Proof.
  intros H. apply findOrCreate_ok in H. unfold size.
  destruct H as [_ [(-> & -> & _) | (-> & _ & _ & ->)]].
  - split; [reflexivity | lia].
  - split.
    + intros m' Hm. apply rows_setRows_other. congruence.
    + rewrite rows_setRows_same, length_app. reflexivity.
Qed.

Lemma tokenLoop_delta m col term arr : forall n s s' n',
  tokenLoop m col term arr n s = (s', Ok n') ->
  (forall m', m' <> m -> rows m' s' = rows m' s)
  /\ size m s' + n = size m s + n'.
Proof.
  induction arr as [| tok rest IH]; simpl; intros n s s' n' H.
  - injection H as <- <-. split; [reflexivity | lia].
  - apply bind_ok in H. destruct H as (s1 & [row b] & Hfc & H).
    apply findOrCreate_delta in Hfc. destruct Hfc as [F1 D1].
    apply IH in H. destruct H as [F2 D2]. simpl in D2. split.
    + intros m' Hm. now rewrite F2, F1.
    + destruct b; lia.
Qed.

Lemma fieldLoop_delta m col term field n s s' n' :
  fieldLoop m col term field n s = (s', Ok n') ->
  (forall m', m' <> m -> rows m' s' = rows m' s)
  /\ size m s' + n = size m s + n'.
Proof.
  unfold fieldLoop. destruct (truthy field).
  - intros H. apply bind_ok in H. destruct H as (s1 & a & Ha & H).
    unfold lift in Ha. injection Ha as <- _. now apply tokenLoop_delta in H.
  - intros H. injection H as <- <-. split; [reflexivity | lia].
Qed.

Lemma subjectLoop_delta env term short fulls : forall i n s s' n',
  subjectLoop env term short i fulls n s = (s', Ok n') ->
  (forall m', m' <> subjects -> rows m' s' = rows m' s)
  /\ size subjects s' + n = size subjects s + n'.
Proof.
  induction fulls as [| f rest IH]; simpl; intros i n s s' n' H.
  - injection H as <- <-. split; [reflexivity | lia].
  - apply bind_ok in H. destruct H as (s1 & [row b] & Hfc & H).
    apply bind_ok in H. destruct H as (s2 & n1 & Hcount & H).
    apply findOrCreate_delta in Hfc. destruct Hfc as [F1 D1].
    assert (s2 = s1 /\ n1 = if b then S n else n) as [-> ->].
    { simpl in Hcount. destruct b; [destruct (VERBOSE env) |]; simpl in Hcount;
        try discriminate Hcount; injection Hcount as <- <-; auto. }
    apply IH in H. destruct H as [F2 D2]. split.
    + intros m' Hm. now rewrite F2, F1.
    + destruct b; lia.
Qed.

Lemma instructorStep_delta term ii i n s s' n' :
  instructorStep term ii i n s = (s', Ok n') ->
  (forall m', m' <> instructors -> rows m' s' = rows m' s)
  /\ size instructors s' + n = size instructors s + n'.
Proof.
  unfold instructorStep. destruct (nth_error ii i) as [x |].
  - intros H. apply bind_ok in H. destruct H as (s1 & [row b] & Hfc & H).
    injection H as <- <-. apply findOrCreate_delta in Hfc.
    destruct Hfc as [F1 D1]. split; [exact F1 |]. simpl. destruct b; lia.
  - intros H. injection H as <- <-. split; [reflexivity | lia].
Qed.

(** The balance of one run of the loop body: one course row; instructor
    rows counted in [newInstructorCount]; attribute rows and level rows both
    counted in [newAttributeCount]; [newLevelCount] never touched. *)
Lemma courseStep_delta term ii i info c s s' c' :
  courseStep term ii i info c s = (s', Ok c') ->
  rows subjects s' = rows subjects s
  /\ rows semesters s' = rows semesters s
  /\ size CRNS s' = size CRNS s + 1
  /\ size instructors s' + newInstructorCount c
     = size instructors s + newInstructorCount c'
  /\ size attributes s' + size levels s' + newAttributeCount c
     = size attributes s + size levels s + newAttributeCount c'
  /\ newLevelCount c' = newLevelCount c
  /\ newSubjectCount c' = newSubjectCount c.
Proof.
  rewrite courseStep_unfold. intros H.
  apply bind_ok in H. destruct H as (s1 & n1 & H1 & H).
  apply bind_ok in H. destruct H as (s2 & n2 & H2 & H).
  apply bind_ok in H. destruct H as (s3 & n3 & H3 & H).
  apply bind_ok in H. destruct H as (s4 & row & H4 & H).
  injection H as <- <-. simpl.
  apply instructorStep_delta in H1. destruct H1 as [F1 D1].
  apply fieldLoop_delta in H2. destruct H2 as [F2 D2].
  apply fieldLoop_delta in H3. destruct H3 as [F3 D3].
  unfold create in H4. injection H4 as <- _.
  unfold size in *.
  pose proof (F1 subjects) as A1. pose proof (F2 subjects) as A2.
  pose proof (F3 subjects) as A3.
  pose proof (F1 semesters) as B1. pose proof (F2 semesters) as B2.
  pose proof (F3 semesters) as B3.
  pose proof (F1 CRNS) as C1. pose proof (F2 CRNS) as C2.
  pose proof (F3 CRNS) as C3.
  pose proof (F2 instructors) as I2. pose proof (F3 instructors) as I3.
  pose proof (F1 attributes) as T1. pose proof (F3 attributes) as T3.
  pose proof (F1 levels) as L1. pose proof (F2 levels) as L2.
  simpl in *. rewrite length_app. simpl.
  rewrite A3, A2, A1, B3, B2, B1, C3, C2, C1 by discriminate.
  rewrite I3, I2 by discriminate.
  rewrite T3 by discriminate.
  rewrite T1 in D2 by discriminate.
  rewrite L2, L1 in D3 by discriminate.
  repeat split; lia.
Qed.

Lemma courseLoop_delta term ii infos : forall i c s s' c',
  courseLoop term ii i infos c s = (s', Ok c') ->
  rows subjects s' = rows subjects s
  /\ rows semesters s' = rows semesters s
  /\ size CRNS s' = size CRNS s + List.length infos
  /\ size instructors s' + newInstructorCount c
     = size instructors s + newInstructorCount c'
  /\ size attributes s' + size levels s' + newAttributeCount c
     = size attributes s + size levels s + newAttributeCount c'
  /\ newLevelCount c' = newLevelCount c
  /\ newSubjectCount c' = newSubjectCount c.
Proof.
  induction infos as [| info rest IH]; simpl; intros i c s s' c' H.
  - injection H as <- <-. repeat split; lia.
  - apply bind_ok in H. destruct H as (s1 & c1 & H1 & H).
    apply courseStep_delta in H1. apply IH in H.
    destruct H1 as (A1 & B1 & C1 & I1 & T1 & L1 & S1).
    destruct H as (A2 & B2 & C2 & I2 & T2 & L2 & S2).
    simpl in *. rewrite A2, A1, B2, B1. repeat split; lia.
Qed.

(** The figures of the closing message against the rows written by the
    run: courses, subjects and instructors are counted right; the figure
    for attributes is the number of new attribute rows plus the number of
    new level rows; the figure for levels is always zero. *)
Lemma report_accounting env page term s s' r :
  crawl env page term s = (s', Ok r) ->
  size CRNS s' = size CRNS s + reportedCRNS r
  /\ size subjects s' = size subjects s + reportedSubjects r
  /\ size instructors s' = size instructors s + reportedInstructors r
  /\ size attributes s' + size levels s'
     = size attributes s + size levels s + reportedAttributes r
  /\ reportedLevels r = 0.
Proof.
  intros H. apply crawl_ok in H.
  destruct H as (full & short & elements & results & s1 & n & c
                 & _ & _ & _ & Hsub & Hloop & ->).
  apply subjectLoop_delta in Hsub. destruct Hsub as [F1 D1].
  apply courseLoop_delta in Hloop.
  destruct Hloop as (A2 & _ & C2 & I2 & T2 & L2 & S2).
  pose proof (F1 CRNS ltac:(discriminate)) as X1.
  pose proof (F1 instructors ltac:(discriminate)) as X2.
  pose proof (F1 attributes ltac:(discriminate)) as X3.
  pose proof (F1 levels ltac:(discriminate)) as X4.
  unfold size in *. simpl in *.
  rewrite X1 in C2. rewrite X2 in I2. rewrite X3, X4 in T2.
  rewrite A2. repeat split; lia.
Qed.

(** C10. After a run over one section with levels "Undergraduate, Graduate"
    and no attributes, from an empty store, two Level rows and no Attribute
    row have been inserted, while the closing message reports 2 new
    attributes and 0 new levels. *)
Theorem level_rows_reported_as_attributes :
  exists s r,
    crawl Sample.env (Sample.page [Sample.robotics]) "201910" emptyStore
    = (s, Ok r)
    /\ List.length (levelRows s) = 2
    /\ List.length (attributeRows s) = 0
    /\ reportedLevels r = 0
    /\ reportedAttributes r = 2.
Proof.
  eexists. eexists. split; [vm_compute; reflexivity |].
  repeat split; reflexivity.
Qed.

(** *** Subjects across terms *)

Lemma find_none_filter {A : Type} (f : A -> bool) (l : list A) :
  find f l = None <-> filter f l = [].
Proof.
  induction l as [| x l IH]; simpl; [tauto |].
  destruct (f x); [split; discriminate | exact IH].
Qed.

Lemma find_app_none {A : Type} (f : A -> bool) (l l' : list A) :
  find f l = None -> find f (l ++ l') = find f l'.
Proof.
  induction l as [| y l IH]; simpl; [reflexivity |].
  destruct (f y); [discriminate | exact IH].
Qed.

Lemma present_withCode (code : string) (s : Store) :
  present subjects "shortName" (VStr code) s <-> withCode code s <> [].
Proof.
  unfold present, withCode. now rewrite find_none_filter.
Qed.

(** The row a miss inserts into the Subject table. *)
Lemma subject_row_key (n : Z) (v : value) (d : obj) :
  get "shortName" d = v ->
  get "shortName" (("id", VNum n) :: newValues "shortName" v d) = v.
Proof. intros H. simpl. now apply newValues_get. Qed.

(** A lookup-or-insert of any subject leaves the rows of a code that is
    already known untouched. *)
Lemma subject_upsert_keeps v d s s' res code :
  findOrCreate subjects "shortName" v d s = (s', Ok res) ->
  get "shortName" d = v ->
  present subjects "shortName" (VStr code) s ->
  withCode code s' = withCode code s.
Proof.
  destruct res as [row b]. intros H Hd Hp. apply findOrCreate_ok in H.
  destruct H as [_ [(_ & -> & _) | (_ & Hf & Hrow & ->)]]; [reflexivity |].
  unfold withCode. rewrite rows_setRows_same, filter_app. simpl.
  unfold matches at 2. rewrite Hrow, subject_row_key by exact Hd.
  destruct (value_eqb v (VStr code)) eqn:E; [| apply app_nil_r].
  apply value_eqb_eq in E. exfalso. apply Hp. now rewrite <- E.
Qed.

(** ... and, when it is for another code, does not make a code known. *)
Lemma subject_upsert_other v d s s' res code :
  findOrCreate subjects "shortName" v d s = (s', Ok res) ->
  get "shortName" d = v ->
  v <> VStr code ->
  ~ present subjects "shortName" (VStr code) s ->
  ~ present subjects "shortName" (VStr code) s'.
Proof.
  destruct res as [row b]. intros H Hd Hv Hp. apply findOrCreate_ok in H.
  destruct H as [_ [(_ & -> & _) | (_ & Hf & Hrow & ->)]]; [exact Hp |].
  unfold present in *. rewrite rows_setRows_same.
  assert (Hnone : find (matches "shortName" (VStr code)) (rows subjects s) = None).
  { destruct (find (matches "shortName" (VStr code)) (rows subjects s)); [| reflexivity].
    exfalso. apply Hp. discriminate. }
  rewrite (find_app_none _ _ _ Hnone). simpl.
  unfold matches. rewrite Hrow, subject_row_key by exact Hd.
  destruct (value_eqb v (VStr code)) eqn:E; [| tauto].
  apply value_eqb_eq in E. contradiction.
Qed.

(** One turn of the subject loop, taken apart. *)
Lemma subjectLoop_step env term short i f rest n s s' n' :
  subjectLoop env term short i (f :: rest) n s = (s', Ok n') ->
  exists s1 res n1,
    findOrCreate subjects "shortName" (at_ short i)
      [("shortName", at_ short i); ("longName", VStr f); ("firstSeen", VStr term)] s
    = (s1, Ok res)
    /\ subjectLoop env term short (S i) rest n1 s1 = (s', Ok n').
Proof.
  simpl. intros H.
  apply bind_ok in H. destruct H as (s1 & res & Hfc & H).
  apply bind_ok in H. destruct H as (s2 & n1 & Hcount & H).
  assert (s2 = s1) as ->.
  { destruct (snd res); [destruct (VERBOSE env) |]; simpl in Hcount;
      try discriminate Hcount; now injection Hcount as <- _. }
  eauto.
Qed.

Lemma subjectLoop_keeps env term short code fulls : forall i n s s' n',
  subjectLoop env term short i fulls n s = (s', Ok n') ->
  present subjects "shortName" (VStr code) s ->
  withCode code s' = withCode code s.
Proof.
  induction fulls as [| f rest IH]; intros i n s s' n' H Hp.
  - simpl in H. now injection H as <- _.
  - apply subjectLoop_step in H. destruct H as (s1 & res & n1 & Hfc & H).
    pose proof (findOrCreate_extends _ _ _ _ _ _ _ Hfc) as Hext.
    rewrite (IH _ _ _ _ _ H) by (eapply present_extends; eauto).
    eapply subject_upsert_keeps; eauto.
Qed.

(** The first pair of the loop that carries a code not yet known inserts
    its row, stamped with the term of this run and the long name of that
    pair; the rest of the loop leaves it alone. *)
Lemma subjectLoop_first env term short code long fulls : forall j i n s s' n',
  subjectLoop env term short i fulls n s = (s', Ok n') ->
  ~ present subjects "shortName" (VStr code) s ->
  nth_error fulls j = Some long ->
  nth_error short (i + j) = Some code ->
  (forall j', j' < j -> nth_error short (i + j') <> Some code) ->
  exists row,
    withCode code s' = [row]
    /\ get "shortName" row = VStr code
    /\ get "longName" row = VStr long
    /\ get "firstSeen" row = VStr term.
Proof.
  induction fulls as [| f rest IH]; intros j i n s s' n' H Hp Hj Hcode Hfirst.
  - destruct j; discriminate Hj.
  - apply subjectLoop_step in H. destruct H as (s1 & [row b] & n1 & Hfc & H).
    destruct j as [| j].
    + simpl in Hj. injection Hj as ->.
      rewrite Nat.add_0_r in Hcode.
      assert (Hat : at_ short i = VStr code) by (unfold at_; now rewrite Hcode).
      rewrite Hat in Hfc.
      pose proof Hfc as Hok. apply findOrCreate_ok in Hok.
      destruct Hok as [_ [(_ & _ & Hf) | (_ & Hf & Hrow & Hs1)]].
      { exfalso. apply Hp. unfold present. now rewrite Hf. }
      assert (Hw : withCode code s1 = [row]).
      { subst s1. unfold withCode. rewrite rows_setRows_same, filter_app.
        apply find_none_filter in Hf. rewrite Hf. simpl.
        unfold matches. rewrite Hrow. simpl. now rewrite String.eqb_refl. }
      exists row. split.
      * rewrite (subjectLoop_keeps _ _ _ code _ _ _ _ _ _ H); [exact Hw |].
        apply present_withCode. rewrite Hw. discriminate.
      * subst row. repeat split; reflexivity.
    + assert (Hne : at_ short i <> VStr code).
      { specialize (Hfirst 0 ltac:(lia)). rewrite Nat.add_0_r in Hfirst.
        unfold at_. destruct (nth_error short i); congruence. }
      eapply (IH j (S i)); eauto.
      * eapply subject_upsert_other; eauto.
      * now rewrite Nat.add_succ_l, <- Nat.add_succ_r.
      * intros j' Hlt. specialize (Hfirst (S j') ltac:(lia)).
        now rewrite Nat.add_succ_l, <- Nat.add_succ_r.
Qed.

(** A whole run of [crawl] leaves the rows of a known code untouched. *)
Lemma crawl_keeps env page term s s' r code :
  crawl env page term s = (s', Ok r) ->
  present subjects "shortName" (VStr code) s ->
  withCode code s' = withCode code s.
Proof.
  intros H Hp. apply crawl_ok in H.
  destruct H as (full & short & el & res & sa & n & c
                 & _ & _ & _ & Hsub & Hloop & _).
  apply courseLoop_delta in Hloop. destruct Hloop as (Hsame & _).
  unfold withCode at 1. rewrite Hsame.
  now apply (subjectLoop_keeps _ _ _ code _ _ _ _ _ _ Hsub).
Qed.

(** The first run that observes a code writes its only row. *)
Lemma crawl_first env page term s s' r full short i code long :
  subjectSelect page = Some (full, short) ->
  nth_error full i = Some long ->
  nth_error short i = Some code ->
  (forall j, j < i -> nth_error short j <> Some code) ->
  ~ present subjects "shortName" (VStr code) s ->
  crawl env page term s = (s', Ok r) ->
  exists row,
    withCode code s' = [row]
    /\ get "longName" row = VStr long
    /\ get "firstSeen" row = VStr term.
Proof.
  intros Hsel Hlong Hcode Hfirst Hnew H. apply crawl_ok in H.
  destruct H as (full' & short' & el & res & sa & n & c
                 & Hsel' & _ & _ & Hsub & Hloop & _).
  rewrite Hsel in Hsel'. injection Hsel' as <- <-.
  destruct (subjectLoop_first _ _ _ code long _ i 0 _ _ _ _ Hsub Hnew Hlong Hcode Hfirst)
    as (row & Hw & _ & Hln & Hfs).
  apply courseLoop_delta in Hloop. destruct Hloop as (Hsame & _).
  exists row. unfold withCode in *. rewrite Hsame. auto.
Qed.

End CrawlFacts.

(** ** The run over the terms *)

Module StartFacts.

Import Db DbSpec DbFacts Crawl CrawlSpec CrawlFacts Start StartSpec.

Lemma grows_ret {A : Type} (a : A) : grows (ret a).
Proof. intros s s' r H. injection H as <- _. apply extends_refl. Qed.

Lemma grows_throw {A : Type} (e : exn) : grows (@throw A e).
Proof. intros s s' r H. injection H as <- _. apply extends_refl. Qed.

Lemma grows_lift {A : Type} (x : result A) : grows (lift x).
Proof. intros s s' r H. injection H as <- _. apply extends_refl. Qed.

Lemma grows_bind {A B : Type} (c : M A) (k : A -> M B) :
  grows c -> (forall a, grows (k a)) -> grows (bind c k).
Proof.
  intros Hc Hk s s' r. unfold bind.
  destruct (c s) as [s1 [a | e]] eqn:E; intros H.
  - eapply extends_trans; [eapply Hc | eapply Hk]; eauto.
  - injection H as <- _. eapply Hc; eauto.
Qed.

Lemma grows_create m values : grows (create m values).
Proof.
  intros s s' r H. unfold create in H. injection H as <- _.
  apply extends_append.
Qed.

Lemma grows_findOrCreate m col v d : grows (findOrCreate m col v d).
Proof.
  intros s s' r H. destruct r as [[row b] | e].
  - eapply findOrCreate_extends; eauto.
  - unfold findOrCreate, create in H.
    destruct (find (matches col v) (rows m s)); destruct v;
      try discriminate H; injection H as <- _; apply extends_refl.
Qed.

Create HintDb grows.

#[local] Hint Resolve grows_ret grows_throw grows_lift grows_create
  grows_findOrCreate : grows.

Lemma grows_subjectLoop env term short fulls : forall i n,
  grows (subjectLoop env term short i fulls n).
Proof.
  induction fulls as [| f rest IH]; intros i n; simpl; auto with grows.
  apply grows_bind; auto with grows. intros res.
  apply grows_bind; [| intros; apply IH].
  destruct (snd res); auto with grows.
  apply grows_bind; [destruct (VERBOSE env) |]; auto with grows.
Qed.

Lemma grows_tokenLoop m col term arr : forall n,
  grows (tokenLoop m col term arr n).
Proof.
  induction arr as [| tok rest IH]; intros n; simpl; auto with grows.
  apply grows_bind; auto with grows.
Qed.

Lemma grows_courseStep term ii i info c : grows (courseStep term ii i info c).
Proof.
  unfold courseStep.
  apply grows_bind.
  { destruct (nth_error ii i); auto with grows.
    apply grows_bind; auto with grows. }
  intros n1. apply grows_bind.
  { destruct (truthy _); auto with grows.
    apply grows_bind; auto using grows_tokenLoop with grows. }
  intros n2. apply grows_bind.
  { destruct (truthy _); auto with grows.
    apply grows_bind; auto using grows_tokenLoop with grows. }
  intros n3. apply grows_bind; auto with grows.
Qed.

Lemma grows_courseLoop term ii infos : forall i c,
  grows (courseLoop term ii i infos c).
Proof.
  induction infos as [| info rest IH]; intros i c; simpl; auto with grows.
  apply grows_bind; auto using grows_courseStep.
Qed.

Lemma grows_crawl env page term : grows (crawl env page term).
Proof.
  unfold crawl.
  apply grows_bind; [destruct (subjectSelect page); auto with grows |].
  intros sel. apply grows_bind; [apply grows_subjectLoop |].
  intros n. apply grows_bind; [destruct (listing page); auto with grows |].
  intros elements. apply grows_bind; auto with grows.
  intros results. apply grows_bind; auto using grows_courseLoop with grows.
Qed.

(** The loop stops at the first term whose [crawl] rejects. *)
Lemma termLoop_stops env w t post e : forall pre s out s1 out1 s2,
  termLoop env w pre s out = (s1, out1, Ok tt) ->
  crawl env (termPage w (termID t)) (termID t) s1 = (s2, Throw e) ->
  termLoop env w (pre ++ t :: post) s out
  = (s2, out1 ++ [StartingCrawl t], Throw e).
Proof.
  induction pre as [| u pre IH]; simpl; intros s out s1 out1 s2 Hpre Hfail.
  - injection Hpre as <- <-. now rewrite Hfail.
  - destruct (crawl env (termPage w (termID u)) (termID u) s) as [sa [r | e']].
    + eapply IH; eauto.
    + discriminate Hpre.
Qed.

(** Later terms leave the rows of a known code untouched, and only add. *)
Lemma termLoop_keeps env w code : forall ts s out s' out',
  termLoop env w ts s out = (s', out', Ok tt) ->
  present subjects "shortName" (VStr code) s ->
  withCode code s' = withCode code s /\ extends s s'.
Proof.
  induction ts as [| t rest IH]; simpl; intros s out s' out' H Hp.
  - injection H as <- _. split; [reflexivity | apply extends_refl].
  - destruct (crawl env (termPage w (termID t)) (termID t) s)
      as [sa [r | e]] eqn:Hc; [| discriminate H].
    pose proof (grows_crawl _ _ _ _ _ _ Hc) as Hext.
    apply IH in H; [| eapply present_extends; eauto].
    destruct H as [Hw Hext']. split; [| eapply extends_trans; eauto].
    rewrite Hw. eapply crawl_keeps; eauto.
Qed.

(** C9. When a subject code not yet in the store is observed in a term (its
    first pair there being at index [i], with long name [long]), and any
    number of later terms are then processed, whether they show the code
    again or not, there is exactly one Subject row with the code at the
    end; it is the row written by the first term, stamped firstSeen = that
    term and carrying its long name; and the later terms changed no
    existing Subject row: the table after the first term is a prefix of the
    final table. *)
Theorem subject_first_seen_kept (env : Env) (w : World) (page1 : TermPage)
  (term1 : string) (later : list Term) (s0 s1 s2 : Store) (r1 : Report)
  (out out2 : list Line) (full1 short1 : list string) (i : nat)
  (code long : string) :
  subjectSelect page1 = Some (full1, short1) ->
  nth_error full1 i = Some long ->
  nth_error short1 i = Some code ->
  (forall j, j < i -> nth_error short1 j <> Some code) ->
  ~ present subjects "shortName" (VStr code) s0 ->
  crawl env page1 term1 s0 = (s1, Ok r1) ->
  termLoop env w later s1 out = (s2, out2, Ok tt) ->
  exists row,
    withCode code s1 = [row]
    /\ withCode code s2 = [row]
    /\ get "firstSeen" row = VStr term1
    /\ get "longName" row = VStr long
    /\ exists added, rows subjects s2 = rows subjects s1 ++ added.
Proof.
  intros Hsel Hlong Hcode Hfirst Hnew H1 H2.
  destruct (crawl_first _ _ _ _ _ _ _ _ _ _ _ Hsel Hlong Hcode Hfirst Hnew H1)
    as (row & Hw & Hln & Hfs).
  apply (termLoop_keeps _ _ code) in H2;
    [| apply present_withCode; rewrite Hw; discriminate].
  destruct H2 as [Hw2 Hext].
  exists row. repeat split; try assumption.
  - now rewrite Hw2.
  - apply Hext.
Qed.

(** "COE" first seen in 200510, then two more terms that show it again. *)
Lemma subject_first_seen_kept_witness :
  exists s1 r1 s2 out2,
    crawl Sample.env (Sample.page [Sample.robotics]) "200510" emptyStore
    = (s1, Ok r1)
    /\ termLoop Sample.env Sample.quietWorld
         [Sample.fall2005; Sample.spring2006] s1 [] = (s2, out2, Ok tt)
    /\ exists row,
         withCode "COE" s1 = [row]
         /\ withCode "COE" s2 = [row]
         /\ get "firstSeen" row = VStr "200510"
         /\ get "longName" row = VStr "Computer Engineering"
         /\ exists added, rows subjects s2 = rows subjects s1 ++ added.
Proof.
  eexists. eexists. eexists. eexists.
  split; [vm_compute; reflexivity |]. split; [vm_compute; reflexivity |].
  eapply (subject_first_seen_kept Sample.env Sample.quietWorld
            (Sample.page [Sample.robotics]) "200510"
            [Sample.fall2005; Sample.spring2006] emptyStore
            _ _ _ [] _ ["Computer Engineering"] ["COE"] 0 "COE"
            "Computer Engineering").
  - reflexivity.
  - reflexivity.
  - reflexivity.
  - intros j Hj. lia.
  - intros H. apply H. reflexivity.
  - vm_compute. reflexivity.
  - vm_compute. reflexivity.
Defined.

(** C8. As the code has it: when term discovery succeeds and the [crawl] of
    some term rejects (at whichever of its stages) after the terms before
    it went through, the run ends there with outcome 1: the error is
    printed, no later term is started, and the final store has every row
    committed before the failure.  A failure of term discovery ends the run
    with outcome 1 as well. *)
Theorem failure_in_a_term_ends_the_run (env : Env) (w : World)
  (options : list (string * string)) (pre post : list Term) (t : Term)
  (s1 s2 : Store) (out1 : list Line) (e : exn) :
  termOptions w = Some options ->
  terms options = pre ++ t :: post ->
  termLoop env w pre
    (fst (bulkCreate semesters (map termRecord (terms options)) emptyStore))
    [SemestersInserted (List.length (terms options))]
  = (s1, out1, Ok tt) ->
  crawl env (termPage w (termID t)) (termID t) s1 = (s2, Throw e) ->
  startCrawl env w
  = {| finalStore := s2;
       console := out1 ++ [StartingCrawl t; ErrorQuitting e];
       exitCode := 1 |}
  /\ extends s1 s2
  /\ (forall w', termOptions w' = None -> exitCode (startCrawl env w') = 1%Z).
Proof.
  intros Hopt Hterms Hpre Hfail. split; [| split].
  - pose proof (termLoop_stops env w t post e _ _ _ _ _ _ Hpre Hfail) as Hstop.
    rewrite <- Hterms in Hstop.
    unfold startCrawl. rewrite Hopt. cbv zeta. rewrite Hstop.
    now rewrite <- app_assoc.
  - eapply grows_crawl; eauto.
  - intros w' Hw'. unfold startCrawl. now rewrite Hw'.
Qed.

(** C8, refuted as worded: with two terms of which the first cannot load
    its subject selector, the second term is never started and the run ends
    with outcome 1. *)
Lemma failed_term_is_not_skipped :
  startCrawl Sample.env Sample.world
  = {| finalStore :=
         fst (bulkCreate semesters
                (map termRecord [Sample.fall2005; Sample.spring2006]) emptyStore);
       console := [ SemestersInserted 2; StartingCrawl Sample.fall2005;
                    ErrorQuitting TimeoutError ];
       exitCode := 1 |}
  /\ ~ failureScopedToTerm Sample.env Sample.world.
Proof.
  split; [vm_compute; reflexivity |].
  intros H.
  specialize (H _ eq_refl Sample.spring2006 ltac:(vm_compute; tauto)).
  vm_compute in H. decompose [or] H; try discriminate; contradiction.
Qed.

(** The run over the two sample terms, stopped by the first. *)
Lemma failure_in_a_term_ends_the_run_witness :
  startCrawl Sample.env Sample.world
  = {| finalStore :=
         fst (bulkCreate semesters
                (map termRecord [Sample.fall2005; Sample.spring2006]) emptyStore);
       console := [SemestersInserted 2] ++ [ StartingCrawl Sample.fall2005;
                    ErrorQuitting TimeoutError ];
       exitCode := 1 |}.
Proof.
  eapply proj1.
  eapply (failure_in_a_term_ends_the_run Sample.env Sample.world
            [ ("", "None"); ("200610", "Spring 2006 (View only)");
              ("200520", "Fall 2005") ]
            [] [Sample.spring2006] Sample.fall2005);
    reflexivity.
Defined.

End StartFacts.

(** * Further properties *)

(** ** Splitting and trimming *)

Module JsMore.

Lemma append_snoc (cur : string) (c : ascii) (s : string) :
  ((cur ++ String c "") ++ s)%string = (cur ++ String c s)%string.
Proof. induction cur as [| a cur IH]; simpl; [reflexivity | now rewrite IH]. Qed.

Lemma append_empty_r (s : string) : (s ++ "")%string = s.
Proof. induction s as [| a s IH]; simpl; [reflexivity | now rewrite IH]. Qed.

Lemma append_assoc3 (a b c : string) : ((a ++ b) ++ c)%string = (a ++ b ++ c)%string.
Proof. induction a as [| x a IH]; simpl; [reflexivity | now rewrite IH]. Qed.

Lemma prefix_append (p r : string) : prefix p (p ++ r) = true.
Proof.
  induction p as [| a p IH]; simpl; [destruct r; reflexivity |].
  destruct (ascii_dec a a); [exact IH | contradiction].
Qed.

Lemma includes_cons (needle : string) (c : ascii) (s : string) :
  includes needle (String c s) = false ->
  prefix needle (String c s) = false /\ includes needle s = false.
Proof. simpl includes. intros H. now apply orb_false_iff in H. Qed.

(** Without an occurrence of the separator there is one piece. *)
Lemma split_from_absent (sep : string) : forall s cur,
  includes sep s = false -> split_from sep 0 cur s = [(cur ++ s)%string].
Proof.
  induction s as [| c s IH]; intros cur H.
  - simpl. now rewrite append_empty_r.
  - apply includes_cons in H. destruct H as [Hp Hi].
    cbn [split_from]. rewrite Hp, (IH _ Hi). now rewrite append_snoc.
Qed.

(** The rest of an occurrence is passed over. *)
Lemma split_from_skip (sep : string) : forall p cur r,
  split_from sep (String.length p) cur (p ++ r) = split_from sep 0 cur r.
Proof.
  induction p as [| a p IH]; intros cur r; simpl String.length.
  - destruct r; reflexivity.
  - simpl append. cbn [split_from]. apply IH.
Qed.

(** An occurrence of the separator closes the piece being collected. *)
Lemma split_from_here (c0 : ascii) (sep' r cur : string) :
  split_from (String c0 sep') 0 cur (String c0 sep' ++ r)
  = cur :: split_from (String c0 sep') 0 "" r.
Proof.
  simpl append. cbn [split_from].
  change (String c0 (sep' ++ r)) with (String c0 sep' ++ r)%string.
  rewrite prefix_append. f_equal.
  replace (String.length (String c0 sep') - 1) with (String.length sep')
    by (simpl; lia).
  apply split_from_skip.
Qed.

(** A stretch that lacks the first character of the separator belongs to
    the piece being collected. *)
Lemma split_from_before (c0 : ascii) (sep' r : string) : forall s cur,
  includes (String c0 "") s = false ->
  split_from (String c0 sep') 0 cur (s ++ String c0 sep' ++ r)
  = (cur ++ s)%string :: split_from (String c0 sep') 0 "" r.
Proof.
  induction s as [| c s IH]; intros cur H.
  - simpl append at 1. rewrite append_empty_r. apply split_from_here.
  - apply includes_cons in H. destruct H as [Hp Hi].
    change ((String c s ++ String c0 sep' ++ r)%string)
      with (String c (s ++ String c0 sep' ++ r)).
    cbn [split_from].
    assert (Hne : prefix (String c0 sep') (String c (s ++ String c0 sep' ++ r)) = false).
    { simpl in *. destruct (ascii_dec c0 c); [| reflexivity].
      destruct s; discriminate Hp. }
    rewrite Hne, (IH _ Hi). now rewrite append_snoc.
Qed.

Lemma trimStart_length (s : string) : String.length (trimStart s) <= String.length s.
Proof.
  induction s as [| c s IH]; simpl; [lia |].
  destruct (isWhiteSpace c); simpl; lia.
Qed.

Lemma trimEnd_length (s : string) : String.length (trimEnd s) <= String.length s.
Proof.
  induction s as [| c s IH]; simpl; [lia |].
  destruct (isWhiteSpace c && (trimEnd s =? ""))%bool; simpl; lia.
Qed.

(** A text that [trim] leaves alone starts with no white space ... *)
Lemma trim_fixed_start (s : string) : trim s = s -> trimStart s = s.
Proof.
  unfold trim. intros H. destruct s as [| c s]; [reflexivity |].
  simpl in *. destruct (isWhiteSpace c); [| reflexivity].
  exfalso.
  pose proof (trimEnd_length (trimStart s)) as H1.
  pose proof (trimStart_length s) as H2.
  rewrite H in H1. simpl in H1. lia.
Qed.

(** ... and ends with none: a blank added at its end is trimmed away. *)
Lemma trimEnd_blank (s : string) : trimEnd s = s -> trimEnd (s ++ " ") = s.
Proof.
  induction s as [| c s IH]; [reflexivity |].
  simpl. intros H.
  destruct (isWhiteSpace c && (trimEnd s =? ""))%bool eqn:E; [discriminate H |].
  injection H as H. rewrite (IH H), H in *. now rewrite E.
Qed.

Lemma trim_blank (s : string) : trim s = s -> trim (s ++ " ") = s.
Proof.
  intros H. pose proof (trim_fixed_start _ H) as Hs.
  unfold trim in *. rewrite Hs in H.
  destruct s as [| c s]; [reflexivity |].
  assert (Hc : isWhiteSpace c = false).
  { simpl in Hs. destruct (isWhiteSpace c); [| reflexivity].
    pose proof (trimStart_length s) as H2. rewrite Hs in H2. simpl in H2. lia. }
  change (String c s ++ " ")%string with (String c (s ++ " ")).
  cbn [trimStart]. rewrite Hc.
  change (String c (s ++ " ")) with (String c s ++ " ")%string.
  now apply trimEnd_blank.
Qed.


End JsMore.

(** ** More on the extraction *)

Module ExtractMore.

Import Extract ExtractSpec ExtractFacts ExtractMoreSpec JsMore.

(** *** The two arrays, element by element *)

Lemma extractFrom_spec (env : Env) (elements : list Anchor) : forall acc r,
  extractFrom env elements acc = Ok r ->
  exists xs,
    Forall2 (fun a x => extractOne env a = Ok x) elements xs
    /\ crnInfo r = crnInfo acc ++ map fst xs
    /\ instructorInfo r = instructorInfo acc ++ instructorsOf xs.
Proof.
  induction elements as [| a rest IH]; intros acc r H; simpl in H.
  - injection H as <-. exists []. simpl. rewrite !app_nil_r. auto.
  - ok_steps H. apply IH in H. destruct H as (xs & HF & Hc & Hi).
    exists (a0 :: xs). split; [constructor; assumption |].
    simpl in Hc, Hi. rewrite Hc, Hi. unfold instructorsOf. simpl.
    rewrite <- !app_assoc. split; [reflexivity |].
    destruct (snd a0); [now rewrite <- app_assoc | reflexivity].
Qed.

(** The course array holds the record of every header, in document order,
    and the instructor array the instructor records of the headers that
    gave one, in document order. *)
Theorem records_in_document_order (env : Env) (elements : list Anchor) (r : Results) :
  totalResults env elements = Ok r ->
  exists xs,
    Forall2 (fun a x => extractOne env a = Ok x) elements xs
    /\ crnInfo r = map fst xs
    /\ instructorInfo r = instructorsOf xs.
Proof. intros H. apply extractFrom_spec in H. exact H. Qed.

Lemma records_in_document_order_witness :
  exists r,
    totalResults Sample.env [Sample.thesis; Sample.robotics] = Ok r
    /\ exists xs,
         Forall2 (fun a x => extractOne Sample.env a = Ok x)
           [Sample.thesis; Sample.robotics] xs
         /\ crnInfo r = map fst xs
         /\ instructorInfo r = instructorsOf xs.
Proof.
  eexists. split; [vm_compute; reflexivity |].
  apply (records_in_document_order Sample.env [Sample.thesis; Sample.robotics]).
  vm_compute. reflexivity.
Defined.

(** One header that cannot be extracted loses the whole listing: the
    callback throws and gives no record at all. *)
Theorem one_bad_header_loses_the_listing (env : Env) (elements : list Anchor)
  (a : Anchor) (e : exn) :
  In a elements ->
  extractOne env a = Throw e ->
  exists e', totalResults env elements = Throw e'.
Proof.
  intros Hin Hbad.
  destruct (totalResults env elements) as [r | e'] eqn:H; [| eauto].
  exfalso. apply extractFrom_spec in H. destruct H as (xs & HF & _).
  clear - Hin Hbad HF. induction HF as [| b x l xs Hb _ IH]; [contradiction |].
  destruct Hin as [-> | Hin]; [congruence | auto].
Qed.

Lemma one_bad_header_loses_the_listing_witness :
  exists e',
    totalResults Sample.env [Sample.robotics; Sample.noLevels; Sample.thesis]
    = Throw e'.
Proof.
  apply (one_bad_header_loses_the_listing Sample.env
           [Sample.robotics; Sample.noLevels; Sample.thesis] Sample.noLevels
           TypeError).
  - simpl. tauto.
  - vm_compute. reflexivity.
Defined.

(** *** Blocks that are not shaped as expected *)

(** No record comes out of a header without a following detail element, of
    a header with fewer than three pieces, or of a table with fewer than
    eight cells. *)
Theorem malformed_block_throws (env : Env) (a : Anchor) :
  nextElementSibling a = None
  \/ List.length (split " - " (innerText a)) < 3
  \/ (exists d t, nextElementSibling a = Some d /\ classTable d = Some t
                  /\ List.length (tds t) < 8) ->
  forall r, extractOne env a <> Ok r.
Proof.
  intros Hbad r H.
  destruct (nextElementSibling a) as [d |] eqn:Ha;
    [| unfold extractOne in H; rewrite Ha in H; discriminate H].
  assert (Hpieces : forall base,
            placeholderInfo (split " - " (innerText a)) (descriptionText d) = Ok base
            -> 3 <= List.length (split " - " (innerText a))).
  { intros base Hb. unfold placeholderInfo in Hb. ok_steps Hb.
    unfold asString, at_ in E.
    destruct (nth_error (split " - " (innerText a)) 2) eqn:En; [| discriminate E].
    assert (2 < List.length (split " - " (innerText a)))
      by (apply nth_error_Some; congruence). lia. }
  destruct (classTable d) as [t |] eqn:Hd.
  - destruct (extractOne_table _ _ _ _ _ Ha Hd H)
      as (base & ii & days & info1 & Hbase & _).
    unfold tableInfo in Hbase. ok_steps Hbase.
    destruct Hbad as [Hbad | [Hbad | (d' & t' & Hd' & Ht' & Hlen)]].
    + discriminate Hbad.
    + unfold asString, at_ in E.
      destruct (nth_error (split " - " (innerText a)) 2) eqn:En; [| discriminate E].
      assert (2 < List.length (split " - " (innerText a)))
        by (apply nth_error_Some; congruence). lia.
    + injection Hd' as <-. rewrite Hd in Ht'. injection Ht' as <-.
      unfold td in E1. destruct (nth_error (tds t) 7) eqn:En; [| discriminate E1].
      assert (7 < List.length (tds t)) by (apply nth_error_Some; congruence). lia.
  - destruct (extractOne_placeholder _ _ _ _ Ha Hd H) as (base & info1 & Hbase & _).
    specialize (Hpieces _ Hbase).
    destruct Hbad as [Hbad | [Hbad | (d' & t' & Hd' & Ht' & Hlen)]].
    + discriminate Hbad.
    + lia.
    + injection Hd' as <-. rewrite Hd in Ht'. discriminate Ht'.
Qed.

Lemma malformed_block_throws_witness :
  List.length (split " - " "Intro to Robotics - 12345") < 3
  /\ ~ exists r,
        extractOne Sample.env
          {| innerText := "Intro to Robotics - 12345";
             nextElementSibling := nextElementSibling Sample.robotics |} = Ok r.
Proof.
  assert (Hlen : List.length (split " - " "Intro to Robotics - 12345") < 3)
    by (vm_compute; lia).
  split; [exact Hlen |]. intros [r H].
  exact (malformed_block_throws Sample.env
           {| innerText := "Intro to Robotics - 12345";
              nextElementSibling := nextElementSibling Sample.robotics |}
           (or_intror (or_introl Hlen)) r H).
Defined.

(** *** The fields of a record, as read from the block *)

Lemma setDay_frame (days : string) (info : obj) (k : string) :
  ~ In k dayKeys -> get k (setDay days info) = get k info.
Proof.
  intros Hk. unfold setDay.
  repeat match goal with
    | |- context [if ?b then _ else _] => destruct b
    end;
    try reflexivity;
    apply get_set_other; intros ->; apply Hk; simpl; tauto.
Qed.

(** What the two literals read from the free text. *)
Lemma base_free_text (env : Env) (T : list string) (text : string)
  (t : option Table) (base : obj) :
  match t with
  | Some t => tableInfo env T text t
  | None => placeholderInfo T text
  end = Ok base ->
  exists lv st cr,
    matchAfter "Levels: " text = Some lv
    /\ matchBefore " Schedule" text = Some st
    /\ matchBefore " Credits" text = Some cr
    /\ get "levels" base = orNull lv
    /\ get "scheduleType" base = orNull st
    /\ get "credits" base = intOrNull (parseInt cr)
    /\ get "attributes" base = VNull.
Proof.
  destruct t as [t |]; intros H.
  - unfold tableInfo in H. ok_steps H. injection H as <-.
    destruct (matchAfter "Levels: " text); [| discriminate E3].
    destruct (matchBefore " Schedule" text); [| discriminate E4].
    destruct (matchBefore " Credits" text); [| discriminate E5].
    injection E3 as <-. injection E4 as <-. injection E5 as <-.
    do 3 eexists. repeat split; reflexivity.
  - unfold placeholderInfo in H. ok_steps H. injection H as <-.
    destruct (matchAfter "Levels: " text); [| discriminate E0].
    destruct (matchBefore " Schedule" text); [| discriminate E1].
    destruct (matchBefore " Credits" text); [| discriminate E2].
    injection E0 as <-. injection E1 as <-. injection E2 as <-.
    do 3 eexists. repeat split; reflexivity.
Qed.

(** Every record that is produced, with the literal it started from. *)
Lemma extractOne_base (env : Env) (a : Anchor) (d : Detail) (info : obj)
  (instr : option obj) :
  nextElementSibling a = Some d ->
  extractOne env a = Ok (info, instr) ->
  exists base,
    match classTable d with
    | Some t => tableInfo env (split " - " (innerText a)) (descriptionText d) t
    | None => placeholderInfo (split " - " (innerText a)) (descriptionText d)
    end = Ok base
    /\ forall k, ~ In k dayKeys -> ~ In k headingKeys -> k <> "attributes" ->
         get k info = get k base.
Proof.
  intros Ha H. destruct (classTable d) as [t |] eqn:Hd.
  - destruct (extractOne_table _ _ _ _ _ Ha Hd H)
      as (base & ii & days & info1 & Hbase & _ & _ & Hremap & Hr).
    injection Hr as -> _. exists base. split; [exact Hbase |].
    intros k Hk1 Hk2 Hk3.
    now rewrite setAttributes_frame, (remap_frame _ _ _ _ Hremap), setDay_frame.
  - destruct (extractOne_placeholder _ _ _ _ Ha Hd H)
      as (base & info1 & Hbase & Hremap & Hr).
    injection Hr as -> _. exists base. split; [exact Hbase |].
    intros k Hk1 Hk2 Hk3.
    now rewrite setAttributes_frame, (remap_frame _ _ _ _ Hremap).
Qed.

Ltac not_in_keys :=
  simpl; intros Hin; decompose [or] Hin; try discriminate; contradiction.



(** In a record read from a table, the type, the classroom and the two
    flags come from columns 6, 4 and 3, whatever the header looks like: the
    lab flag is set by a header of five pieces or by the text "Lab" in
    column 6, the seat flag by the text "Y" in column 3. *)
Theorem table_fields (env : Env) (a : Anchor) (d : Detail) (t : Table)
  (c3 c4 c6 : string) (info : obj) (instr : option obj) :
  nextElementSibling a = Some d ->
  classTable d = Some t ->
  nth_error (tds t) 3 = Some c3 ->
  nth_error (tds t) 4 = Some c4 ->
  nth_error (tds t) 6 = Some c6 ->
  extractOne env a = Ok (info, instr) ->
  get "classType" info = VStr c6
  /\ get "classroom" info = VStr c4
  /\ get "seatsAvailable" info = VBool (String.eqb c3 "Y")
  /\ get "isLab" info
     = VBool ((List.length (split " - " (innerText a)) =? 5)%nat
              || String.eqb c6 "Lab").
Proof.
  intros Ha Hd H3 H4 H6 H.
  destruct (extractOne_base _ _ _ _ _ Ha H) as (base & Hbase & Hframe).
  rewrite Hd in Hbase. unfold tableInfo in Hbase. ok_steps Hbase.
  injection Hbase as <-.
  unfold td in E0, E6, E7. rewrite H6 in E0. rewrite H4 in E6. rewrite H3 in E7.
  injection E0 as <-. injection E6 as <-. injection E7 as <-.
  rewrite !Hframe by (try not_in_keys; discriminate).
  repeat split; reflexivity.
Qed.

Lemma table_fields_witness :
  exists info instr,
    extractOne Sample.env Sample.calculusLab = Ok (info, instr)
    /\ get "classType" info = VStr "Lecture"
    /\ get "classroom" info = VStr "ESB 1001"
    /\ get "seatsAvailable" info = VBool true
    /\ get "isLab" info = VBool true.
Proof.
  eexists. eexists. split; [vm_compute; reflexivity |].
  apply (table_fields Sample.env Sample.calculusLab _ Sample.lectureTable
           "Y" "ESB 1001" "Lecture" _ _ eq_refl eq_refl eq_refl eq_refl eq_refl
           eq_refl).
Defined.

(** *** The instructor record *)

(** How the instructor field and the instructor record come out of
    column 7 and of the first link of the table. *)
Lemma instructor_derivation (env : Env) (a : Anchor) (d : Detail) (t : Table)
  (c7 : string) (info : obj) (instr : option obj) :
  nextElementSibling a = Some d ->
  classTable d = Some t ->
  nth_error (tds t) 7 = Some c7 ->
  extractOne env a = Ok (info, instr) ->
  exists x ii email,
    at_ (split "(P)" c7) 0 = VStr x
    /\ get "instructor" info = VStr x
    /\ instr = Some ii
    /\ ii = [("name", VStr (trim x)); ("email", VStr email)]
    /\ (if String.eqb x "TBA" then Ok "none"
        else match linkHref t with
             | Some href =>
                 rbind (asString (at_ (split "mailto:" href) 1))
                   (fun addr => Ok (trim addr))
             | None => Ok "none"
             end) = Ok email.
Proof.
  intros Ha Hd H7 H.
  destruct (extractOne_table _ _ _ _ _ Ha Hd H)
    as (base & ii & days & info1 & Hbase & Hinstr & _ & Hremap & Hr).
  injection Hr as -> ->.
  assert (Hi : get "instructor" base = at_ (split "(P)" c7) 0).
  { unfold tableInfo in Hbase. ok_steps Hbase. injection Hbase as <-.
    unfold td in E1. rewrite H7 in E1. now injection E1 as <-. }
  unfold instructorInfoOf in Hinstr. ok_steps Hinstr. injection Hinstr as <-.
  unfold td in E. rewrite H7 in E. injection E as <-.
  destruct (at_ (split "(P)" c7) 0) as [| | | | x] eqn:Ex; try discriminate E0.
  injection E0 as <-.
  exists x, [("name", VStr (trim x)); ("email", VStr a2)], a2.
  repeat split.
  - rewrite setAttributes_frame, (remap_frame _ _ _ _ Hremap), setDay_frame, Hi
      by (try not_in_keys; discriminate).
    reflexivity.
  - rewrite Hi in E1. simpl value_eqb in E1. exact E1.
Qed.

(** The name of the instructor record is the instructor field of the
    course record with its surrounding white space removed; the email is
    the sentinel "none" when that field is exactly "TBA" or when the table
    has no link. *)
Theorem instructor_record (env : Env) (a : Anchor) (d : Detail) (t : Table)
  (c7 : string) (info : obj) (instr : option obj) :
  nextElementSibling a = Some d ->
  classTable d = Some t ->
  nth_error (tds t) 7 = Some c7 ->
  extractOne env a = Ok (info, instr) ->
  exists x ii,
    get "instructor" info = VStr x
    /\ instr = Some ii
    /\ get "name" ii = VStr (trim x)
    /\ (x = "TBA" \/ linkHref t = None -> get "email" ii = VStr "none").
Proof.
  intros Ha Hd H7 H.
  destruct (instructor_derivation _ _ _ _ _ _ _ Ha Hd H7 H)
    as (x & ii & email & _ & Hi & -> & -> & Hemail).
  exists x. eexists. repeat split; [exact Hi |].
  intros [-> | Hlink].
  - simpl in Hemail. now injection Hemail as <-.
  - rewrite Hlink in Hemail. destruct (String.eqb x "TBA");
      now injection Hemail as <-.
Qed.

Lemma instructor_record_witness :
  exists info instr,
    extractOne Sample.env Sample.robotics = Ok (info, instr)
    /\ exists x ii,
         get "instructor" info = VStr x
         /\ instr = Some ii
         /\ get "name" ii = VStr (trim x)
         /\ (x = "TBA" \/ linkHref Sample.lectureTable = None ->
             get "email" ii = VStr "none").
Proof.
  eexists. eexists. split; [vm_compute; reflexivity |].
  apply (instructor_record Sample.env Sample.robotics _ Sample.lectureTable
           "Jane Doe (P)" _ _ eq_refl eq_refl eq_refl eq_refl).
Defined.

Lemma includes_char_blank (c : ascii) (s : string) :
  c <> " "%char ->
  includes (String c "") s = false ->
  includes (String c "") (s ++ " ") = false.
Proof.
  intros Hc. induction s as [| b s IH]; intros H.
  - simpl. destruct (ascii_dec c " "); [contradiction | reflexivity].
  - apply includes_cons in H. destruct H as [Hp Hi].
    change (String b s ++ " ")%string with (String b (s ++ " ")).
    cbn [includes]. rewrite (IH Hi), orb_false_r.
    simpl in *. destruct (ascii_dec c b); [| reflexivity].
    destruct s; discriminate Hp.
Qed.

Lemma blank_end_not_TBA (s : string) : String.eqb (s ++ " ") "TBA" = false.
Proof.
  apply String.eqb_neq.
  destruct s as [| a [| b [| c [| e s]]]]; simpl; intros H; discriminate H.
Qed.

(** A cell "name (P)..." with a link "mailto:address" gives back the name
    and the address: for a name without an opening parenthesis and without
    white space around it, and an address that does not itself contain
    "mailto:", the instructor record is (name, trimmed address), and the
    instructor field of the course record is the name followed by the
    blank. *)
Theorem instructor_round_trip (env : Env) (a : Anchor) (d : Detail) (t : Table)
  (name rest addr : string) (info : obj) (instr : option obj) :
  nextElementSibling a = Some d ->
  classTable d = Some t ->
  nth_error (tds t) 7 = Some (name ++ " (P)" ++ rest)%string ->
  includes "(" name = false ->
  trim name = name ->
  linkHref t = Some ("mailto:" ++ addr)%string ->
  includes "mailto:" addr = false ->
  extractOne env a = Ok (info, instr) ->
  get "instructor" info = VStr (name ++ " ")
  /\ instr = Some [("name", VStr name); ("email", VStr (trim addr))].
Proof.
  intros Ha Hd H7 Hparen Htrim Hlink Haddr H.
  destruct (instructor_derivation _ _ _ _ _ _ _ Ha Hd H7 H)
    as (x & ii & email & Hx & Hi & -> & -> & Hemail).
  assert (Ex : x = (name ++ " ")%string).
  { change (name ++ " (P)" ++ rest)%string
      with (name ++ String " " ("(P)" ++ rest))%string in Hx.
    rewrite <- append_snoc in Hx. unfold split in Hx.
    rewrite (split_from_before "(" "P)" rest (name ++ " ") "") in Hx
      by (apply includes_char_blank; [discriminate | exact Hparen]).
    simpl in Hx. now injection Hx as <-. }
  subst x. split; [exact Hi |].
  rewrite blank_end_not_TBA, Hlink in Hemail.
  unfold split in Hemail.
  rewrite (split_from_here "m" "ailto:" addr "") in Hemail.
  rewrite (split_from_absent _ _ _ Haddr) in Hemail.
  simpl in Hemail. injection Hemail as <-.
  now rewrite trim_blank.
Qed.

Lemma instructor_round_trip_witness :
  exists info,
    extractOne Sample.env Sample.robotics
    = Ok (info, Some [("name", VStr "Jane Doe"); ("email", VStr "jdoe@aus.edu")])
    /\ get "instructor" info = VStr "Jane Doe ".
Proof.
  eexists. split; [vm_compute; reflexivity |].
  apply (instructor_round_trip Sample.env Sample.robotics _ Sample.lectureTable
           "Jane Doe" "" "jdoe@aus.edu" _ _ eq_refl eq_refl eq_refl eq_refl
           eq_refl eq_refl eq_refl eq_refl).
Defined.

(** *** The shape of what is handed to the persistence loop *)

Lemma attributes_field (env : Env) (a : Anchor) (d : Detail) (info : obj)
  (instr : option obj) :
  nextElementSibling a = Some d ->
  extractOne env a = Ok (info, instr) ->
  get "attributes" info
  = match matchAfter "Attributes: " (descriptionText d) with
    | Some m => VStr m
    | None => VNull
    end.
Proof.
  intros Ha H.
  assert (Hat : exists info1, info = setAttributes (descriptionText d) info1
                              /\ get "attributes" info1 = VNull).
  { destruct (classTable d) as [t |] eqn:Hd.
    - destruct (extractOne_table _ _ _ _ _ Ha Hd H)
        as (b & ii & days & info1 & Hb & _ & _ & Hremap & Hr).
      injection Hr as -> _. exists info1. split; [reflexivity |].
      rewrite (remap_frame _ _ _ _ Hremap), setDay_frame by not_in_keys.
      destruct (base_free_text env _ _ (Some t) _ Hb)
        as (lv & st & cr & _ & _ & _ & _ & _ & _ & G). exact G.
    - destruct (extractOne_placeholder _ _ _ _ Ha Hd H)
        as (b & info1 & Hb & Hremap & Hr).
      injection Hr as -> _. exists info1. split; [reflexivity |].
      rewrite (remap_frame _ _ _ _ Hremap) by not_in_keys.
      destruct (base_free_text env _ _ None _ Hb)
        as (lv & st & cr & _ & _ & _ & _ & _ & _ & G). exact G. }
  destruct Hat as (info1 & -> & Hnull). unfold setAttributes.
  destruct (matchAfter "Attributes: " (descriptionText d));
    [apply get_set_same | exact Hnull].
Qed.

(** The two list fields of a record are a string or null, never anything
    else, and an instructor record always has a string as its name. *)
Lemma extracted_shape (env : Env) (a : Anchor) (info : obj) (instr : option obj) :
  extractOne env a = Ok (info, instr) ->
  (get "levels" info = VNull \/ exists l, get "levels" info = VStr l)
  /\ (get "attributes" info = VNull \/ exists x, get "attributes" info = VStr x)
  /\ (forall ii, instr = Some ii -> exists n, get "name" ii = VStr n).
Proof.
  intros H.
  destruct (nextElementSibling a) as [d |] eqn:Ha;
    [| unfold extractOne in H; rewrite Ha in H; discriminate H].
  split; [| split].
  - destruct (extractOne_base _ _ _ _ _ Ha H) as (base & Hbase & Hframe).
    destruct (base_free_text _ _ _ _ _ Hbase)
      as (lv & st & cr & _ & _ & _ & Glv & _).
    rewrite Hframe, Glv by (try not_in_keys; discriminate).
    unfold orNull. destruct (truthy (VStr lv)); eauto.
  - rewrite (attributes_field _ _ _ _ _ Ha H).
    destruct (matchAfter "Attributes: " (descriptionText d)); eauto.
  - intros ii ->. destruct (classTable d) as [t |] eqn:Hd.
    + destruct (extractOne_table _ _ _ _ _ Ha Hd H)
        as (base & ii' & days & info1 & _ & Hinstr & _ & _ & Hr).
      injection Hr as _ <-. unfold instructorInfoOf in Hinstr.
      ok_steps Hinstr. injection Hinstr as <-. simpl. eauto.
    + destruct (extractOne_placeholder _ _ _ _ Ha Hd H) as (base & info1 & _ & _ & Hr).
      discriminate Hr.
Qed.

Lemma totalResults_shape (env : Env) (elements : list Anchor) (r : Results) :
  totalResults env elements = Ok r ->
  Forall (fun info =>
            (get "levels" info = VNull \/ exists l, get "levels" info = VStr l)
            /\ (get "attributes" info = VNull
                \/ exists x, get "attributes" info = VStr x)) (crnInfo r)
  /\ Forall (fun ii => exists n, get "name" ii = VStr n) (instructorInfo r).
Proof.
  intros H. apply extractFrom_spec in H. destruct H as (xs & HF & -> & ->).
  simpl. clear r. induction HF as [| a [info instr] l xs Ha _ IH]; simpl.
  - split; constructor.
  - destruct IH as [IH1 IH2].
    destruct (extracted_shape _ _ _ _ Ha) as (Hl & Hat & Hn).
    split; [constructor; auto |].
    unfold instructorsOf in *. simpl. destruct instr as [ii |]; [| exact IH2].
    simpl. constructor; eauto.
Qed.

(** *** The lemmas of the first part at work *)

Lemma four_tokens_without_marker_witness :
  exists info instr,
    extractOne Sample.env Sample.robotics = Ok (info, instr)
    /\ get "crn" info = VStr "12345"
    /\ get "subject" info = at_ (split " " "COE 201") 0
    /\ get "classTitle" info = VStr "Intro to Robotics"
    /\ get "classSection" info = VStr "1".
Proof.
  eexists. eexists. split; [vm_compute; reflexivity |].
  apply (four_tokens_without_marker Sample.env Sample.robotics
           "Intro to Robotics" "12345" "COE 201" "1" _ _
           eq_refl eq_refl eq_refl).
Defined.

Lemma placeholder_record_witness :
  exists info instr,
    extractOne Sample.env Sample.thesis = Ok (info, instr)
    /\ instr = None
    /\ (forall k, In k scheduleKeys -> get k info = VNull)
    /\ (forall k, In k dayKeys -> get k info = VBool false).
Proof.
  eexists. eexists. split; [vm_compute; reflexivity |].
  apply (placeholder_record Sample.env Sample.thesis _ _ _ eq_refl eq_refl eq_refl).
Defined.


Lemma missing_label_throws_witness :
  matchBefore " Schedule"
    (descriptionText
       {| descriptionText :=
            "Associated Term: Fall 2019" ++ Sample.nl ++ "Levels: Undergraduate"
            ++ Sample.nl ++ "3.000 Credits" ++ Sample.nl;
          classTable := Some Sample.lectureTable |}) = None
  /\ ~ exists r, extractOne Sample.env Sample.noSchedule = Ok r.
Proof.
  split; [reflexivity |]. intros [r H].
  refine (missing_label_throws Sample.env Sample.noSchedule _ eq_refl
            (or_intror (or_introl _)) r H).
  reflexivity.
Defined.

End ExtractMore.

(** ** More on [crawl] *)

Module CrawlMore.

Import Db DbSpec DbFacts Crawl CrawlSpec CrawlFacts CrawlMoreSpec.

Local Open Scope async_scope.

(** *** Invariants kept through every outcome *)

Lemma keeps_ret {A : Type} (P : Store -> Prop) (a : A) : keeps P (ret a).
Proof. intros s s' r H. now injection H as <- _. Qed.

Lemma keeps_throw {A : Type} (P : Store -> Prop) (e : exn) : keeps P (@throw A e).
Proof. intros s s' r H. now injection H as <- _. Qed.

Lemma keeps_lift {A : Type} (P : Store -> Prop) (x : result A) : keeps P (lift x).
Proof. intros s s' r H. now injection H as <- _. Qed.

Lemma keeps_bind {A B : Type} (P : Store -> Prop) (c : M A) (k : A -> M B) :
  keeps P c -> (forall a, keeps P (k a)) -> keeps P (bind c k).
Proof.
  intros Hc Hk s s' r. unfold bind.
  destruct (c s) as [s1 [a | e]] eqn:E; intros H HP.
  - eapply Hk; [exact H |]. eapply Hc; eauto.
  - injection H as <- _. eapply Hc; eauto.
Qed.

(** [findOrCreate] leaves the store as it is or adds one row for a key
    that was not there. *)
Lemma findOrCreate_any m col v d s s' (r : result (obj * bool)) :
  findOrCreate m col v d s = (s', r) ->
  s' = s
  \/ (find (matches col v) (rows m s) = None
      /\ s' = setRows m (rows m s ++ [rowOf (List.length (rows m s)) (newValues col v d)]) s).
Proof.
  unfold findOrCreate, create, rowOf.
  destruct (find (matches col v) (rows m s)) eqn:E; destruct v; intros H;
    injection H as <- _; auto.
Qed.

Lemma NoDup_snoc {A : Type} (l : list A) (x : A) :
  NoDup l -> ~ In x l -> NoDup (l ++ [x]).
Proof.
  induction l as [| y l IH]; simpl; intros Hl Hx.
  - constructor; [tauto | constructor].
  - inversion Hl as [| ? ? Hy Hl']; subst. constructor.
    + rewrite in_app_iff. simpl. intros [H | [H | []]]; [tauto | subst; tauto].
    + apply IH; tauto.
Qed.

Lemma find_none_key (col : string) (v : value) (l : list obj) :
  find (matches col v) l = None -> ~ In v (map (get col) l).
Proof.
  induction l as [| x l IH]; simpl; [tauto |].
  unfold matches at 1. destruct (value_eqb (get col x) v) eqn:E; [discriminate |].
  intros H [Hx | Hin]; [| now apply IH].
  rewrite Hx, value_eqb_refl in E. discriminate E.
Qed.

(** A lookup-or-insert whose defaults carry the key keeps the key column
    free of duplicates, and does not touch the other tables. *)
Lemma findOrCreate_unique m col v d :
  col <> "id" -> get col d = v -> keeps (uniqueKey m col) (findOrCreate m col v d).
Proof.
  intros Hcol Hd s s' r H HP. apply findOrCreate_any in H.
  destruct H as [-> | [Hf ->]]; [exact HP |].
  unfold uniqueKey in *. rewrite rows_setRows_same, map_app. simpl.
  destruct (String.eqb_spec col "id"); [contradiction |].
  rewrite newValues_get by exact Hd.
  apply NoDup_snoc; [exact HP | now apply find_none_key].
Qed.

Lemma findOrCreate_elsewhere m col v d (P : list obj -> Prop) m' :
  m' <> m -> keeps (fun s => P (rows m' s)) (findOrCreate m col v d).
Proof.
  intros Hm s s' r H HP. apply findOrCreate_any in H.
  destruct H as [-> | [_ ->]]; [exact HP |].
  rewrite rows_setRows_other by congruence. exact HP.
Qed.

Lemma create_elsewhere m values (P : list obj -> Prop) m' :
  m' <> m -> keeps (fun s => P (rows m' s)) (create m values).
Proof.
  intros Hm s s' r H HP. unfold create in H. injection H as <- _.
  rewrite rows_setRows_other by congruence. exact HP.
Qed.

(** The lookups of [crawl]: their table and their key column. *)
Lemma findOrCreate_reference m col v d :
  In (m, col) [ (subjects, "shortName"); (instructors, "name");
                (levels, "level"); (attributes, "attribute") ] ->
  get col d = v ->
  keeps referenceKeysUnique (findOrCreate m col v d).
Proof.
  intros Hin Hd s s' r H (H1 & H2 & H3 & H4).
  assert (Hsame : forall m' col', m' <> m ->
            uniqueKey m' col' s -> uniqueKey m' col' s').
  { intros m' col' Hm HU.
    exact (findOrCreate_elsewhere m col v d
             (fun l => NoDup (map (get col') l)) m' Hm _ _ _ H HU). }
  assert (Hkey : col <> "id" -> uniqueKey m col s -> uniqueKey m col s').
  { intros Hc HU. exact (findOrCreate_unique m col v d Hc Hd _ _ _ H HU). }
  simpl in Hin. decompose [or] Hin; clear Hin;
    repeat match goal with
      | E : (_, _) = (_, _) |- _ => injection E as <- <-
      | E : False |- _ => contradiction
      end;
    repeat split;
    first [ apply Hkey; [discriminate | assumption]
          | apply Hsame; [discriminate | assumption] ].
Qed.

Lemma create_CRNS_reference values : keeps referenceKeysUnique (create CRNS values).
Proof.
  intros s s' r H (H1 & H2 & H3 & H4).
  assert (Hsame : forall m' col', m' <> CRNS ->
            uniqueKey m' col' s -> uniqueKey m' col' s').
  { intros m' col' Hm HU.
    exact (create_elsewhere CRNS values
             (fun l => NoDup (map (get col') l)) m' Hm _ _ _ H HU). }
  repeat split; (apply Hsame; [discriminate | assumption]).
Qed.

Lemma subjectLoop_unique env term short fulls : forall i n,
  keeps referenceKeysUnique (subjectLoop env term short i fulls n).
Proof.
  induction fulls as [| f rest IH]; intros i n; simpl; [apply keeps_ret |].
  apply keeps_bind.
  { apply findOrCreate_reference; [simpl; tauto | reflexivity]. }
  intros res. apply keeps_bind; [| intros; apply IH].
  destruct (snd res); [| apply keeps_ret].
  apply keeps_bind; [| intros; apply keeps_ret].
  destruct (VERBOSE env); [apply keeps_throw | apply keeps_ret].
Qed.

Lemma tokenLoop_unique m col term arr :
  In (m, col) [ (levels, "level"); (attributes, "attribute") ] ->
  forall n, keeps referenceKeysUnique (tokenLoop m col term arr n).
Proof.
  intros Hin. induction arr as [| tok rest IH]; intros n; simpl;
    [apply keeps_ret |].
  apply keeps_bind; [| intros; apply IH].
  apply findOrCreate_reference.
  - simpl in *. tauto.
  - simpl. now rewrite String.eqb_refl.
Qed.

Lemma courseStep_unique term ii i info c :
  keeps referenceKeysUnique (courseStep term ii i info c).
Proof.
  unfold courseStep. apply keeps_bind.
  { destruct (nth_error ii i); [| apply keeps_ret].
    apply keeps_bind; [| intros; apply keeps_ret].
    apply findOrCreate_reference; [simpl; tauto |].
    now apply get_set_other. }
  intros n1. apply keeps_bind.
  { destruct (truthy _); [| apply keeps_ret].
    apply keeps_bind; [apply keeps_lift |].
    intros a. apply tokenLoop_unique. simpl. tauto. }
  intros n2. apply keeps_bind.
  { destruct (truthy _); [| apply keeps_ret].
    apply keeps_bind; [apply keeps_lift |].
    intros a. apply tokenLoop_unique. simpl. tauto. }
  intros n3. apply keeps_bind; [apply create_CRNS_reference |].
  intros; apply keeps_ret.
Qed.

Lemma courseLoop_unique term ii infos : forall i c,
  keeps referenceKeysUnique (courseLoop term ii i infos c).
Proof.
  induction infos as [| info rest IH]; intros i c; simpl; [apply keeps_ret |].
  apply keeps_bind; [apply courseStep_unique | intros; apply IH].
Qed.

Lemma crawl_unique env page term : keeps referenceKeysUnique (crawl env page term).
Proof.
  unfold crawl.
  apply keeps_bind; [destruct (subjectSelect page); [apply keeps_ret | apply keeps_throw] |].
  intros sel. apply keeps_bind; [apply subjectLoop_unique |].
  intros n. apply keeps_bind;
    [destruct (listing page); [apply keeps_ret | apply keeps_throw] |].
  intros elements. apply keeps_bind; [apply keeps_lift |].
  intros results. apply keeps_bind; [apply courseLoop_unique |].
  intros; apply keeps_ret.
Qed.

(** However [crawl] ends, on success or in the middle of a term, it leaves
    no two Subject rows with the same short code, no two Instructor rows
    with the same name, no two Level rows with the same label and no two
    Attribute rows with the same label, if there were none before. *)
Theorem reference_keys_stay_unique (env : Env) (page : TermPage) (term : string)
  (s s' : Store) (r : result Report) :
  referenceKeysUnique s ->
  crawl env page term s = (s', r) ->
  referenceKeysUnique s'.
Proof. intros HP H. eapply crawl_unique; eauto. Qed.

Lemma reference_keys_stay_unique_witness :
  exists s' r,
    crawl Sample.env (Sample.page [Sample.robotics; Sample.noLevels]) "201910"
      emptyStore = (s', r)
    /\ referenceKeysUnique s'.
Proof.
  eexists. eexists. split; [vm_compute; reflexivity |].
  eapply (reference_keys_stay_unique Sample.env
            (Sample.page [Sample.robotics; Sample.noLevels]) "201910" emptyStore).
  - repeat split; constructor.
  - vm_compute. reflexivity.
Defined.

(** *** The course rows *)

Lemma create_run m values s :
  create m values s
  = (setRows m (rows m s ++ [rowOf (List.length (rows m s)) values]) s,
     Ok (rowOf (List.length (rows m s)) values)).
Proof. reflexivity. Qed.

Lemma courseStep_rows term ii i info c s s' c' :
  courseStep term ii i info c s = (s', Ok c') ->
  exists n, rows CRNS s' = rows CRNS s ++ [rowOf n (set "termID" (VStr term) info)].
Proof.
  rewrite courseStep_unfold. intros H.
  apply bind_ok in H. destruct H as (s1 & n1 & H1 & H).
  apply bind_ok in H. destruct H as (s2 & n2 & H2 & H).
  apply bind_ok in H. destruct H as (s3 & n3 & H3 & H).
  apply bind_ok in H. destruct H as (s4 & row & H4 & H).
  injection H as <- _.
  apply instructorStep_delta in H1. destruct H1 as [F1 _].
  apply fieldLoop_delta in H2. destruct H2 as [F2 _].
  apply fieldLoop_delta in H3. destruct H3 as [F3 _].
  rewrite create_run in H4. injection H4 as <- _.
  cbn [rows]. change (crnRows s3) with (rows CRNS s3).
  rewrite (F3 CRNS), (F2 CRNS), (F1 CRNS) by discriminate.
  eexists. reflexivity.
Qed.

Lemma courseLoop_rows term ii infos : forall i c s s' c',
  courseLoop term ii i infos c s = (s', Ok c') ->
  exists added,
    rows CRNS s' = rows CRNS s ++ added
    /\ rowsOf (map (set "termID" (VStr term)) infos) added.
Proof.
  induction infos as [| info rest IH]; intros i c s s' c' H.
  - simpl in H. injection H as <- _. exists []. rewrite app_nil_r.
    split; [reflexivity | constructor].
  - cbn [courseLoop] in H.
    apply bind_ok in H. destruct H as (s1 & c1 & H1 & H).
    apply courseStep_rows in H1. destruct H1 as [n E1].
    apply IH in H. destruct H as (added & E2 & HR).
    exists (rowOf n (set "termID" (VStr term) info) :: added). split.
    + rewrite E2, E1, <- app_assoc. reflexivity.
    + simpl. constructor; eauto.
Qed.

Lemma crawl_course_rows env page term s s' r elements results :
  listing page = Some elements ->
  Extract.totalResults env elements = Ok results ->
  crawl env page term s = (s', Ok r) ->
  exists added,
    rows CRNS s' = rows CRNS s ++ added
    /\ rowsOf (map (set "termID" (VStr term)) (Extract.crnInfo results)) added.
Proof.
  intros Hl Hr H. apply crawl_ok in H.
  destruct H as (full & short & el & res & s1 & n & c
                 & _ & Hl' & Hr' & Hsub & Hloop & _).
  rewrite Hl in Hl'. injection Hl' as <-.
  rewrite Hr in Hr'. injection Hr' as <-.
  apply subjectLoop_delta in Hsub. destruct Hsub as [F _].
  apply courseLoop_rows in Hloop. destruct Hloop as (added & E & HR).
  exists added. rewrite <- (F CRNS) by discriminate. auto.
Qed.



(** The course table has no uniqueness on (CRN, term): a second completed
    run over the same pages and term appends the same course records once
    more, after those of the first run. *)
Theorem rerun_duplicates_course_rows (env : Env) (page : TermPage)
  (term : string) (s s1 s2 : Store) (r1 r2 : Report) :
  crawl env page term s = (s1, Ok r1) ->
  crawl env page term s1 = (s2, Ok r2) ->
  exists records rows1 rows2,
    List.length records = reportedCRNS r1
    /\ rowsOf records rows1
    /\ rowsOf records rows2
    /\ rows CRNS s2 = rows CRNS s ++ rows1 ++ rows2.
Proof.
  intros H1 H2.
  pose proof (crawl_ok _ _ _ _ _ _ H1)
    as (full & short & el & res & sa & n & c & _ & Hl & Hr & _ & _ & ->).
  destruct (crawl_course_rows _ _ _ _ _ _ _ _ Hl Hr H1) as (rows1 & E1 & R1).
  destruct (crawl_course_rows _ _ _ _ _ _ _ _ Hl Hr H2) as (rows2 & E2 & R2).
  exists (map (set "termID" (VStr term)) (Extract.crnInfo res)), rows1, rows2.
  cbn [reportedCRNS]. rewrite length_map. repeat split; try assumption.
  now rewrite E2, E1, <- app_assoc.
Qed.

Lemma rerun_duplicates_course_rows_witness :
  exists s1 r1 s2 r2,
    crawl Sample.env (Sample.page [Sample.robotics]) "201910" emptyStore
    = (s1, Ok r1)
    /\ crawl Sample.env (Sample.page [Sample.robotics]) "201910" s1 = (s2, Ok r2)
    /\ exists records rows1 rows2,
         List.length records = reportedCRNS r1
         /\ rowsOf records rows1
         /\ rowsOf records rows2
         /\ rows CRNS s2 = rows CRNS emptyStore ++ rows1 ++ rows2.
Proof.
  eexists. eexists. eexists. eexists.
  split; [vm_compute; reflexivity |]. split; [vm_compute; reflexivity |].
  eapply (rerun_duplicates_course_rows Sample.env (Sample.page [Sample.robotics])
            "201910" emptyStore);
    vm_compute; reflexivity.
Defined.

(** *** [VERBOSE] *)

Lemma subjectLoop_verbose env term short fulls : VERBOSE env = true ->
  forall i n s s' n',
    subjectLoop env term short i fulls n s = (s', Ok n') -> s' = s /\ n' = n.
Proof.
  intros Hv. induction fulls as [| f rest IH]; simpl; intros i n s s' n' H.
  - now injection H as <- <-.
  - apply bind_ok in H. destruct H as (s1 & [row b] & Hfc & H).
    apply bind_ok in H. destruct H as (s2 & n1 & Hcount & H).
    simpl in Hcount. rewrite Hv in Hcount.
    destruct b; [discriminate Hcount |].
    injection Hcount as <- <-.
    apply findOrCreate_ok in Hfc.
    destruct Hfc as [_ [(_ & -> & _) | (Hb & _)]]; [| discriminate Hb].
    eapply IH; eauto.
Qed.

(** With [VERBOSE] set, a [crawl] that completes has inserted no subject:
    the message for a new subject throws before the loop can go on. *)
Theorem verbose_crawl_inserts_no_subject (env : Env) (page : TermPage)
  (term : string) (s s' : Store) (r : Report) :
  VERBOSE env = true ->
  crawl env page term s = (s', Ok r) ->
  rows subjects s' = rows subjects s /\ reportedSubjects r = 0.
Proof.
  intros Hv H. apply crawl_ok in H.
  destruct H as (full & short & el & res & s1 & n & c
                 & _ & _ & _ & Hsub & Hloop & ->).
  apply (subjectLoop_verbose _ _ _ _ Hv) in Hsub. destruct Hsub as [-> ->].
  apply courseLoop_delta in Hloop.
  destruct Hloop as (Hsame & _ & _ & _ & _ & _ & Hn). simpl in *. auto.
Qed.

Lemma verbose_crawl_inserts_no_subject_witness :
  exists s1 r1 s2 r2,
    crawl Sample.env (Sample.page [Sample.robotics]) "201910" emptyStore
    = (s1, Ok r1)
    /\ crawl {| VERBOSE := true; dateToString := fun x => x |}
         (Sample.page [Sample.robotics]) "201910" s1 = (s2, Ok r2)
    /\ rows subjects s2 = rows subjects s1 /\ reportedSubjects r2 = 0.
Proof.
  eexists. eexists. eexists. eexists.
  split; [vm_compute; reflexivity |]. split; [vm_compute; reflexivity |].
  eapply (verbose_crawl_inserts_no_subject
            {| VERBOSE := true; dateToString := fun x => x |}
            (Sample.page [Sample.robotics]) "201910");
    [reflexivity | vm_compute; reflexivity].
Defined.

(** With [VERBOSE] set, a term whose first subject is not in the store yet
    cannot be crawled: the subject row is inserted, then the message throws
    and [crawl] rejects with that one row written. *)
Lemma verbose_new_subject_throws (env : Env) (page : TermPage)
  (term long code : string) (full short : list string) (s : Store) :
  VERBOSE env = true ->
  subjectSelect page = Some (long :: full, code :: short) ->
  ~ present subjects "shortName" (VStr code) s ->
  crawl env page term s
  = (setRows subjects
       (rows subjects s
        ++ [rowOf (List.length (rows subjects s))
              [ ("shortName", VStr code); ("longName", VStr long);
                ("firstSeen", VStr term) ]]) s,
     Throw TypeError).
Proof.
  intros Hv Hsel Hnew.
  assert (Hfc : findOrCreate subjects "shortName" (VStr code)
                  [ ("shortName", VStr code); ("longName", VStr long);
                    ("firstSeen", VStr term) ] s
                = (setRows subjects
                     (rows subjects s
                      ++ [rowOf (List.length (rows subjects s))
                            [ ("shortName", VStr code); ("longName", VStr long);
                              ("firstSeen", VStr term) ]]) s,
                   Ok (rowOf (List.length (rows subjects s))
                         [ ("shortName", VStr code); ("longName", VStr long);
                           ("firstSeen", VStr term) ], true))).
  { unfold findOrCreate.
    destruct (find (matches "shortName" (VStr code)) (rows subjects s)) eqn:E;
      [| reflexivity].
    exfalso. apply Hnew. unfold present. now rewrite E. }
  unfold crawl. rewrite Hsel. unfold bind at 1. unfold ret at 1.
  cbv beta iota. cbn [fst snd subjectLoop].
  change (at_ (code :: short) 0) with (VStr code).
  unfold bind at 1. unfold bind at 1.
  rewrite Hfc. cbn [snd]. rewrite Hv. reflexivity.
Qed.

(** *** Rows are only appended *)

(** However [crawl] ends, every row that was in the store is still there,
    unchanged and at the same place: no table is ever updated or deleted
    from, rows are only added at the end. *)
Theorem rows_are_only_appended (env : Env) (page : TermPage) (term : string)
  (s s' : Store) (r : result Report) :
  crawl env page term s = (s', r) ->
  forall m, exists added, rows m s' = rows m s ++ added.
Proof. intros H. exact (StartFacts.grows_crawl env page term s s' r H). Qed.

Lemma rows_are_only_appended_witness :
  exists s1 r1 s2 r2,
    crawl Sample.env (Sample.page [Sample.robotics]) "201910" emptyStore
    = (s1, Ok r1)
    /\ crawl Sample.env (Sample.page [Sample.thesis; Sample.noCredits]) "202010" s1
       = (s2, r2)
    /\ forall m, exists added, rows m s2 = rows m s1 ++ added.
Proof.
  eexists. eexists. eexists. eexists.
  split; [vm_compute; reflexivity |]. split; [vm_compute; reflexivity |].
  eapply (rows_are_only_appended Sample.env
            (Sample.page [Sample.thesis; Sample.noCredits]) "202010").
  vm_compute. reflexivity.
Defined.

(** *** When the persistence cannot fail *)

Lemma findOrCreate_total m col v d s :
  v <> VUndefined -> exists s' res, findOrCreate m col v d s = (s', Ok res).
Proof.
  intros Hv. unfold findOrCreate, create.
  destruct (find (matches col v) (rows m s)); destruct v;
    try contradiction; eauto.
Qed.

Lemma subjectLoop_total env term short fulls : VERBOSE env = false ->
  forall i n s,
    i + List.length fulls <= List.length short ->
    exists s' n', subjectLoop env term short i fulls n s = (s', Ok n').
Proof.
  intros Hv. induction fulls as [| f rest IH]; simpl; intros i n s Hlen.
  - unfold ret. eauto.
  - assert (Hat : at_ short i <> VUndefined).
    { unfold at_. destruct (nth_error short i) eqn:E; [discriminate |].
      apply nth_error_None in E. lia. }
    destruct (findOrCreate_total subjects "shortName" (at_ short i)
                [("shortName", at_ short i); ("longName", VStr f);
                 ("firstSeen", VStr term)] s Hat) as (s1 & res & Hfc).
    rewrite (bind_run _ _ _ _ _ Hfc). rewrite Hv.
    destruct (IH (S i) (if snd res then S n else n) s1 ltac:(lia))
      as (s' & n' & Hrest).
    exists s', n'. rewrite <- Hrest.
    destruct (snd res); reflexivity.
Qed.

Lemma tokenLoop_total m col term arr : forall n s,
  exists s' n', tokenLoop m col term arr n s = (s', Ok n').
Proof.
  induction arr as [| tok rest IH]; simpl; intros n s.
  - unfold ret. eauto.
  - destruct (findOrCreate_total m col (VStr tok)
                [(col, VStr tok); ("firstSeen", VStr term)] s ltac:(discriminate))
      as (s1 & res & Hfc).
    rewrite (bind_run _ _ _ _ _ Hfc). apply IH.
Qed.

Lemma fieldLoop_total m col term field n s :
  field = VNull \/ (exists a, field = VStr a) ->
  exists s' n', fieldLoop m col term field n s = (s', Ok n').
Proof.
  unfold fieldLoop. intros [-> | [a ->]].
  - simpl. unfold ret. eauto.
  - destruct (truthy (VStr a)); [| unfold ret; eauto].
    simpl. unfold bind, lift. apply tokenLoop_total.
Qed.

Lemma instructorStep_total term ii i n s :
  Forall (fun x => exists nm, get "name" x = VStr nm) ii ->
  exists s' n', instructorStep term ii i n s = (s', Ok n').
Proof.
  intros HF. unfold instructorStep.
  destruct (nth_error ii i) as [x |] eqn:E; [| unfold ret; eauto].
  apply nth_error_In in E. rewrite Forall_forall in HF.
  destruct (HF _ E) as [nm Hnm].
  destruct (findOrCreate_total instructors "name" (get "name" x)
              (set "firstSeen" (VStr term) x) s) as (s1 & res & Hfc).
  { rewrite Hnm. discriminate. }
  rewrite (bind_run _ _ _ _ _ Hfc). unfold ret. eauto.
Qed.

Lemma courseStep_total term ii i info c s :
  Forall (fun x => exists nm, get "name" x = VStr nm) ii ->
  (get "levels" info = VNull \/ exists l, get "levels" info = VStr l) ->
  (get "attributes" info = VNull \/ exists x, get "attributes" info = VStr x) ->
  exists s' c', courseStep term ii i info c s = (s', Ok c').
Proof.
  intros Hii Hl Ha. rewrite courseStep_unfold.
  destruct (instructorStep_total term ii i (newInstructorCount c) s Hii)
    as (s1 & n1 & H1).
  destruct (fieldLoop_total attributes "attribute" term _
              (newAttributeCount c) s1 Ha) as (s2 & n2 & H2).
  destruct (fieldLoop_total levels "level" term _ n2 s2 Hl) as (s3 & n3 & H3).
  rewrite (bind_run _ _ _ _ _ H1).
  rewrite (bind_run _ _ _ _ _ H2).
  rewrite (bind_run _ _ _ _ _ H3).
  rewrite (bind_run _ _ _ _ _ (create_run _ _ _)).
  unfold ret. eauto.
Qed.

Lemma courseLoop_total term ii infos :
  Forall (fun x => exists nm, get "name" x = VStr nm) ii ->
  Forall (fun info =>
            (get "levels" info = VNull \/ exists l, get "levels" info = VStr l)
            /\ (get "attributes" info = VNull
                \/ exists x, get "attributes" info = VStr x)) infos ->
  forall i c s, exists s' c', courseLoop term ii i infos c s = (s', Ok c').
Proof.
  intros Hii HF. induction HF as [| info rest [Hl Ha] _ IH]; intros i c s.
  - simpl. unfold ret. eauto.
  - cbn [courseLoop].
    destruct (courseStep_total term ii i info c s Hii Hl Ha) as (s1 & c1 & H1).
    rewrite (bind_run _ _ _ _ _ H1). apply IH.
Qed.

(** [crawl] completes whenever [VERBOSE] is unset, both pages load, the
    subject selector has an option value for every line of its text, and
    the extraction of the listing succeeds: the persistence loop itself
    never fails on what the extractor hands over. *)
Theorem crawl_completes (env : Env) (page : TermPage) (term : string) (s : Store)
  (full short : list string) (elements : list Anchor) (results : Extract.Results) :
  VERBOSE env = false ->
  subjectSelect page = Some (full, short) ->
  List.length full <= List.length short ->
  listing page = Some elements ->
  Extract.totalResults env elements = Ok results ->
  exists s' r, crawl env page term s = (s', Ok r).
Proof.
  intros Hv Hsel Hlen Hl Hr.
  destruct (subjectLoop_total env term short full Hv 0 0 s ltac:(simpl; lia))
    as (s1 & n & Hsub).
  destruct (ExtractMore.totalResults_shape _ _ _ Hr) as [Hinfos Hii].
  destruct (courseLoop_total term _ _ Hii Hinfos 0
              {| newSubjectCount := n; newInstructorCount := 0;
                 newLevelCount := 0; newAttributeCount := 0 |} s1)
    as (s' & c & Hloop).
  exists s'. eexists. unfold crawl. rewrite Hsel, Hl.
  unfold bind at 1. unfold ret at 1. cbv beta iota. cbn [fst snd].
  rewrite (bind_run _ _ _ _ _ Hsub).
  unfold bind at 1. unfold ret at 1. cbv beta iota.
  unfold bind at 1. unfold lift. rewrite Hr.
  rewrite (bind_run _ _ _ _ _ Hloop). reflexivity.
Qed.

Lemma crawl_completes_witness :
  exists s' r,
    crawl Sample.env (Sample.page [Sample.thesis; Sample.robotics]) "201910"
      emptyStore = (s', Ok r).
Proof.
  eapply (crawl_completes Sample.env
            (Sample.page [Sample.thesis; Sample.robotics]) "201910" emptyStore
            ["Computer Engineering"] ["COE"] [Sample.thesis; Sample.robotics]).
  - reflexivity.
  - reflexivity.
  - simpl. lia.
  - reflexivity.
  - vm_compute. reflexivity.
Defined.

(** *** Reference rows of what was crawled *)

Lemma coursesCovered_nth ii infos s : forall i0 j info,
  coursesCovered ii i0 infos s ->
  nth_error infos j = Some info ->
  courseCovered ii (i0 + j) info s.
Proof.
  induction infos as [| x rest IH]; intros i0 j info H Hj.
  - destruct j; discriminate Hj.
  - destruct H as [H1 H2]. destruct j as [| j]; simpl in Hj.
    + injection Hj as <-. now rewrite Nat.add_0_r.
    + rewrite Nat.add_succ_r, <- Nat.add_succ_l. now apply IH.
Qed.

Lemma subjectsCovered_nth short fulls s : forall i0 j code,
  subjectsCovered short i0 fulls s ->
  j < List.length fulls ->
  nth_error short (i0 + j) = Some code ->
  present subjects "shortName" (VStr code) s.
Proof.
  induction fulls as [| f rest IH]; intros i0 j code H Hj Hc; simpl in Hj; [lia |].
  destruct H as [[_ Hp] Hrest]. destruct j as [| j].
  - rewrite Nat.add_0_r in Hc. unfold at_ in Hp. now rewrite Hc in Hp.
  - apply (IH (S i0) j); [exact Hrest | lia |].
    now rewrite Nat.add_succ_l, <- Nat.add_succ_r.
Qed.

Lemma fieldCovered_tokens m col l s tok :
  fieldCovered m col (VStr l) s -> l <> "" -> In tok (split ", " l) ->
  present m col (VStr tok) s.
Proof.
  unfold fieldCovered. simpl. intros H Hl Hin.
  apply String.eqb_neq in Hl. rewrite Hl in H. simpl in H.
  destruct H as (a & Ea & Hcov). injection Ea as <-.
  unfold tokensCovered in Hcov. rewrite Forall_forall in Hcov. auto.
Qed.

(** When [crawl] has completed, every subject code paired with a long
    name, the name of every extracted instructor record (wherever it sits
    in its array), and every piece of the level list and of the attribute
    list of every extracted course record has its row in the reference
    table it belongs to. *)
Theorem references_are_complete (env : Env) (page : TermPage) (term : string)
  (s s' : Store) (r : Report) (full short : list string)
  (elements : list Anchor) (results : Extract.Results) :
  subjectSelect page = Some (full, short) ->
  listing page = Some elements ->
  Extract.totalResults env elements = Ok results ->
  crawl env page term s = (s', Ok r) ->
  (forall i code, i < List.length full -> nth_error short i = Some code ->
     present subjects "shortName" (VStr code) s')
  /\ (forall ii, In ii (Extract.instructorInfo results) ->
        present instructors "name" (get "name" ii) s')
  /\ (forall info l tok, In info (Extract.crnInfo results) ->
        get "levels" info = VStr l -> l <> "" -> In tok (split ", " l) ->
        present levels "level" (VStr tok) s')
  /\ (forall info l tok, In info (Extract.crnInfo results) ->
        get "attributes" info = VStr l -> l <> "" -> In tok (split ", " l) ->
        present attributes "attribute" (VStr tok) s').
Proof.
  intros Hsel Hl Hr H.
  pose proof (crawl_ok _ _ _ _ _ _ H)
    as (full' & short' & el & res & sa & n & c
        & Hsel' & Hl' & Hr' & Hsub & Hloop & _).
  rewrite Hsel in Hsel'. injection Hsel' as <- <-.
  rewrite Hl in Hl'. injection Hl' as <-.
  rewrite Hr in Hr'. injection Hr' as <-.
  apply subjectLoop_post in Hsub. destruct Hsub as [_ Hsubj].
  apply courseLoop_post in Hloop. destruct Hloop as [Hext Hcov].
  split; [| split; [| split]].
  - intros i code Hi Hc.
    apply (subjectsCovered_nth short full s' 0 i code); auto.
    eapply subjectsCovered_extends; eauto.
  - intros ii Hin. apply In_nth_error in Hin. destruct Hin as [k Hk].
    assert (Hlt : k < List.length (Extract.crnInfo results)).
    { destruct (ExtractFacts.extractFrom_lengths _ _ _ _ Hr) as [E1 E2].
      simpl in E1, E2.
      assert (k < List.length (Extract.instructorInfo results))
        by (apply nth_error_Some; congruence).
      pose proof (filter_length_le ExtractSpec.hasTable elements). lia. }
    destruct (nth_error (Extract.crnInfo results) k) as [info |] eqn:Ek;
      [| apply nth_error_None in Ek; lia].
    destruct (coursesCovered_nth _ _ _ 0 k info Hcov Ek) as (Hi & _).
    simpl in Hi. rewrite Hk in Hi. tauto.
  - intros info l tok Hin Hg Hne Htok.
    apply In_nth_error in Hin. destruct Hin as [k Hk].
    destruct (coursesCovered_nth _ _ _ 0 k info Hcov Hk) as (_ & _ & Hlev).
    rewrite Hg in Hlev. eapply fieldCovered_tokens; eauto.
  - intros info l tok Hin Hg Hne Htok.
    apply In_nth_error in Hin. destruct Hin as [k Hk].
    destruct (coursesCovered_nth _ _ _ 0 k info Hcov Hk) as (_ & Hat & _).
    rewrite Hg in Hat. eapply fieldCovered_tokens; eauto.
Qed.

Lemma references_are_complete_witness :
  exists results s' r,
    Extract.totalResults Sample.env [Sample.thesis; Sample.robotics] = Ok results
    /\ crawl Sample.env (Sample.page [Sample.thesis; Sample.robotics]) "201910"
         emptyStore = (s', Ok r)
    /\ (forall ii, In ii (Extract.instructorInfo results) ->
          present instructors "name" (get "name" ii) s').
Proof.
  eexists. eexists. eexists.
  split; [vm_compute; reflexivity |]. split; [vm_compute; reflexivity |].
  eapply (references_are_complete Sample.env
            (Sample.page [Sample.thesis; Sample.robotics]) "201910" emptyStore
            _ _ ["Computer Engineering"] ["COE"] [Sample.thesis; Sample.robotics]);
    [reflexivity | reflexivity | vm_compute; reflexivity | vm_compute; reflexivity].
Defined.

(** *** The balance of a run, on the sample *)

Lemma report_accounting_witness :
  exists s' r,
    crawl Sample.env (Sample.page [Sample.thesis; Sample.robotics]) "201910"
      emptyStore = (s', Ok r)
    /\ size CRNS s' = size CRNS emptyStore + reportedCRNS r
    /\ size subjects s' = size subjects emptyStore + reportedSubjects r
    /\ size instructors s' = size instructors emptyStore + reportedInstructors r
    /\ size attributes s' + size levels s'
       = size attributes emptyStore + size levels emptyStore + reportedAttributes r
    /\ reportedLevels r = 0.
Proof.
  eexists. eexists. split; [vm_compute; reflexivity |].
  apply (report_accounting Sample.env
           (Sample.page [Sample.thesis; Sample.robotics]) "201910" emptyStore).
  vm_compute. reflexivity.
Defined.

End CrawlMore.

(** ** More on the run *)

Module StartMore.

Import Db DbSpec DbFacts Crawl CrawlSpec CrawlFacts CrawlMoreSpec CrawlMore.
Import Start StartSpec StartFacts StartMoreSpec.

(** *** The term catalogue *)

Lemma ltb_asym (a b : string) : String.ltb a b = true -> String.ltb b a = false.
Proof.
  unfold String.ltb. rewrite (String.compare_antisym b a).
  destruct (String.compare a b); simpl; congruence.
Qed.

Lemma string_lt_trans (a b c : string) :
  String.compare a b = Lt -> String.compare b c = Lt -> String.compare a c = Lt.
Proof. exact (@RelationClasses.StrictOrder_Transitive _ _ String_as_OT.lt_strorder a b c). Qed.

Lemma notAfter_trans (a b c : Term) : notAfter a b -> notAfter b c -> notAfter a c.
Proof.
  unfold notAfter, String.ltb. intros Hab Hbc.
  destruct (String.compare (termID c) (termID a)) eqn:Eca; try reflexivity.
  exfalso.
  destruct (String.compare (termID b) (termID a)) eqn:Eba; try discriminate Hab.
  - apply String.compare_eq_iff in Eba. rewrite Eba in Hbc. now rewrite Eca in Hbc.
  - destruct (String.compare (termID c) (termID b)) eqn:Ecb; try discriminate Hbc.
    + apply String.compare_eq_iff in Ecb. rewrite Ecb in Eca. congruence.
    + rewrite String.compare_antisym in Eba.
      destruct (String.compare (termID a) (termID b)) eqn:Eab; try discriminate Eba.
      pose proof (string_lt_trans _ _ _ Eca Eab) as Hcb. congruence.
Qed.

Lemma insertTerm_sorted (t : Term) (l : list Term) :
  Sorted notAfter l -> Sorted notAfter (insertTerm t l).
Proof.
  induction l as [| u l IH]; simpl; intros H.
  - repeat constructor.
  - destruct (String.ltb (termID t) (termID u)) eqn:E.
    + constructor; [exact H |]. constructor. now apply ltb_asym.
    + inversion H as [| ? ? Hl Hhd]; subst. constructor; [now apply IH |].
      destruct l as [| v l]; simpl.
      * constructor. exact E.
      * destruct (String.ltb (termID t) (termID v)); constructor;
          [exact E | now inversion Hhd].
Qed.

Lemma sortTerms_sorted_from (l : list Term) : forall acc,
  Sorted notAfter acc -> Sorted notAfter (fold_left (fun a t => insertTerm t a) l acc).
Proof.
  induction l as [| t l IH]; simpl; intros acc H; [exact H |].
  apply IH. now apply insertTerm_sorted.
Qed.

(** The terms come out in ascending order of their identifiers: no term
    has an identifier greater than that of a term after it. *)
Theorem terms_ascending (options : list (string * string)) :
  StronglySorted notAfter (terms options).
Proof.
  apply Sorted_StronglySorted.
  - intros a b c. apply notAfter_trans.
  - unfold terms, sortTerms. apply sortTerms_sorted_from. constructor.
Qed.

Lemma insertTerm_perm (t : Term) (l : list Term) :
  Permutation (insertTerm t l) (t :: l).
Proof.
  induction l as [| u l IH]; simpl; [reflexivity |].
  destruct (String.ltb (termID t) (termID u)); [reflexivity |].
  rewrite IH. apply perm_swap.
Qed.

Lemma sortTerms_perm_from (l : list Term) : forall acc,
  Permutation (fold_left (fun a t => insertTerm t a) l acc) (acc ++ l).
Proof.
  induction l as [| t l IH]; simpl; intros acc.
  - now rewrite app_nil_r.
  - rewrite IH, insertTerm_perm. apply Permutation_middle.
Qed.

(** The terms are the options whose label is not "None", each one once,
    with its value as identifier and its label less the first
    " (View only)" as name: sorting loses nothing and invents nothing. *)
Theorem terms_are_the_options (options : list (string * string)) :
  Permutation (terms options) (map termOf (filter isTerm options)).
Proof.
  unfold terms, sortTerms. rewrite sortTerms_perm_from. reflexivity.
Qed.

(** *** The Semester table *)

Lemma bulkCreate_rows m records : forall s,
  exists added,
    rows m (fst (bulkCreate m records s)) = rows m s ++ added
    /\ rowsOf records added
    /\ forall m', m' <> m -> rows m' (fst (bulkCreate m records s)) = rows m' s.
Proof.
  induction records as [| x rest IH]; intros s.
  - exists []. simpl. rewrite app_nil_r. repeat split. constructor.
  - cbn [bulkCreate]. rewrite (bind_run _ _ _ _ _ (create_run m x s)).
    destruct (IH (setRows m (rows m s ++ [rowOf (List.length (rows m s)) x]) s))
      as (added & E & HR & HF).
    exists (rowOf (List.length (rows m s)) x :: added).
    rewrite E, rows_setRows_same, <- app_assoc. split; [reflexivity |].
    split; [constructor; eauto |].
    intros m' Hm. rewrite (HF m' Hm). now apply rows_setRows_other.
Qed.

Lemma crawl_semesters env page term (P : list obj -> Prop) :
  keeps (fun s => P (rows semesters s)) (crawl env page term).
Proof.
  assert (Hfc : forall m col v d, m <> semesters ->
            keeps (fun s => P (rows semesters s)) (findOrCreate m col v d)).
  { intros. apply findOrCreate_elsewhere. congruence. }
  assert (Htok : forall m col arr n, m <> semesters ->
            keeps (fun s => P (rows semesters s)) (tokenLoop m col term arr n)).
  { intros m col arr. induction arr as [| tok rest IH]; intros n Hm; simpl.
    - apply keeps_ret.
    - apply keeps_bind; [now apply Hfc | intros; now apply IH]. }
  assert (Hsub : forall short fulls i n,
            keeps (fun s => P (rows semesters s))
              (subjectLoop env term short i fulls n)).
  { intros short fulls. induction fulls as [| f rest IH]; intros i n; simpl.
    - apply keeps_ret.
    - apply keeps_bind; [apply Hfc; discriminate |].
      intros res. apply keeps_bind; [| intros; apply IH].
      destruct (snd res); [| apply keeps_ret].
      apply keeps_bind; [| intros; apply keeps_ret].
      destruct (VERBOSE env); [apply keeps_throw | apply keeps_ret]. }
  assert (Hstep : forall ii i info c,
            keeps (fun s => P (rows semesters s)) (courseStep term ii i info c)).
  { intros. unfold courseStep. apply keeps_bind.
    { destruct (nth_error ii i); [| apply keeps_ret].
      apply keeps_bind; [apply Hfc; discriminate | intros; apply keeps_ret]. }
    intros n1. apply keeps_bind.
    { destruct (truthy _); [| apply keeps_ret].
      apply keeps_bind; [apply keeps_lift | intros; apply Htok; discriminate]. }
    intros n2. apply keeps_bind.
    { destruct (truthy _); [| apply keeps_ret].
      apply keeps_bind; [apply keeps_lift | intros; apply Htok; discriminate]. }
    intros n3. apply keeps_bind; [| intros; apply keeps_ret].
    apply create_elsewhere. discriminate. }
  assert (Hloop : forall ii infos i c,
            keeps (fun s => P (rows semesters s)) (courseLoop term ii i infos c)).
  { intros ii infos. induction infos as [| info rest IH]; intros i c; simpl.
    - apply keeps_ret.
    - apply keeps_bind; [apply Hstep | intros; apply IH]. }
  unfold crawl.
  apply keeps_bind; [destruct (subjectSelect page); [apply keeps_ret | apply keeps_throw] |].
  intros sel. apply keeps_bind; [apply Hsub |].
  intros n. apply keeps_bind;
    [destruct (listing page); [apply keeps_ret | apply keeps_throw] |].
  intros elements. apply keeps_bind; [apply keeps_lift |].
  intros results. apply keeps_bind; [apply Hloop | intros; apply keeps_ret].
Qed.

Lemma termLoop_semesters env w (P : list obj -> Prop) : forall ts s out s' out' r,
  termLoop env w ts s out = (s', out', r) ->
  P (rows semesters s) -> P (rows semesters s').
Proof.
  induction ts as [| t rest IH]; simpl; intros s out s' out' r H HP.
  - now injection H as <- _ _.
  - destruct (crawl env (termPage w (termID t)) (termID t) s) as [sa [rep | e]] eqn:Hc.
    + eapply IH; [exact H |]. eapply (crawl_semesters _ _ _ P); eauto.
    + injection H as <- _ _. eapply (crawl_semesters _ _ _ P); eauto.
Qed.

(** Whenever the terms are discovered, the Semester table of the final
    store lists exactly the discovered terms, in ascending order, one row
    each, however the run ends: [crawl] never writes to that table. *)
Theorem semesters_are_the_terms (env : Env) (w : World)
  (options : list (string * string)) :
  termOptions w = Some options ->
  rowsOf (map termRecord (terms options))
    (rows semesters (finalStore (startCrawl env w))).
Proof.
  intros Hopt. unfold startCrawl. rewrite Hopt. cbv zeta.
  destruct (bulkCreate_rows semesters (map termRecord (terms options)) emptyStore)
    as (added & E & HR & _).
  simpl in E. 
  destruct (termLoop env w (terms options)
              (fst (bulkCreate semesters (map termRecord (terms options)) emptyStore))
              [SemestersInserted (List.length (terms options))])
    as [[s' out] r] eqn:Hloop.
  assert (Hs : rowsOf (map termRecord (terms options)) (rows semesters s')).
  { eapply (termLoop_semesters env w
              (rowsOf (map termRecord (terms options)))); [exact Hloop |].
    cbn [rows]. rewrite E. exact HR. }
  destruct r; exact Hs.
Qed.

Lemma semesters_are_the_terms_witness :
  rowsOf (map termRecord [Sample.fall2005; Sample.spring2006])
    (rows semesters (finalStore (startCrawl Sample.env Sample.world))).
Proof.
  apply (semesters_are_the_terms Sample.env Sample.world
           [ ("", "None"); ("200610", "Spring 2006 (View only)");
             ("200520", "Fall 2005") ]).
  reflexivity.
Defined.

(** *** How a run ends *)

Lemma termLoop_ok_console env w : forall ts s out s' out',
  termLoop env w ts s out = (s', out', Ok tt) ->
  exists reports,
    List.length reports = List.length ts
    /\ out' = out ++ reportLines (combine ts reports).
Proof.
  induction ts as [| t rest IH]; simpl; intros s out s' out' H.
  - injection H as _ <-. exists []. simpl. now rewrite app_nil_r.
  - destruct (crawl env (termPage w (termID t)) (termID t) s) as [sa [rep | e]];
      [| discriminate H].
    apply IH in H. destruct H as (reports & Hlen & ->).
    exists (rep :: reports). simpl. rewrite Hlen, <- app_assoc. auto.
Qed.

(** A run that ends with outcome 0 has discovered the terms and has, for
    every one of them in ascending order, printed that it starts and then
    the figures of its closing message, before the final line. *)
Theorem clean_exit_reports_every_term (env : Env) (w : World) :
  exitCode (startCrawl env w) = 0%Z ->
  exists options reports,
    termOptions w = Some options
    /\ List.length reports = List.length (terms options)
    /\ console (startCrawl env w)
       = SemestersInserted (List.length (terms options))
         :: reportLines (combine (terms options) reports) ++ [DoneCrawling].
Proof.
  unfold startCrawl. destruct (termOptions w) as [options |]; [| discriminate].
  cbv zeta.
  destruct (termLoop env w (terms options)
              (fst (bulkCreate semesters (map termRecord (terms options)) emptyStore))
              [SemestersInserted (List.length (terms options))])
    as [[s' out] [[] | e]] eqn:Hloop; [| discriminate].
  intros _. apply termLoop_ok_console in Hloop.
  destruct Hloop as (reports & Hlen & ->).
  exists options, reports. split; [reflexivity |]. split; [exact Hlen |].
  cbn [console]. now rewrite <- app_assoc.
Qed.

Lemma clean_exit_reports_every_term_witness :
  exists options reports,
    termOptions Sample.quietWorld = Some options
    /\ List.length reports = List.length (terms options)
    /\ console (startCrawl Sample.env Sample.quietWorld)
       = SemestersInserted (List.length (terms options))
         :: reportLines (combine (terms options) reports) ++ [DoneCrawling].
Proof.
  apply (clean_exit_reports_every_term Sample.env Sample.quietWorld).
  vm_compute. reflexivity.
Defined.

(** With [VERBOSE] set, a run whose first term shows at least one subject
    never gets past that subject: its row is inserted into the empty table,
    the message about it throws, and the run ends with outcome 1 after
    starting that one term. *)
Theorem verbose_run_stops_at_first_subject (env : Env) (w : World)
  (options : list (string * string)) (t : Term) (rest : list Term)
  (long code : string) (full short : list string) :
  VERBOSE env = true ->
  termOptions w = Some options ->
  terms options = t :: rest ->
  subjectSelect (termPage w (termID t)) = Some (long :: full, code :: short) ->
  exitCode (startCrawl env w) = 1%Z
  /\ console (startCrawl env w)
     = [ SemestersInserted (List.length (terms options)); StartingCrawl t;
         ErrorQuitting TypeError ]
  /\ List.length (rows subjects (finalStore (startCrawl env w))) = 1.
Proof.
  intros Hv Hopt Hts Hsel. unfold startCrawl. rewrite Hopt. cbv zeta.
  set (s0 := fst (bulkCreate semesters (map termRecord (terms options)) emptyStore)).
  assert (Hempty : rows subjects s0 = []).
  { destruct (bulkCreate_rows semesters (map termRecord (terms options)) emptyStore)
      as (added & _ & _ & HF).
    subst s0. now rewrite HF by discriminate. }
  assert (Hnew : ~ present subjects "shortName" (VStr code) s0).
  { unfold present. rewrite Hempty. simpl. tauto. }
  set (out0 := [SemestersInserted (List.length (terms options))]).
  rewrite Hts. cbn [termLoop].
  rewrite (verbose_new_subject_throws env _ (termID t) long code full short s0
             Hv Hsel Hnew).
  cbn [finalStore console exitCode]. rewrite rows_setRows_same, Hempty.
  subst out0. rewrite Hts. repeat split.
Qed.

Lemma verbose_run_stops_at_first_subject_witness :
  exitCode (startCrawl {| VERBOSE := true; dateToString := fun x => x |}
              Sample.quietWorld) = 1%Z
  /\ console (startCrawl {| VERBOSE := true; dateToString := fun x => x |}
                Sample.quietWorld)
     = [ SemestersInserted 2; StartingCrawl Sample.fall2005;
         ErrorQuitting TypeError ]
  /\ List.length
       (rows subjects
          (finalStore (startCrawl {| VERBOSE := true; dateToString := fun x => x |}
                         Sample.quietWorld))) = 1.
Proof.
  apply (verbose_run_stops_at_first_subject
           {| VERBOSE := true; dateToString := fun x => x |} Sample.quietWorld
           [("200520", "Fall 2005"); ("200610", "Spring 2006")]
           Sample.fall2005 [Sample.spring2006] "Computer Engineering" "COE" [] []);
    reflexivity.
Defined.

(** *** Labels *)

Lemma drop_append (p r : string) : drop (String.length p) (p ++ r) = r.
Proof. induction p as [| a p IH]; simpl; [reflexivity | exact IH]. Qed.

Lemma removeFirst_marker (rest : string) : forall name,
  includes "(" name = false ->
  removeFirst " (View only)" (name ++ " (View only)" ++ rest) = (name ++ rest)%string.
Proof.
  induction name as [| c n IH]; intros H.
  - change ("" ++ " (View only)" ++ rest)%string with (" (View only)" ++ rest)%string.
    destruct rest; reflexivity.
  - apply JsMore.includes_cons in H. destruct H as [Hp Hi].
    change (String c n ++ " (View only)" ++ rest)%string
      with (String c (n ++ " (View only)" ++ rest)).
    cbn [removeFirst].
    assert (Hno : prefix " (View only)" (String c (n ++ " (View only)" ++ rest)) = false).
    { cbn [prefix]. destruct (ascii_dec " " c) as [<- |]; [| reflexivity].
      destruct n as [| c2 n]; [reflexivity |].
      change (String c2 n ++ " (View only)" ++ rest)%string
        with (String c2 (n ++ " (View only)" ++ rest)).
      cbn [prefix]. destruct (ascii_dec "(" c2) as [<- |]; [| reflexivity].
      apply JsMore.includes_cons in Hi. destruct Hi as [Hp2 _].
      cbn [prefix] in Hp2. destruct (ascii_dec "(" "("); [| contradiction].
      destruct n; discriminate Hp2. }
    rewrite Hno. change (String c n ++ rest)%string with (String c (n ++ rest)).
    f_equal. now apply IH.
Qed.

Lemma marked_label_is_a_term (name : string) :
  String.eqb (name ++ " (View only)") "None" = false.
Proof.
  apply String.eqb_neq.
  destruct name as [| a [| b [| c [| e [| f n]]]]]; simpl; discriminate.
Qed.

(** An option "name (View only)" whose name has no opening parenthesis
    gives the term (value, name): the marker is cut off the label. *)
Theorem view_only_marker_removed (options : list (string * string))
  (value name : string) :
  includes "(" name = false ->
  In (value, (name ++ " (View only)")%string) options ->
  In {| termID := value; termName := name |} (terms options).
Proof.
  intros Hname Hin. unfold terms, sortTerms.
  eapply Permutation_in;
    [symmetry; apply (sortTerms_perm_from _ []) |].
  simpl. apply in_map_iff. exists (value, (name ++ " (View only)")%string).
  split.
  - cbn [fst snd]. f_equal.
    rewrite <- (JsMore.append_empty_r name) at 2.
    rewrite <- (removeFirst_marker "" name Hname). reflexivity.
  - apply filter_In. split; [exact Hin |].
    cbn [snd]. now rewrite marked_label_is_a_term.
Qed.

Lemma view_only_marker_removed_witness :
  In Sample.spring2006
    (terms [ ("", "None"); ("200610", "Spring 2006 (View only)");
             ("200520", "Fall 2005") ]).
Proof.
  apply (view_only_marker_removed
           [ ("", "None"); ("200610", "Spring 2006 (View only)");
             ("200520", "Fall 2005") ] "200610" "Spring 2006").
  - reflexivity.
  - simpl. tauto.
Defined.

(** *** Natural keys over a whole run *)

Lemma termLoop_unique env w : forall ts s out s' out' r,
  termLoop env w ts s out = (s', out', r) ->
  referenceKeysUnique s -> referenceKeysUnique s'.
Proof.
  induction ts as [| t rest IH]; simpl; intros s out s' out' r H Hs.
  - now injection H as <- _ _.
  - destruct (crawl env (termPage w (termID t)) (termID t) s) as [sa [rep | e]] eqn:Hc.
    + eapply IH; [exact H |]. eapply crawl_unique; eauto.
    + injection H as <- _ _. eapply crawl_unique; eauto.
Qed.

(** Whatever the source shows and however the run ends, the final store
    has no two Subject rows with the same short code, no two Instructor
    rows with the same name, no two Level rows and no two Attribute rows
    with the same label. *)
Theorem no_duplicate_reference_rows (env : Env) (w : World) :
  referenceKeysUnique (finalStore (startCrawl env w)).
Proof.
  assert (H0 : referenceKeysUnique emptyStore) by (repeat split; constructor).
  unfold startCrawl. destruct (termOptions w) as [options |]; [| exact H0].
  cbv zeta.
  destruct (termLoop env w (terms options)
              (fst (bulkCreate semesters (map termRecord (terms options)) emptyStore))
              [SemestersInserted (List.length (terms options))])
    as [[s' out] r] eqn:Hloop.
  assert (Hs : referenceKeysUnique s').
  { eapply termLoop_unique; [exact Hloop |].
    destruct (bulkCreate_rows semesters (map termRecord (terms options)) emptyStore)
      as (added & _ & _ & HF).
    unfold referenceKeysUnique, uniqueKey.
    rewrite !HF by discriminate. exact H0. }
  destruct r; exact Hs.
Qed.

End StartMore.

(** ** Rows and the table definitions *)

Module SchemaFacts.

Import Extract ExtractSpec ExtractFacts ExtractMoreSpec ExtractMore.
Import Db DbSpec DbFacts Crawl CrawlSpec CrawlFacts CrawlMoreSpec CrawlMore.
Import Start SchemaSpec.

Local Open Scope async_scope.

Lemma set_keys (k : string) (v : value) (o : obj) :
  incl (map fst (set k v o)) (k :: map fst o).
Proof.
  induction o as [| [k' v'] o IH]; simpl.
  - apply incl_refl.
  - destruct (String.eqb k k'); simpl.
    + apply incl_tl, incl_refl.
    + intros x [<- | Hx]; [simpl; tauto |].
      apply IH in Hx. simpl in *. tauto.
Qed.

Lemma set_column (cols : list string) (k : string) (v : value) (o : obj) :
  In k cols -> incl (map fst o) cols -> incl (map fst (set k v o)) cols.
Proof.
  intros Hk Ho x Hx. apply set_keys in Hx. destruct Hx as [<- | Hx]; auto.
Qed.

Ltac columns_tac :=
  repeat first
    [ assumption
    | apply set_column; [simpl; tauto |]
    | (intros ? Hin; simpl in Hin |- *; tauto) ].

(** The record of a header only has properties that are course columns,
    and an instructor record only a name and an email. *)
Lemma extractOne_columns (env : Env) (a : Anchor) (info : obj) (instr : option obj) :
  extractOne env a = Ok (info, instr) ->
  incl (map fst info) (columns CRNS)
  /\ (forall ii, instr = Some ii -> incl (map fst ii) (columns instructors)).
Proof.
  intros H.
  destruct (nextElementSibling a) as [d |] eqn:Ha;
    [| unfold extractOne in H; rewrite Ha in H; discriminate H].
  assert (Hremap : forall T base info1,
            incl (map fst base) (columns CRNS) -> remap T base = Ok info1 ->
            incl (map fst info1) (columns CRNS)).
  { intros T base info1 Hb Hr. unfold remap in Hr. ok_steps Hr.
    assert (Hrm : forall i1, remapped T base = Ok i1 ->
              incl (map fst i1) (columns CRNS)).
    { intros i1 Hi. unfold remapped in Hi. ok_steps Hi. injection Hi as <-.
      columns_tac. }
    destruct a0; [now apply Hrm |].
    ok_steps Hr. destruct (includes "Targeted eLipo" a0); [now apply Hrm |].
    now injection Hr as <-. }
  assert (Hattr : forall info1, incl (map fst info1) (columns CRNS) ->
            incl (map fst (setAttributes (descriptionText d) info1)) (columns CRNS)).
  { intros info1 Hi. unfold setAttributes.
    destruct (matchAfter "Attributes: " (descriptionText d)); columns_tac. }
  destruct (classTable d) as [t |] eqn:Hd.
  - destruct (extractOne_table _ _ _ _ _ Ha Hd H)
      as (base & ii & days & info1 & Hbase & Hinstr & _ & Hr & Hres).
    injection Hres as -> ->. split.
    + apply Hattr. eapply Hremap; [| exact Hr].
      unfold tableInfo in Hbase. ok_steps Hbase. injection Hbase as <-.
      unfold setDay.
      repeat match goal with
        | |- context [if ?b then _ else _] => destruct b
        end; columns_tac.
    + intros ii' E. injection E as <-.
      unfold instructorInfoOf in Hinstr. ok_steps Hinstr. injection Hinstr as <-.
      columns_tac.
  - destruct (extractOne_placeholder _ _ _ _ Ha Hd H)
      as (base & info1 & Hbase & Hr & Hres).
    injection Hres as -> ->. split; [| discriminate].
    apply Hattr. eapply Hremap; [| exact Hr].
    unfold placeholderInfo in Hbase. ok_steps Hbase. injection Hbase as <-.
    columns_tac.
Qed.

Lemma totalResults_columns (env : Env) (elements : list Anchor) (r : Results) :
  totalResults env elements = Ok r ->
  Forall (fun info => incl (map fst info) (columns CRNS)) (crnInfo r)
  /\ Forall (fun ii => incl (map fst ii) (columns instructors)) (instructorInfo r).
Proof.
  intros H. apply extractFrom_spec in H. destruct H as (xs & HF & -> & ->).
  simpl. clear r. induction HF as [| a [info instr] l xs Ha _ IH]; simpl.
  - split; constructor.
  - destruct IH as [IH1 IH2].
    destruct (extractOne_columns _ _ _ _ Ha) as (Hi & Hn).
    split; [constructor; auto |].
    unfold instructorsOf in *. simpl. destruct instr as [ii |]; [| exact IH2].
    simpl. constructor; eauto.
Qed.

(** *** Kept by every write *)

Lemma wellFormed_append m row s :
  conforms m row -> wellFormed s -> wellFormed (setRows m (rows m s ++ [row]) s).
Proof.
  intros Hrow Hs m'. specialize (Hs m') as Hm'.
  destruct m, m'; simpl in *; try exact Hm';
    (apply Forall_app; split; [exact Hm' | constructor; [exact Hrow | constructor]]).
Qed.

Lemma conforms_rowOf m n values :
  In "id" (columns m) -> incl (map fst values) (columns m) ->
  conforms m (rowOf n values).
Proof.
  intros Hid Hv x [<- | Hx]; [exact Hid | now apply Hv].
Qed.

Lemma id_column m : In "id" (columns m).
Proof. destruct m; simpl; tauto. Qed.

Lemma create_wellFormed m values :
  incl (map fst values) (columns m) -> keeps wellFormed (create m values).
Proof.
  intros Hv s s' r H Hs. rewrite create_run in H. injection H as <- _.
  apply wellFormed_append; [| exact Hs].
  apply conforms_rowOf; [apply id_column | exact Hv].
Qed.

Lemma findOrCreate_wellFormed m col v d :
  In col (columns m) -> incl (map fst d) (columns m) ->
  keeps wellFormed (findOrCreate m col v d).
Proof.
  intros Hcol Hd s s' r H Hs. apply findOrCreate_any in H.
  destruct H as [-> | [_ ->]]; [exact Hs |].
  apply wellFormed_append; [| exact Hs].
  apply conforms_rowOf; [apply id_column |].
  unfold newValues. destruct (get col d); try exact Hd.
  now apply set_column.
Qed.

Lemma keeps_bind_lift {A B : Type} (P : Store -> Prop) (x : result A)
  (k : A -> M B) :
  (forall a, x = Ok a -> keeps P (k a)) -> keeps P (bind (lift x) k).
Proof.
  intros Hk s s' r. unfold bind, lift. destruct x as [a | e]; intros H HP.
  - eapply Hk; eauto.
  - now injection H as <- _.
Qed.

Lemma subjectLoop_wellFormed env term short fulls : forall i n,
  keeps wellFormed (subjectLoop env term short i fulls n).
Proof.
  induction fulls as [| f rest IH]; intros i n; simpl; [apply keeps_ret |].
  apply keeps_bind.
  { apply findOrCreate_wellFormed; [simpl; tauto |].
    intros x Hx. simpl in *. tauto. }
  intros res. apply keeps_bind; [| intros; apply IH].
  destruct (snd res); [| apply keeps_ret].
  apply keeps_bind; [| intros; apply keeps_ret].
  destruct (VERBOSE env); [apply keeps_throw | apply keeps_ret].
Qed.

Lemma tokenLoop_wellFormed m col term arr :
  In (m, col) [ (levels, "level"); (attributes, "attribute") ] ->
  forall n, keeps wellFormed (tokenLoop m col term arr n).
Proof.
  intros Hin. induction arr as [| tok rest IH]; intros n; simpl;
    [apply keeps_ret |].
  apply keeps_bind; [| intros; apply IH].
  simpl in Hin. decompose [or] Hin; try contradiction;
    match goal with E : (_, _) = (_, _) |- _ => injection E as <- <- end;
    (apply findOrCreate_wellFormed; [simpl; tauto |];
     intros x Hx; simpl in *; tauto).
Qed.

Lemma courseStep_wellFormed term (ii : list obj) i (info : obj) c :
  Forall (fun x => incl (map fst x) (columns instructors)) ii ->
  incl (map fst info) (columns CRNS) ->
  keeps wellFormed (courseStep term ii i info c).
Proof.
  intros Hii Hinfo. unfold courseStep. apply keeps_bind.
  { destruct (nth_error ii i) as [x |] eqn:E; [| apply keeps_ret].
    apply keeps_bind; [| intros; apply keeps_ret].
    apply nth_error_In in E. rewrite Forall_forall in Hii.
    apply findOrCreate_wellFormed; [simpl; tauto |].
    apply set_column; [simpl; tauto | now apply Hii]. }
  intros n1. apply keeps_bind.
  { destruct (truthy _); [| apply keeps_ret].
    apply keeps_bind; [apply keeps_lift |].
    intros a. apply tokenLoop_wellFormed. simpl. tauto. }
  intros n2. apply keeps_bind.
  { destruct (truthy _); [| apply keeps_ret].
    apply keeps_bind; [apply keeps_lift |].
    intros a. apply tokenLoop_wellFormed. simpl. tauto. }
  intros n3. apply keeps_bind; [| intros; apply keeps_ret].
  apply create_wellFormed. apply set_column; [simpl; tauto | exact Hinfo].
Qed.

Lemma courseLoop_wellFormed term (ii infos : list obj) :
  Forall (fun x => incl (map fst x) (columns instructors)) ii ->
  Forall (fun info => incl (map fst info) (columns CRNS)) infos ->
  forall i c, keeps wellFormed (courseLoop term ii i infos c).
Proof.
  intros Hii HF. induction HF as [| info rest Hinfo _ IH]; intros i c; simpl.
  - apply keeps_ret.
  - apply keeps_bind; [now apply courseStep_wellFormed | intros; apply IH].
Qed.

Lemma crawl_wellFormed env page term : keeps wellFormed (crawl env page term).
Proof.
  unfold crawl.
  apply keeps_bind; [destruct (subjectSelect page); [apply keeps_ret | apply keeps_throw] |].
  intros sel. apply keeps_bind; [apply subjectLoop_wellFormed |].
  intros n. apply keeps_bind;
    [destruct (listing page); [apply keeps_ret | apply keeps_throw] |].
  intros elements. apply keeps_bind_lift. intros results Hres.
  destruct (totalResults_columns _ _ _ Hres) as [Hinfos Hii].
  apply keeps_bind; [now apply courseLoop_wellFormed | intros; apply keeps_ret].
Qed.

Lemma bulkCreate_wellFormed m (records : list obj) :
  Forall (fun x => incl (map fst x) (columns m)) records ->
  forall s, wellFormed s -> wellFormed (fst (bulkCreate m records s)).
Proof.
  induction 1 as [| x rest Hx _ IH]; intros s Hs; [exact Hs |].
  cbn [bulkCreate]. rewrite (bind_run _ _ _ _ _ (create_run m x s)).
  apply IH. apply wellFormed_append; [| exact Hs].
  apply conforms_rowOf; [apply id_column | exact Hx].
Qed.

Lemma termLoop_wellFormed env w : forall ts s out s' out' r,
  termLoop env w ts s out = (s', out', r) -> wellFormed s -> wellFormed s'.
Proof.
  induction ts as [| t rest IH]; simpl; intros s out s' out' r H Hs.
  - now injection H as <- _ _.
  - destruct (crawl env (termPage w (termID t)) (termID t) s) as [sa [rep | e]] eqn:Hc.
    + eapply IH; [exact H |]. eapply crawl_wellFormed; eauto.
    + injection H as <- _ _. eapply crawl_wellFormed; eauto.
Qed.

(** Whatever the source shows and however the run ends, every row of the
    final store only has properties that are declared columns of its table:
    nothing the pipeline writes falls outside the table definitions. *)
Theorem rows_fit_the_table_definitions (env : Env) (w : World) (m : Model) :
  Forall (conforms m) (rows m (finalStore (startCrawl env w))).
Proof.
  assert (H0 : wellFormed emptyStore) by (intros m'; destruct m'; constructor).
  unfold startCrawl. destruct (termOptions w) as [options |]; [| apply H0].
  cbv zeta.
  destruct (termLoop env w (terms options)
              (fst (bulkCreate semesters (map termRecord (terms options)) emptyStore))
              [SemestersInserted (List.length (terms options))])
    as [[s' out] r] eqn:Hloop.
  assert (Hs : wellFormed s').
  { eapply termLoop_wellFormed; [exact Hloop |].
    apply bulkCreate_wellFormed; [| exact H0].
    apply Forall_forall. intros x Hx. apply in_map_iff in Hx.
    destruct Hx as (t & <- & _). intros k Hk. simpl in *. tauto. }
  destruct r; apply Hs.
Qed.

End SchemaFacts.

(** ** The two revisions of the extractor *)

Module Rev0Facts.

Import Extract ExtractSpec ExtractFacts ExtractMoreSpec ExtractMore Rev0Spec.

(** *** Assignments to different properties commute *)

Lemma set_same_keys (k : string) (v : value) (o : obj) :
  In k (map fst o) -> map fst (set k v o) = map fst o.
Proof.
  induction o as [| [k' v'] o IH]; simpl; [tauto |].
  destruct (String.eqb_spec k k') as [-> | Hne]; simpl; [reflexivity |].
  intros [E | Hin]; [congruence | now rewrite IH].
Qed.

Lemma set_comm (k k' : string) (v v' : value) (o : obj) :
  k <> k' -> In k (map fst o) -> In k' (map fst o) ->
  set k v (set k' v' o) = set k' v' (set k v o).
Proof.
  intros Hne. induction o as [| [k0 v0] o IH]; simpl; [tauto |].
  intros Hk Hk'.
  destruct (String.eqb_spec k' k0) as [-> | H1];
    destruct (String.eqb_spec k k0) as [-> | H2]; simpl.
  - contradiction.
  - rewrite String.eqb_refl. destruct (String.eqb_spec k k0); [contradiction |].
    reflexivity.
  - rewrite String.eqb_refl. destruct (String.eqb_spec k' k0); [contradiction |].
    reflexivity.
  - destruct (String.eqb_spec k k0); [contradiction |].
    destruct (String.eqb_spec k' k0); [contradiction |].
    f_equal. apply IH; intuition congruence.
Qed.

Lemma keys_set (k : string) (v : value) (o : obj) :
  map fst o = infoKeys -> In k infoKeys -> map fst (set k v o) = infoKeys.
Proof. intros Ho Hk. rewrite set_same_keys; [exact Ho | now rewrite Ho]. Qed.

Lemma setDay_keys (days : string) (o : obj) :
  map fst o = infoKeys -> map fst (setDay days o) = infoKeys.
Proof.
  intros Ho. unfold setDay.
  repeat match goal with
    | |- context [if ?b then _ else _] => destruct b
    end; try exact Ho; (apply keys_set; [exact Ho | simpl; tauto]).
Qed.

(** The day cascade and an assignment to another property can be done in
    either order. *)
Lemma setDay_set (days k : string) (v : value) (o : obj) :
  map fst o = infoKeys -> In k infoKeys -> ~ In k dayKeys ->
  setDay days (set k v o) = set k v (setDay days o).
Proof.
  intros Ho Hk Hnd. unfold setDay.
  repeat match goal with
    | |- context [if ?b then _ else _] => destruct b
    end; try reflexivity;
    (apply set_comm;
     [ intros <-; apply Hnd; simpl; tauto
     | rewrite Ho; simpl; tauto
     | rewrite Ho; exact Hk ]).
Qed.

Lemma tableInfo_keys (env : Env) (T : list string) (text : string) (t : Table)
  (base : obj) :
  tableInfo env T text t = Ok base -> map fst base = infoKeys.
Proof. unfold tableInfo. intros H. ok_steps H. now injection H as <-. Qed.

Ltac keys_tac :=
  repeat first [ assumption | apply keys_set; [| simpl; tauto] ].

Lemma remapped_keys (T : list string) (o x : obj) :
  map fst o = infoKeys -> remapped T o = Ok x -> map fst x = infoKeys.
Proof.
  intros Ho H. unfold remapped in H. ok_steps H. injection H as <-. keys_tac.
Qed.

Lemma remapped_setDay (days : string) (T : list string) (o x : obj) :
  map fst o = infoKeys -> remapped T o = Ok x ->
  remapped T (setDay days o) = Ok (setDay days x).
Proof.
  intros Ho H. unfold remapped in *. ok_steps H. injection H as <-.
  simpl rbind. f_equal.
  repeat (rewrite setDay_set; [| keys_tac | simpl; tauto | not_in_keys]).
  reflexivity.
Qed.

Lemma remap_keys (T : list string) (o x : obj) :
  map fst o = infoKeys -> remap T o = Ok x -> map fst x = infoKeys.
Proof.
  intros Ho H. unfold remap in H. ok_steps H. destruct a.
  - eapply remapped_keys; eauto.
  - ok_steps H. destruct (includes "Targeted eLipo" a).
    + eapply remapped_keys; eauto.
    + now injection H as <-.
Qed.

Lemma remap_setDay (days : string) (T : list string) (o x : obj) :
  map fst o = infoKeys -> remap T o = Ok x ->
  remap T (setDay days o) = Ok (setDay days x).
Proof.
  intros Ho H. unfold remap in *. ok_steps H. simpl rbind. destruct a.
  - now apply remapped_setDay.
  - ok_steps H. simpl rbind. destruct (includes "Targeted eLipo" a).
    + now apply remapped_setDay.
    + now injection H as <-.
Qed.

Lemma setAttributes_setDay (days text : string) (o : obj) :
  map fst o = infoKeys ->
  setAttributes text (setDay days o) = setDay days (setAttributes text o).
Proof.
  intros Ho. unfold setAttributes.
  destruct (matchAfter "Attributes: " text); [| reflexivity].
  symmetry. apply setDay_set; [exact Ho | simpl; tauto | not_in_keys].
Qed.

(** *** What a turn of the earlier loop went through *)

Lemma rev0_extractOne_inv (env : Env) (a : Anchor) (info ii : obj) :
  Rev0.extractOne env a = Ok (info, ii) ->
  exists d t base info1 days,
    nextElementSibling a = Some d
    /\ classTable d = Some t
    /\ tableInfo env (split " - " (innerText a)) (descriptionText d) t = Ok base
    /\ remap (split " - " (innerText a)) base = Ok info1
    /\ Rev0.instructorInfoOf t (setAttributes (descriptionText d) info1) = Ok ii
    /\ td t 2 = Ok days
    /\ info = setDay days (setAttributes (descriptionText d) info1).
Proof.
  unfold Rev0.extractOne. intros H.
  destruct (nextElementSibling a) as [d |] eqn:Ha; [| discriminate H].
  simpl rbind in H. ok_steps H.
  destruct (classTable d) as [t |] eqn:Hd; [| discriminate E0].
  injection E0 as <-. injection H as <- <-.
  exists d. do 4 eexists. repeat split; try eassumption; reflexivity.
Qed.

Lemma rev0_instructor (t : Table) (o o' ii : obj) :
  get "instructor" o = get "instructor" o' ->
  Rev0.instructorInfoOf t o = Ok ii -> instructorInfoOf t o' = Ok ii.
Proof.
  intros Hg H. unfold Rev0.instructorInfoOf in H. unfold instructorInfoOf.
  ok_steps H. injection H as <-. simpl rbind. rewrite <- Hg, E0. simpl rbind.
  destruct (value_eqb (get "instructor" o) (VStr "TBA")).
  - injection E1 as <-. reflexivity.
  - destruct (linkHref t) as [href |]; [| discriminate E1].
    simpl rbind in E1. rewrite E1. reflexivity.
Qed.

Lemma rev0_agrees_once (env : Env) (a : Anchor) (info ii : obj) :
  Rev0.extractOne env a = Ok (info, ii) ->
  extractOne env a = Ok (info, Some ii).
Proof.
  intros H. apply rev0_extractOne_inv in H.
  destruct H as (d & t & base & info1 & days & Ha & Hd & Hbase & Hremap
                 & Hinstr & Hdays & ->).
  pose proof (tableInfo_keys _ _ _ _ _ Hbase) as Kbase.
  pose proof (remap_keys _ _ _ Kbase Hremap) as K1.
  unfold extractOne. rewrite Ha. simpl rbind. rewrite Hd, Hbase. simpl rbind.
  rewrite (rev0_instructor t (setAttributes (descriptionText d) info1) base ii).
  - simpl rbind. rewrite Hdays. simpl rbind. cbn [fst snd].
    rewrite (remap_setDay days _ _ _ Kbase Hremap). simpl rbind.
    now rewrite setAttributes_setDay.
  - rewrite setAttributes_frame by discriminate.
    apply (remap_frame _ _ _ _ Hremap). not_in_keys.
  - exact Hinstr.
Qed.

Lemma rev0_extractFrom_agrees (env : Env) (elements : list Anchor) : forall acc r,
  Rev0.extractFrom env elements acc = Ok r ->
  extractFrom env elements acc = Ok r
  /\ List.length (crnInfo r) = List.length (crnInfo acc) + List.length elements
  /\ List.length (instructorInfo r)
     = List.length (instructorInfo acc) + List.length elements
  /\ Forall (fun a => hasTable a = true) elements.
Proof.
  induction elements as [| a rest IH]; intros acc r H; simpl in H.
  - injection H as <-. simpl. repeat split; try lia. constructor.
  - ok_steps H. destruct a0 as [info ii].
    pose proof (rev0_extractOne_inv _ _ _ _ E) as (d & t & _ & _ & _ & Ha & Hd & _).
    apply IH in H. destruct H as (Hnew & L1 & L2 & HF).
    simpl in *. rewrite (rev0_agrees_once _ _ _ _ E). simpl.
    rewrite !length_app in *. simpl in *.
    repeat split; try lia; [exact Hnew |].
    constructor; [| exact HF]. unfold hasTable. now rewrite Ha, Hd.
Qed.

(** Wherever the extractor of the earlier revision gives a result, the
    later one gives the very same two arrays: the branch for placeholders
    and the test for a missing link changed nothing for the listings the
    earlier revision could read. *)
Theorem later_extractor_agrees_with_earlier (env : Env) (elements : list Anchor)
  (r : Results) :
  Rev0.totalResults env elements = Ok r ->
  totalResults env elements = Ok r.
Proof. intros H. now apply rev0_extractFrom_agrees in H. Qed.

Lemma later_extractor_agrees_with_earlier_witness :
  exists r,
    Rev0.totalResults Sample.env [Sample.robotics; Sample.calculusLab] = Ok r
    /\ totalResults Sample.env [Sample.robotics; Sample.calculusLab] = Ok r.
Proof.
  eexists. split; [vm_compute; reflexivity |].
  apply (later_extractor_agrees_with_earlier Sample.env
           [Sample.robotics; Sample.calculusLab]).
  vm_compute. reflexivity.
Defined.

(** In the earlier revision the two arrays are parallel: a result has one
    course record and one instructor record per header, and every header
    of the listing has a table. *)
Theorem earlier_arrays_are_parallel (env : Env) (elements : list Anchor)
  (r : Results) :
  Rev0.totalResults env elements = Ok r ->
  List.length (crnInfo r) = List.length elements
  /\ List.length (instructorInfo r) = List.length elements
  /\ Forall (fun a => hasTable a = true) elements.
Proof.
  intros H. apply rev0_extractFrom_agrees in H.
  destruct H as (_ & L1 & L2 & HF). simpl in *. auto.
Qed.

Lemma earlier_arrays_are_parallel_witness :
  exists r,
    Rev0.totalResults Sample.env [Sample.robotics; Sample.calculusLab] = Ok r
    /\ List.length (crnInfo r) = 2
    /\ List.length (instructorInfo r) = 2
    /\ Forall (fun a => hasTable a = true) [Sample.robotics; Sample.calculusLab].
Proof.
  eexists. split; [vm_compute; reflexivity |].
  apply (earlier_arrays_are_parallel Sample.env
           [Sample.robotics; Sample.calculusLab]).
  vm_compute. reflexivity.
Defined.

(** The earlier revision cannot read a listing with a placeholder or with
    a table without a link for a named instructor: where the later one
    gives a record without instructor, or the email "none", it throws. *)
Theorem earlier_extractor_needs_table_and_link (env : Env) (a : Anchor)
  (d : Detail) :
  nextElementSibling a = Some d ->
  classTable d = None
  \/ (exists t c7, classTable d = Some t /\ linkHref t = None
                   /\ nth_error (tds t) 7 = Some c7
                   /\ at_ (split "(P)" c7) 0 <> VStr "TBA") ->
  forall r, Rev0.extractOne env a <> Ok r.
Proof.
  intros Ha Hbad [info ii] H. apply rev0_extractOne_inv in H.
  destruct H as (d' & t & base & info1 & days & Ha' & Hd & Hbase & Hremap
                 & Hinstr & _ & _).
  rewrite Ha in Ha'. injection Ha' as <-.
  destruct Hbad as [Hnone | (t' & c7 & Ht & Hlink & H7 & Hx)]; [congruence |].
  rewrite Hd in Ht. injection Ht as <-.
  assert (Hi : get "instructor" (setAttributes (descriptionText d) info1)
               = at_ (split "(P)" c7) 0).
  { rewrite setAttributes_frame by discriminate.
    rewrite (remap_frame _ _ _ _ Hremap) by not_in_keys.
    unfold tableInfo in Hbase. ok_steps Hbase. injection Hbase as <-.
    unfold td in E1. rewrite H7 in E1. now injection E1 as <-. }
  unfold Rev0.instructorInfoOf in Hinstr. ok_steps Hinstr.
  rewrite Hi, Hlink in E1.
  destruct (value_eqb (at_ (split "(P)" c7) 0) (VStr "TBA")) eqn:Ev;
    [| discriminate E1].
  apply value_eqb_eq in Ev. contradiction.
Qed.

Lemma earlier_extractor_needs_table_and_link_witness :
  (exists r, extractOne Sample.env Sample.thesis = Ok r)
  /\ ~ exists r, Rev0.extractOne Sample.env Sample.thesis = Ok r.
Proof.
  split; [eexists; vm_compute; reflexivity |]. intros [r H].
  exact (earlier_extractor_needs_table_and_link Sample.env Sample.thesis
           {| descriptionText := Sample.freeText; classTable := None |}
           eq_refl (or_introl eq_refl) r H).
Defined.

End Rev0Facts.

(** ** The term a row was written for *)

Module StampFacts.

Import Extract Db DbSpec DbFacts Crawl CrawlSpec CrawlFacts CrawlMoreSpec CrawlMore.
Import StampSpec.

Local Open Scope async_scope.

Section AddsOnly.

Variable Q : Model -> obj -> Prop.

Lemma addsOnly_same {A : Type} (c : M A) :
  (forall s s' r, c s = (s', r) -> s' = s) -> addsOnly Q c.
Proof.
  intros Hc s s' r H m. rewrite (Hc _ _ _ H). exists [].
  now rewrite app_nil_r.
Qed.

Lemma addsOnly_ret {A : Type} (a : A) : addsOnly Q (ret a).
Proof. apply addsOnly_same. intros s s' r H. now injection H as <- _. Qed.

Lemma addsOnly_throw {A : Type} (e : exn) : addsOnly Q (@throw A e).
Proof. apply addsOnly_same. intros s s' r H. now injection H as <- _. Qed.

Lemma addsOnly_lift {A : Type} (x : result A) : addsOnly Q (lift x).
Proof. apply addsOnly_same. intros s s' r H. now injection H as <- _. Qed.

Lemma addsOnly_bind {A B : Type} (c : M A) (k : A -> M B) :
  addsOnly Q c -> (forall a, addsOnly Q (k a)) -> addsOnly Q (bind c k).
Proof.
  intros Hc Hk s s' r. unfold bind.
  destruct (c s) as [s1 [a | e]] eqn:E; intros H m.
  - destruct (Hc _ _ _ E m) as (l1 & E1 & F1).
    destruct (Hk a _ _ _ H m) as (l2 & E2 & F2).
    exists (l1 ++ l2). rewrite E2, E1, <- app_assoc. split; [reflexivity |].
    apply Forall_app. auto.
  - injection H as <- _. exact (Hc _ _ _ E m).
Qed.

Lemma addsOnly_append (m : Model) (row : obj) (s : Store) :
  Q m row ->
  forall m', exists added,
    rows m' (setRows m (rows m s ++ [row]) s) = rows m' s ++ added
    /\ Forall (Q m') added.
Proof.
  intros Hrow m'. destruct m, m'; simpl;
    first [ exists [row]; split; [reflexivity | now repeat constructor]
          | exists []; split; [now rewrite app_nil_r | constructor] ].
Qed.

Lemma addsOnly_create (m : Model) (values : obj) :
  (forall n, Q m (rowOf n values)) -> addsOnly Q (create m values).
Proof.
  intros HQ s s' r H. rewrite create_run in H. injection H as <- _.
  apply addsOnly_append. apply HQ.
Qed.

Lemma addsOnly_findOrCreate (m : Model) (col : string) (v : value) (d : obj) :
  (forall n, Q m (rowOf n (newValues col v d))) ->
  addsOnly Q (findOrCreate m col v d).
Proof.
  intros HQ s s' r H. apply findOrCreate_any in H.
  destruct H as [-> | [_ ->]].
  - intros m'. exists []. now rewrite app_nil_r.
  - apply addsOnly_append. apply HQ.
Qed.

End AddsOnly.

Lemma newValues_other (col k : string) (v : value) (d : obj) :
  k <> col -> get k (newValues col v d) = get k d.
Proof.
  intros Hk. unfold newValues. destruct (get col d); try reflexivity.
  now apply get_set_other.
Qed.

Lemma stamped_subjectLoop env term short fulls : forall i n,
  addsOnly (stamped term) (subjectLoop env term short i fulls n).
Proof.
  induction fulls as [| f rest IH]; intros i n; simpl; [apply addsOnly_ret |].
  apply addsOnly_bind.
  { apply addsOnly_findOrCreate. intros k. simpl.
    now rewrite newValues_other by discriminate. }
  intros res. apply addsOnly_bind; [| intros; apply IH].
  destruct (snd res); [| apply addsOnly_ret].
  apply addsOnly_bind; [| intros; apply addsOnly_ret].
  destruct (VERBOSE env); [apply addsOnly_throw | apply addsOnly_ret].
Qed.

Lemma stamped_tokenLoop m col term arr :
  In (m, col) [ (levels, "level"); (attributes, "attribute") ] ->
  forall n, addsOnly (stamped term) (tokenLoop m col term arr n).
Proof.
  intros Hin. induction arr as [| tok rest IH]; intros n; simpl;
    [apply addsOnly_ret |].
  apply addsOnly_bind; [| intros; apply IH].
  apply addsOnly_findOrCreate. intros k.
  simpl in Hin. decompose [or] Hin; try contradiction;
    match goal with E : (_, _) = (_, _) |- _ => injection E as <- <- end;
    simpl; first [reflexivity | now rewrite newValues_other by discriminate].
Qed.

Lemma stamped_courseStep term ii i info c :
  addsOnly (stamped term) (courseStep term ii i info c).
Proof.
  unfold courseStep. apply addsOnly_bind.
  { destruct (nth_error ii i) as [x |]; [| apply addsOnly_ret].
    apply addsOnly_bind; [| intros; apply addsOnly_ret].
    apply addsOnly_findOrCreate. intros k. simpl.
    rewrite newValues_other by discriminate. apply get_set_same. }
  intros n1. apply addsOnly_bind.
  { destruct (truthy _); [| apply addsOnly_ret].
    apply addsOnly_bind; [apply addsOnly_lift |].
    intros a. apply stamped_tokenLoop. simpl. tauto. }
  intros n2. apply addsOnly_bind.
  { destruct (truthy _); [| apply addsOnly_ret].
    apply addsOnly_bind; [apply addsOnly_lift |].
    intros a. apply stamped_tokenLoop. simpl. tauto. }
  intros n3. apply addsOnly_bind; [| intros; apply addsOnly_ret].
  apply addsOnly_create. intros k. simpl. apply get_set_same.
Qed.

Lemma stamped_courseLoop term ii infos : forall i c,
  addsOnly (stamped term) (courseLoop term ii i infos c).
Proof.
  induction infos as [| info rest IH]; intros i c; simpl; [apply addsOnly_ret |].
  apply addsOnly_bind; [apply stamped_courseStep | intros; apply IH].
Qed.

(** However [crawl] ends, every row it wrote carries the term it was
    crawling: each table is what it was before, followed by new rows, and
    a new Subject, Instructor, Level or Attribute row has that term as its
    [firstSeen], a new course row has it as its [termID], and there is no
    new Semester row.  Rows of earlier terms keep their stamp. *)
Theorem new_rows_carry_the_term (env : Env) (page : TermPage) (term : string)
  (s s' : Store) (r : result Report) :
  crawl env page term s = (s', r) ->
  forall m, exists added,
    rows m s' = rows m s ++ added /\ Forall (stamped term m) added.
Proof.
  revert s s' r. change (addsOnly (stamped term) (crawl env page term)).
  unfold crawl.
  apply addsOnly_bind;
    [destruct (subjectSelect page); [apply addsOnly_ret | apply addsOnly_throw] |].
  intros sel. apply addsOnly_bind; [apply stamped_subjectLoop |].
  intros n. apply addsOnly_bind;
    [destruct (listing page); [apply addsOnly_ret | apply addsOnly_throw] |].
  intros elements. apply addsOnly_bind; [apply addsOnly_lift |].
  intros results. apply addsOnly_bind;
    [apply stamped_courseLoop | intros; apply addsOnly_ret].
Qed.

Lemma new_rows_carry_the_term_witness :
  exists s1 r1 s2 r2,
    crawl Sample.env (Sample.page [Sample.robotics]) "201910" emptyStore
    = (s1, Ok r1)
    /\ crawl Sample.env (Sample.page [Sample.thesis; Sample.noCredits]) "202010" s1
       = (s2, r2)
    /\ forall m, exists added,
         rows m s2 = rows m s1 ++ added /\ Forall (stamped "202010" m) added.
Proof.
  eexists. eexists. eexists. eexists.
  split; [vm_compute; reflexivity |]. split; [vm_compute; reflexivity |].
  eapply (new_rows_carry_the_term Sample.env
            (Sample.page [Sample.thesis; Sample.noCredits]) "202010").
  vm_compute. reflexivity.
Defined.

End StampFacts.
